(** * Report-Admin tool server (echo.py): model and verified properties

    The module under study is a flat collection of tool functions that
    open a pyodbc connection, run a handful of SQL statements and render
    the outcome as text.  The functions are embedded here as computations
    in a small state-and-exception monad over a model of the database
    server; the Python runtime ([json.dumps], [repr]), the process
    environment and the parts of the database engine that live outside
    the repository (collation, [LIKE], ad-hoc SQL, the stored procedure)
    are fields of the [Runtime] class. *)

From Stdlib Require Import ZArith Lia.
From stdpp Require Import base list strings gmap pretty.

Set Warnings "-register-all".

Local Open Scope Z_scope.

(** ** Python values and string primitives *)

(** The values that travel through the tool functions: JSON scalars and
    objects on the way in, SQL cells ([VNone] is NULL) on the way out. *)
Inductive value : Type :=
| VNone
| VInt (z : Z)
| VStr (s : string)
| VDict (d : list (string * value)).

Definition nl : string := String (Ascii.ascii_of_nat 10) EmptyString.

(** [needle in hay] on [str]. *)
Fixpoint contains (needle hay : string) : bool :=
  String.prefix needle hay ||
  match hay with
  | EmptyString => false
  | String _ hay' => contains needle hay'
  end.

(** The ASCII case map: bytes [a]..[z] move to [A]..[Z], every other byte
    is left alone. *)
Definition upper_ascii (c : Ascii.ascii) : Ascii.ascii :=
  let n := Ascii.nat_of_ascii c in
  if ((97 <=? n)%nat && (n <=? 122)%nat)%bool
  then Ascii.ascii_of_nat (n - 32) else c.

Fixpoint ascii_upper (s : string) : string :=
  match s with
  | EmptyString => EmptyString
  | String c s' => String (upper_ascii c) (ascii_upper s')
  end.

(** A byte that is an ASCII character by itself; in UTF-8 every byte of a
    character outside ASCII is 128 or more. *)
Definition is_ascii (c : Ascii.ascii) : bool :=
  (Ascii.nat_of_ascii c <? 128)%nat.

(** [sep.join(l)]. *)
Fixpoint join (sep : string) (l : list string) : string :=
  match l with
  | [] => EmptyString
  | [x] => x
  | x :: l' => x +:+ sep +:+ join sep l'
  end.

(** [s.replace(old, new)]: leftmost non-overlapping occurrences.  [skip]
    counts the bytes of a matched occurrence still to be dropped. *)
Fixpoint replace_from (old new s : string) (skip : nat) : string :=
  match s with
  | EmptyString => EmptyString
  | String c s' =>
    match skip with
    | S k => replace_from old new s' k
    | O =>
      if String.prefix old s
      then new +:+ replace_from old new s' (String.length old - 1)
      else String c (replace_from old new s' 0)
    end
  end.

Fixpoint interleave (new s : string) : string :=
  match s with
  | EmptyString => new
  | String c s' => new +:+ String c (interleave new s')
  end.

Definition replace (old new s : string) : string :=
  match old with
  | EmptyString => interleave new s
  | _ => replace_from old new s 0
  end.

(** [c * n] for a one-character string. *)
Fixpoint repeat_string (s : string) (n : nat) : string :=
  match n with
  | O => EmptyString
  | S n' => s +:+ repeat_string s n'
  end.

(** Truth value of a Python object in a condition. *)
Definition truthy (v : value) : bool :=
  match v with
  | VNone => false
  | VInt z => negb (z =? 0)
  | VStr s => negb (String.eqb s EmptyString)
  | VDict d => negb (Nat.eqb (length d) 0)
  end.

Definition of_opt_str (o : option string) : value :=
  match o with Some s => VStr s | None => VNone end.

Definition of_opt_int (o : option Z) : value :=
  match o with Some z => VInt z | None => VNone end.

(** [v == s] and [v == z] against a literal. *)
Definition py_eq_str (v : value) (s : string) : bool :=
  match v with VStr x => String.eqb x s | _ => false end.

Definition is_none (v : value) : bool :=
  match v with VNone => true | _ => false end.

(** Insertion-ordered dictionaries ([dict] keeps insertion order, and
    [json.dumps] prints in that order). *)
Definition pydict : Type := list (string * value).

Fixpoint dict_get (k : string) (d : pydict) : option value :=
  match d with
  | [] => None
  | (k', v) :: d' => if String.eqb k k' then Some v else dict_get k d'
  end.

(** [d[k] = v]: overwrite in place, or append a new key. *)
Fixpoint dict_set (k : string) (v : value) (d : pydict) : pydict :=
  match d with
  | [] => [(k, v)]
  | (k', v') :: d' =>
    if String.eqb k k' then (k', v) :: d' else (k', v') :: dict_set k v d'
  end.

(** [d.update(other)]. *)
Definition dict_update (d other : pydict) : pydict :=
  fold_left (fun acc kv => dict_set (fst kv) (snd kv) acc) other d.

(** ** Exceptions *)

Inductive exn : Type :=
| ValueError (msg : string)
| KeyError (key : value)
| TypeError (msg : string)
| AttributeError (msg : string)
| DriverError (msg : string).

(** ** The database server *)

(** A row of INFORMATION_SCHEMA.COLUMNS. *)
Record column_row : Type := {
  TABLE_NAME : value;
  COLUMN_NAME : value;
  DATA_TYPE : value;
  CHARACTER_MAXIMUM_LENGTH : value;
  IS_NULLABLE : value;
  ORDINAL_POSITION : Z
}.

(** A row of default_roles (fields under the alias [dr] of the source's
    queries). *)
Record role_row : Type := {
  dr_code : value;
  dr_description : value;
  dr_application_type : value;
  dr_business_unit : value;
  dr_order_ : value
}.

(** A row of assigned_reports (alias [ar]). *)
Record assignment : Type := {
  ar_role : value;
  ar_report_prefix : value;
  ar_business_unit : value;
  ar_application_type : value;
  ar_order : value;
  ar_custom_tag : value;
  ar_sales_office : value;
  ar_center_logistical : value
}.

(** The positional arguments of one call of
    sp_ecosystem_create_columns_config, in the order of the call text. *)
Record sp_args : Type := {
  sp_report_prefix : value;
  sp_report_description : value;
  sp_report_description_es : value;
  sp_query : value;
  sp_params_config : value;
  sp_is_detail : value;
  sp_hasDetail : value;
  sp_actionColumn : value;
  sp_detail_prefix : value;
  sp_detail_mode : value;
  sp_open_another_tab : value;
  sp_type_resource : value;
  sp_columns_to_render : value;
  sp_default_for_all : value
}.

Record database : Type := {
  information_schema_columns : list column_row;
  default_roles : list role_row;
  assigned_reports : list assignment;
  (** the report definitions kept by the stored procedure *)
  columns_config : list sp_args
}.

(** Result set of an ad-hoc statement: [cursor.description] names and rows. *)
Definition rowset : Type := (list string * list (list value))%type.

(** What the repository takes from outside: the process environment read
    at import time, two runtime functions, and the database engine. *)
Class Runtime : Type := {
  DEV_SERVER : option string;
  DEV_DATABASE : option string;
  DEV_USERNAME : option string;
  DEV_PASSWORD : option string;
  (** [json.dumps] on a dictionary *)
  json_dumps : pydict -> string;
  (** [repr] *)
  py_repr : value -> string;
  (** [str.upper] on a run of characters outside ASCII, which follows the
      Unicode case mapping (U+0131, dotless i, becomes [I]) *)
  upper_non_ascii : string -> string;
  (** sort key of a text value under the column collation: two texts are
      equal for the engine when their keys are *)
  collate : string -> string;
  (** [value LIKE pattern] *)
  sql_like : string -> string -> bool;
  (** an ad-hoc statement run against a database *)
  run_sql : string -> database -> (string + rowset) * database;
  (** the body of sp_ecosystem_create_columns_config, which lives in the
      database: either an error message or the database it leaves *)
  run_sp : sp_args -> database -> string + database
}.

(** ** Connections, the fault schedule and the call log *)

(** The statements the module sends, one constructor per SQL text of the
    source, with the parameters bound to its [?] markers. *)
Inductive statement : Type :=
| SelectColumns (table_name : value)
| RawSQL (text : string)
| ExecCreateColumnsConfig (args : sp_args)
| SelectRoles (bu : value) (pattern : value)
| CountAssigned (bu prefix role_code : value)
| InsertAssigned (row : assignment)
| SelectCurrent (bu prefix role_code : value)
| UpdateAssigned (sets : list (string * value)) (bu prefix role_code : value)
| CountAssignedIn (bu prefix : value) (role_codes : list value)
| SelectRolesInfo (bu prefix : value) (role_codes : list value)
| UpdateAssignedIn (sets : list (string * value)) (bu prefix : value)
    (role_codes : list value).

(** Calls made to the driver, in order, whether or not they succeed. *)
Inductive event : Type :=
| EConnect (conn_string : string)
| EExecute (conn : nat) (q : statement)
| ECommit (conn : nat)
| EClose (conn : nat).

(** A pyodbc connection: autocommit is off, so statements act on the
    connection's own view until [commit]. *)
Record session : Type := {
  target : string;
  work : database;
  is_open : bool
}.

Record world : Type := {
  (** committed state of the database reached by each connection string *)
  server : string -> database;
  (** connection objects, addressed by their index *)
  sessions : list session;
  (** one entry per driver call still to come: [Some msg] makes that call
      raise [pyodbc.Error(msg)]; past the end every call succeeds *)
  faults : list (option string);
  log : list event
}.

(** ** The monad of tool functions *)

Definition M (A : Type) : Type := world -> (exn + A) * world.

Definition ret {A} (a : A) : M A := fun w => (inr a, w).

Definition raise {A} (e : exn) : M A := fun w => (inl e, w).

Definition bind {A B} (m : M A) (k : A -> M B) : M B := fun w =>
  match m w with
  | (inl e, w') => (inl e, w')
  | (inr a, w') => k a w'
  end.

(** [try: m  except Exception as e: h e] *)
Definition try_except {A} (m : M A) (h : exn -> M A) : M A := fun w =>
  match m w with
  | (inl e, w') => h e w'
  | (inr a, w') => (inr a, w')
  end.

Declare Scope py_scope.
Delimit Scope py_scope with py.
Notation "x <- m ;; k" := (bind m (fun x => k))
  (at level 100, m at next level, right associativity) : py_scope.
Notation "m ;; k" := (bind m (fun _ => k))
  (at level 100, right associativity) : py_scope.
Local Open Scope py_scope.

Definition record (e : event) (w : world) : world :=
  {| server := server w; sessions := sessions w; faults := faults w;
     log := log w ++ [e] |}.

Definition pop_fault (w : world) : option string * world :=
  match faults w with
  | [] => (None, w)
  | f :: rest =>
    (f, {| server := server w; sessions := sessions w; faults := rest;
           log := log w |})
  end.

(** Every driver call is logged and then consults the fault schedule. *)
Definition driver_call (e : event) : M unit := fun w =>
  match pop_fault (record e w) with
  | (Some msg, w') => (inl (DriverError msg), w')
  | (None, w') => (inr tt, w')
  end.

Definition update_session (c : nat) (s : session) (w : world) : world :=
  {| server := server w; sessions := <[c := s]> (sessions w);
     faults := faults w; log := log w |}.

(** The open connection behind a handle; a closed one refuses every call. *)
Definition live_session (c : nat) : M session := fun w =>
  match sessions w !! c with
  | Some s =>
    if is_open s then (inr s, w)
    else (inl (DriverError "Attempt to use a closed connection."), w)
  | None => (inl (DriverError "Attempt to use a closed connection."), w)
  end.

(** [pyodbc.connect(conn_string)] *)
Definition pyodbc_connect (conn_string : string) : M nat :=
  driver_call (EConnect conn_string) ;;
  fun w =>
    (inr (length (sessions w)),
     {| server := server w;
        sessions := sessions w ++
          [{| target := conn_string; work := server w conn_string;
              is_open := true |}];
        faults := faults w; log := log w |}).

(** pyodbc refuses a [dict] as a statement parameter. *)
Fixpoint find_unbindable (i : nat) (params : list value) : option nat :=
  match params with
  | [] => None
  | VDict _ :: _ => Some i
  | _ :: rest => find_unbindable (S i) rest
  end.

(** [cursor.execute(q, params)] with its fetch: [sem] is the meaning of
    the statement on the connection's view of the database.
    [conn.cursor()] and [fetchall]/[fetchone] are folded into this call. *)
Definition execute {A} (c : nat) (q : statement) (params : list value)
    (sem : database -> (string + A) * database) : M A :=
  driver_call (EExecute c q) ;;
  s <- live_session c ;;
  match find_unbindable 0 params with
  | Some i =>
    raise (DriverError ("('Invalid parameter type.  param-index=" +:+ pretty i
                        +:+ " param-type=dict', 'HY105')"))
  | None =>
    match sem (work s) with
    | (inl msg, d') =>
      fun w => (inl (DriverError msg),
                update_session c {| target := target s; work := d';
                                    is_open := true |} w)
    | (inr r, d') =>
      fun w => (inr r,
                update_session c {| target := target s; work := d';
                                    is_open := true |} w)
    end
  end.

(** [conn.commit()]: the connection's view becomes the committed state. *)
Definition commit (c : nat) : M unit :=
  driver_call (ECommit c) ;;
  s <- live_session c ;;
  fun w =>
    (inr tt,
     {| server := fun cs => if String.eqb cs (target s) then work s
                            else server w cs;
        sessions := sessions w; faults := faults w; log := log w |}).

(** [conn.close()]: uncommitted work is dropped with the connection. *)
Definition close (c : nat) : M unit :=
  driver_call (EClose c) ;;
  s <- live_session c ;;
  fun w =>
    (inr tt,
     update_session c {| target := target s; work := work s;
                         is_open := false |} w).

Section Server.
Context `{Runtime}.

(** ** Upper case *)

(** [s.upper()].  A [str] is held as its UTF-8 bytes.  [str.upper] maps
    every character by itself: an ASCII character by the ASCII case map,
    and a character outside ASCII as Unicode says, which is left to the
    runtime and applied to each maximal run of such characters.  [run]
    holds the bytes of the run being read. *)
Definition upper_run (run : string) : string :=
  match run with
  | EmptyString => EmptyString
  | _ => upper_non_ascii run
  end.

Fixpoint upper_from (run s : string) : string :=
  match s with
  | EmptyString => upper_run run
  | String c s' =>
    if is_ascii c
    then upper_run run +:+ String (upper_ascii c) (upper_from EmptyString s')
    else upper_from (run +:+ String c EmptyString) s'
  end.

Definition upper (s : string) : string := upper_from EmptyString s.

(** ** Rendering *)

(** [str(v)], as used by f-strings. *)
Definition py_str (v : value) : string :=
  match v with
  | VNone => "None"
  | VInt z => pretty z
  | VStr s => s
  | VDict _ => py_repr v
  end.

(** [str(e)] *)
Definition exn_str (e : exn) : string :=
  match e with
  | ValueError msg => msg
  | KeyError key => py_repr key
  | TypeError msg => msg
  | AttributeError msg => msg
  | DriverError msg => msg
  end.

(** [v or "N/A"] inside an f-string. *)
Definition or_na (v : value) : string :=
  if truthy v then py_str v else "N/A".

(** ** Meaning of the SQL statements *)

(** [a = b] in a WHERE clause.  A comparison with NULL is never true.
    Text is compared through the collation; comparing text with a number
    (an implicit conversion in the engine) is outside the model and
    selects nothing. *)
Definition sql_eq (a b : value) : bool :=
  match a, b with
  | VStr x, VStr y => String.eqb (collate x) (collate y)
  | VInt x, VInt y => x =? y
  | _, _ => false
  end.

(** [a != b]: also never true against NULL. *)
Definition sql_ne (a b : value) : bool :=
  match a, b with
  | VStr x, VStr y => negb (String.eqb (collate x) (collate y))
  | VInt x, VInt y => negb (x =? y)
  | _, _ => false
  end.

Definition sql_like_value (v pattern : value) : bool :=
  match v, pattern with
  | VStr x, VStr p => sql_like x p
  | _, _ => false
  end.

(** ORDER BY on one key: NULL first, numbers by value, text by collation
    key; rows with equal keys keep their order. *)
Definition sql_leb (a b : value) : bool :=
  match a, b with
  | VNone, _ => true
  | _, VNone => false
  | VInt x, VInt y => x <=? y
  | VInt _, _ => true
  | _, VInt _ => false
  | VStr x, VStr y => String.leb (collate x) (collate y)
  | VStr _, VDict _ => true
  | VDict _, VStr _ => false
  | VDict _, VDict _ => true
  end.

Fixpoint insert_sorted {A} (le : A -> A -> bool) (x : A) (l : list A)
    : list A :=
  match l with
  | [] => [x]
  | y :: l' => if le x y then x :: l else y :: insert_sorted le x l'
  end.

Definition order_by {A} (le : A -> A -> bool) (l : list A) : list A :=
  fold_right (insert_sorted le) [] l.

(** SELECT ... FROM INFORMATION_SCHEMA.COLUMNS WHERE TABLE_NAME = ?
    ORDER BY ORDINAL_POSITION *)
Definition select_columns (table_name : value) (d : database)
    : list column_row :=
  order_by (fun a b => ORDINAL_POSITION a <=? ORDINAL_POSITION b)
    (filter (fun r => sql_eq (TABLE_NAME r) table_name = true)
            (information_schema_columns d)).

(** SELECT [code], [description], [application_type] FROM default_roles
    WHERE business_unit = ? AND [description] LIKE ?
      AND application_type != 'sys_admin'
    No ORDER BY: rows come in the order the table holds them. *)
Definition role_matches (bu pattern : value) (r : role_row) : bool :=
  sql_eq (dr_business_unit r) bu
  && sql_like_value (dr_description r) pattern
  && sql_ne (dr_application_type r) (VStr "sys_admin").

Definition select_roles (bu pattern : value) (d : database) : list role_row :=
  filter (fun r => role_matches bu pattern r = true) (default_roles d).

(** WHERE business_unit = ? AND report_prefix = ? AND [role] = ? *)
Definition key_matches (bu prefix role_code : value) (a : assignment) : bool :=
  sql_eq (ar_business_unit a) bu
  && sql_eq (ar_report_prefix a) prefix
  && sql_eq (ar_role a) role_code.

(** SELECT COUNT( * ) FROM assigned_reports WHERE ... *)
Definition count_assigned (bu prefix role_code : value) (d : database) : nat :=
  length (filter (fun a => key_matches bu prefix role_code a = true)
                 (assigned_reports d)).

(** INSERT INTO assigned_reports (...) VALUES (?, ?, ?, ?, ?, ?, ?, ?) *)
Definition insert_assigned (row : assignment) (d : database) : database :=
  {| information_schema_columns := information_schema_columns d;
     default_roles := default_roles d;
     assigned_reports := assigned_reports d ++ [row];
     columns_config := columns_config d |}.

(** WHERE business_unit = ? AND report_prefix = ? AND [role] IN (?, ...) *)
Definition key_matches_in (bu prefix : value) (role_codes : list value)
    (a : assignment) : bool :=
  sql_eq (ar_business_unit a) bu
  && sql_eq (ar_report_prefix a) prefix
  && existsb (sql_eq (ar_role a)) role_codes.

Definition count_assigned_in (bu prefix : value) (role_codes : list value)
    (d : database) : nat :=
  length (filter (fun a => key_matches_in bu prefix role_codes a = true)
                 (assigned_reports d)).

(** assigned_reports ar LEFT JOIN default_roles dr
      ON ar.[role] = dr.[code] AND ar.business_unit = dr.business_unit:
    every assignment appears, once per matching role or once with a NULL
    description. *)
Definition left_join_roles (d : database) (a : assignment)
    : list (assignment * value) :=
  match filter (fun r => (sql_eq (ar_role a) (dr_code r)
                          && sql_eq (ar_business_unit a) (dr_business_unit r))
                         = true)
               (default_roles d) with
  | [] => [(a, VNone)]
  | rs => map (fun r => (a, dr_description r)) rs
  end.

(** The current row read by update_report_assignment ([fetchone]). *)
Definition select_current (bu prefix role_code : value) (d : database)
    : option (assignment * value) :=
  head (flat_map (left_join_roles d)
          (filter (fun a => key_matches bu prefix role_code a = true)
                  (assigned_reports d))).

(** SELECT ar.[role], dr.[description] ... ORDER BY ar.[role] *)
Definition select_roles_info (bu prefix : value) (role_codes : list value)
    (d : database) : list (value * value) :=
  map (fun p => (ar_role (fst p), snd p))
    (order_by (fun p q => sql_leb (ar_role (fst p)) (ar_role (fst q)))
       (flat_map (left_join_roles d)
          (filter (fun a => key_matches_in bu prefix role_codes a = true)
                  (assigned_reports d)))).

(** One [column = ?] of a SET clause; the column is named by the text the
    source puts in [update_fields]. *)
Definition apply_set (a : assignment) (set : string * value) : assignment :=
  let (column, v) := set in
  if String.eqb column "application_type = ?" then
    {| ar_role := ar_role a; ar_report_prefix := ar_report_prefix a;
       ar_business_unit := ar_business_unit a; ar_application_type := v;
       ar_order := ar_order a; ar_custom_tag := ar_custom_tag a;
       ar_sales_office := ar_sales_office a;
       ar_center_logistical := ar_center_logistical a |}
  else if String.eqb column "[order] = ?" then
    {| ar_role := ar_role a; ar_report_prefix := ar_report_prefix a;
       ar_business_unit := ar_business_unit a;
       ar_application_type := ar_application_type a;
       ar_order := v; ar_custom_tag := ar_custom_tag a;
       ar_sales_office := ar_sales_office a;
       ar_center_logistical := ar_center_logistical a |}
  else if String.eqb column "custom_tag = ?" then
    {| ar_role := ar_role a; ar_report_prefix := ar_report_prefix a;
       ar_business_unit := ar_business_unit a;
       ar_application_type := ar_application_type a;
       ar_order := ar_order a; ar_custom_tag := v;
       ar_sales_office := ar_sales_office a;
       ar_center_logistical := ar_center_logistical a |}
  else if String.eqb column "sales_office = ?" then
    {| ar_role := ar_role a; ar_report_prefix := ar_report_prefix a;
       ar_business_unit := ar_business_unit a;
       ar_application_type := ar_application_type a;
       ar_order := ar_order a; ar_custom_tag := ar_custom_tag a;
       ar_sales_office := v;
       ar_center_logistical := ar_center_logistical a |}
  else if String.eqb column "center_logistical = ?" then
    {| ar_role := ar_role a; ar_report_prefix := ar_report_prefix a;
       ar_business_unit := ar_business_unit a;
       ar_application_type := ar_application_type a;
       ar_order := ar_order a; ar_custom_tag := ar_custom_tag a;
       ar_sales_office := ar_sales_office a;
       ar_center_logistical := v |}
  else a.

(** UPDATE assigned_reports SET ... WHERE ...: the new table and
    [cursor.rowcount]. *)
Definition update_where (sets : list (string * value))
    (hit : assignment -> bool) (d : database) : nat * database :=
  (length (filter (fun a => hit a = true) (assigned_reports d)),
   {| information_schema_columns := information_schema_columns d;
      default_roles := default_roles d;
      assigned_reports :=
        map (fun a => if hit a then fold_left apply_set sets a else a)
            (assigned_reports d);
      columns_config := columns_config d |}).

(** A statement that only reads. *)
Definition reads {A} (f : database -> A) (d : database)
    : (string + A) * database :=
  (inr (f d), d).

(** A statement that writes and cannot be refused by the engine. *)
Definition writes {A} (f : database -> A * database) (d : database)
    : (string + A) * database :=
  let (r, d') := f d in (inr r, d').

(** EXEC sp_ecosystem_create_columns_config ... *)
Definition exec_sp (args : sp_args) (d : database)
    : (string + unit) * database :=
  match run_sp args d with
  | inl msg => (inl msg, d)
  | inr d' => (inr tt, d')
  end.

(** ** Configuration and connection helper *)

Record config : Type := {
  cfg_server : option string;
  cfg_database : option string;
  cfg_username : option string;
  cfg_password : option string;
  cfg_driver : string
}.

Definition default_config : config :=
  {| cfg_server := DEV_SERVER; cfg_database := DEV_DATABASE;
     cfg_username := DEV_USERNAME; cfg_password := DEV_PASSWORD;
     cfg_driver := "{ODBC Driver 17 for SQL Server}" |}.

Definition secondary_config : config :=
  {| cfg_server := DEV_SERVER;
     cfg_database := Some "INTEGRACION_CW_20_DEV";
     cfg_username := DEV_USERNAME; cfg_password := DEV_PASSWORD;
     cfg_driver := "{ODBC Driver 17 for SQL Server}" |}.

Definition DB_CONFIGS : list (string * config) :=
  [ ("default", default_config);
    ("INTEGRACION_CW_20_DEV", secondary_config) ].

(** [DB_CONFIGS.get(key)] *)
Fixpoint lookup_config (key : string) (l : list (string * config))
    : option config :=
  match l with
  | [] => None
  | (k, c) :: l' => if String.eqb key k then Some c else lookup_config key l'
  end.

(** [DB_CONFIGS[key]] for a key that is a string. *)
Definition config_of (key : string) : M config :=
  match lookup_config key DB_CONFIGS with
  | Some c => ret c
  | None => raise (KeyError (VStr key))
  end.

(** An f-string field holding a value of [os.getenv]. *)
Definition env_str (o : option string) : string := py_str (of_opt_str o).

Definition conn_string (c : config) : string :=
  "DRIVER=" +:+ cfg_driver c +:+ ";"
  +:+ "SERVER=" +:+ env_str (cfg_server c) +:+ ";"
  +:+ "DATABASE=" +:+ env_str (cfg_database c) +:+ ";"
  +:+ "UID=" +:+ env_str (cfg_username c) +:+ ";"
  +:+ "PWD=" +:+ env_str (cfg_password c).

Definition get_db_connection (database_key : string) : M nat :=
  match lookup_config database_key DB_CONFIGS with
  | None =>
    raise (ValueError ("Base de datos '" +:+ database_key
                       +:+ "' no configurada"))
  | Some c => pyodbc_connect (conn_string c)
  end.

(** ** Schema introspection *)

Definition render_column (col : column_row) : string :=
  let length_info :=
    if truthy (CHARACTER_MAXIMUM_LENGTH col)
    then "(" +:+ py_str (CHARACTER_MAXIMUM_LENGTH col) +:+ ")"
    else "" in
  let null_info :=
    if py_eq_str (IS_NULLABLE col) "YES" then "NULL" else "NOT NULL" in
  "  • " +:+ py_str (COLUMN_NAME col) +:+ ": " +:+ py_str (DATA_TYPE col)
  +:+ length_info +:+ " - " +:+ null_info +:+ nl.

Definition get_table_structure (table_name database_key : string)
    : M string :=
  try_except
    (conn <- get_db_connection database_key ;;
     columns <- execute conn (SelectColumns (VStr table_name))
                  [VStr table_name]
                  (reads (select_columns (VStr table_name))) ;;
     match columns with
     | [] =>
       c <- config_of database_key ;;
       ret ("⚠️ No se encontró la tabla '" +:+ table_name
            +:+ "' en la base de datos '" +:+ env_str (cfg_database c)
            +:+ "'")
     | _ =>
       let result := "📋 Estructura de la tabla: " +:+ table_name +:+ nl in
       c <- config_of database_key ;;
       let result := result +:+ "🗄️ Base de datos: "
                     +:+ env_str (cfg_database c) +:+ nl +:+ nl in
       let result :=
         fold_left (fun result col => result +:+ render_column col)
                   columns result in
       close conn ;;
       ret result
     end)
    (fun e => ret ("❌ Error al obtener estructura: " +:+ exn_str e)).

(** ** Query test *)

Definition test_query (query business_unit database_key : string)
    : M string :=
  try_except
    (if negb (contains "@business_unit" query) then
       ret "⚠️ La query debe incluir el parámetro @business_unit"
     else
       conn <- get_db_connection database_key ;;
       let test_query :=
         replace "@business_unit" ("'" +:+ business_unit +:+ "'") query in
       rs <- execute conn (RawSQL test_query) [] (run_sql test_query) ;;
       let (columns, rows) := rs : rowset in
       match rows with
       | [] =>
         c <- config_of database_key ;;
         ret ("✅ Query ejecutada correctamente en "
              +:+ env_str (cfg_database c)
              +:+ " pero no retornó resultados")
       | _ =>
         c <- config_of database_key ;;
         let result := "✅ Query ejecutada correctamente en "
                       +:+ env_str (cfg_database c)
                       +:+ ". Primeras 5 filas:" in
         let result := result +:+ join " | " columns +:+ nl in
         let result := result +:+ repeat_string "-" 80 +:+ nl in
         let result :=
           fold_left
             (fun result row =>
                result +:+ join " | " (map py_str row) +:+ nl)
             (take 5 rows) result in
         let result := result +:+ nl +:+ "📊 Total de registros: "
                       +:+ pretty (length rows) in
         close conn ;;
         ret result
       end)
    (fun e => ret ("❌ Error al probar query: " +:+ exn_str e)).

(** ** Report creation *)

(** The database a query is attributed to when the caller names none. *)
Definition infer_database_key (query : string) : string :=
  if contains "INTEGRACION_CW_20_DEV" (upper query)
  then "INTEGRACION_CW_20_DEV" else "default".

(** [params_config] of create_report: the base map, then the caller's
    entries merged over it. *)
Definition params_config (additional_params : option pydict) : pydict :=
  let base := [("business_unit", VStr "NVARCHAR(20)")] in
  match additional_params with
  | Some extra => if truthy (VDict extra) then dict_update base extra else base
  | None => base
  end.

Definition sp_params (a : sp_args) : list value :=
  [ sp_report_prefix a; sp_report_description a; sp_report_description_es a;
    sp_query a; sp_params_config a; sp_is_detail a; sp_hasDetail a;
    sp_actionColumn a; sp_detail_prefix a; sp_detail_mode a;
    sp_open_another_tab a; sp_type_resource a; sp_columns_to_render a;
    sp_default_for_all a ].

Definition create_report
    (report_prefix report_description_en report_description_es query : string)
    (additional_params : option pydict) (is_detail : Z)
    (has_detail : option Z)
    (action_column detail_prefix detail_mode : option string)
    (open_another_tab : option Z) (type_resource : string)
    (columns_to_render : option string) (default_for_all : Z)
    (database_key : option string) : M string :=
  try_except
    (if negb (contains "@business_unit" query) then
       ret "⚠️ La query debe incluir el parámetro @business_unit"
     else
       let query_database_key :=
         match database_key with
         | None => infer_database_key query
         | Some k => k
         end in
       let params_json := json_dumps (params_config additional_params) in
       conn <- get_db_connection "default" ;;
       let args :=
         {| sp_report_prefix := VStr report_prefix;
            sp_report_description := VStr report_description_en;
            sp_report_description_es := VStr report_description_es;
            sp_query := VStr query;
            sp_params_config := VStr params_json;
            sp_is_detail := VInt is_detail;
            sp_hasDetail := of_opt_int has_detail;
            sp_actionColumn := of_opt_str action_column;
            sp_detail_prefix := of_opt_str detail_prefix;
            sp_detail_mode := of_opt_str detail_mode;
            sp_open_another_tab := of_opt_int open_another_tab;
            sp_type_resource := VStr type_resource;
            sp_columns_to_render := of_opt_str columns_to_render;
            sp_default_for_all := VInt default_for_all |} in
       execute conn (ExecCreateColumnsConfig args) (sp_params args)
         (exec_sp args) ;;
       commit conn ;;
       close conn ;;
       qc <- config_of query_database_key ;;
       dc <- config_of "default" ;;
       ret ("✅ Reporte creado exitosamente!" +:+ nl
            +:+ nl
            +:+ "📄 Detalles del reporte:" +:+ nl
            +:+ "  • Prefijo: " +:+ report_prefix +:+ nl
            +:+ "  • Descripción (EN): " +:+ report_description_en +:+ nl
            +:+ "  • Descripción (ES): " +:+ report_description_es +:+ nl
            +:+ "  • Parámetros: " +:+ params_json +:+ nl
            +:+ "  • Tipo de recurso: " +:+ type_resource +:+ nl
            +:+ "  • Query apunta a: " +:+ env_str (cfg_database qc) +:+ nl
            +:+ "  • SP ejecutado en: " +:+ env_str (cfg_database dc) +:+ nl))
    (fun e => ret ("❌ Error al crear el reporte: " +:+ exn_str e)).

(** ** Single assignment *)

Definition assign_report_to_role
    (report_prefix business_unit role_description : string)
    (application_type : option string) (order : option Z)
    (custom_tag sales_office center_logistical : option string) : M string :=
  try_except
    (conn <- get_db_connection "default" ;;
     let pattern := VStr ("%" +:+ role_description +:+ "%") in
     roles <- execute conn (SelectRoles (VStr business_unit) pattern)
                [VStr business_unit; pattern]
                (reads (select_roles (VStr business_unit) pattern)) ;;
     match roles with
     | [] =>
       ret ("❌ No se encontró ningún rol con descripción '"
            +:+ role_description +:+ "' para la unidad " +:+ business_unit
            +:+ " (excluyendo sys_admin)")
     | first :: _ =>
       let role_code := dr_code first in
       let role_desc := dr_description first in
       let warning_msg :=
         if (1 <? length roles)%nat
         then "⚠️ Se encontraron múltiples roles. Usando: "
              +:+ py_str role_code +:+ " - " +:+ py_str role_desc
              +:+ nl +:+ nl
         else "" in
       exists_ <- execute conn
                    (CountAssigned (VStr business_unit) (VStr report_prefix)
                                   role_code)
                    [VStr business_unit; VStr report_prefix; role_code]
                    (reads (count_assigned (VStr business_unit)
                                           (VStr report_prefix) role_code)) ;;
       if (0 <? exists_)%nat then
         ret ("⚠️ El reporte '" +:+ report_prefix
              +:+ "' ya está asignado al rol '" +:+ py_str role_code
              +:+ "' para la unidad " +:+ business_unit)
       else
         let row :=
           {| ar_role := role_code;
              ar_report_prefix := VStr report_prefix;
              ar_business_unit := VStr business_unit;
              ar_application_type := of_opt_str application_type;
              ar_order := of_opt_int order;
              ar_custom_tag := of_opt_str custom_tag;
              ar_sales_office := of_opt_str sales_office;
              ar_center_logistical := of_opt_str center_logistical |} in
         execute conn (InsertAssigned row)
           [ role_code; VStr report_prefix; VStr business_unit;
             of_opt_str application_type; of_opt_int order;
             of_opt_str custom_tag; of_opt_str sales_office;
             of_opt_str center_logistical ]
           (writes (fun d => (tt, insert_assigned row d))) ;;
         commit conn ;;
         close conn ;;
         ret (warning_msg +:+ "✅ Reporte asignado exitosamente!" +:+ nl
              +:+ nl
              +:+ "📋 Detalles de la asignación:" +:+ nl
              +:+ "  • Reporte: " +:+ report_prefix +:+ nl
              +:+ "  • Unidad: " +:+ business_unit +:+ nl
              +:+ "  • Rol: " +:+ py_str role_code +:+ " - "
              +:+ py_str role_desc +:+ nl
              +:+ "  • Tipo de aplicación: "
              +:+ or_na (of_opt_str application_type) +:+ nl
              +:+ "  • Orden: " +:+ or_na (of_opt_int order) +:+ nl
              +:+ "  • Etiqueta personalizada: "
              +:+ or_na (of_opt_str custom_tag) +:+ nl
              +:+ "  • Oficina de ventas: "
              +:+ or_na (of_opt_str sales_office) +:+ nl
              +:+ "  • Centro logístico: "
              +:+ or_na (of_opt_str center_logistical) +:+ nl)
     end)
    (fun e => ret ("❌ Error al asignar reporte: " +:+ exn_str e)).

(** ** Dynamic operations on the items of a bulk request *)

(** [for i, x in enumerate(l, start)] threading the loop's variables. *)
Fixpoint for_each {A St} (body : nat -> A -> St -> M St) (i : nat)
    (l : list A) (st : St) : M St :=
  match l with
  | [] => ret st
  | x :: l' => st' <- body i x st ;; for_each body (S i) l' st'
  end.

(** [d[k]] *)
Definition getitem (d : gmap string value) (k : string) : M value :=
  match d !! k with
  | Some v => ret v
  | None => raise (KeyError (VStr k))
  end.

(** [d.get(k, default)] *)
Definition get_or (d : gmap string value) (k : string) (dflt : value)
    : value :=
  default dflt (d !! k).

(** [needle in v] *)
Definition py_contains (needle : string) (v : value) : M bool :=
  match v with
  | VStr s => ret (contains needle s)
  | VDict d => ret (bool_decide (is_Some (dict_get needle d)))
  | VNone => raise (TypeError "argument of type 'NoneType' is not iterable")
  | VInt _ => raise (TypeError "argument of type 'int' is not iterable")
  end.

(** [v.upper()] *)
Definition py_upper (v : value) : M string :=
  match v with
  | VStr s => ret (upper s)
  | VDict _ => raise (AttributeError "'dict' object has no attribute 'upper'")
  | VNone =>
    raise (AttributeError "'NoneType' object has no attribute 'upper'")
  | VInt _ => raise (AttributeError "'int' object has no attribute 'upper'")
  end.

(** [base.update(v)] *)
Definition py_update (base : pydict) (v : value) : M pydict :=
  match v with
  | VDict d => ret (dict_update base d)
  | VStr _ =>
    raise (ValueError
      "dictionary update sequence element #0 has length 1; 2 is required")
  | VInt _ => raise (TypeError "'int' object is not iterable")
  | VNone => raise (TypeError "'NoneType' object is not iterable")
  end.

(** [DB_CONFIGS[v]] *)
Definition config_at (v : value) : M config :=
  match v with
  | VStr k => config_of k
  | VDict _ => raise (TypeError "unhashable type: 'dict'")
  | _ => raise (KeyError v)
  end.

(** ** Bulk creation *)

Record created_entry : Type := {
  cr_index : nat;
  cr_report_prefix : value;
  cr_query_database : option string;
  cr_sp_database : option string
}.

Record failed_entry : Type := {
  fl_index : nat;
  fl_report_prefix : value;
  fl_error : string
}.

(** The loop variables of bulk_create_reports. *)
Record create_state : Type := {
  successful_reports : list created_entry;
  failed_reports : list failed_entry;
  total_created : nat
}.

Definition fail_report (st : create_state) (e : failed_entry)
    : create_state :=
  {| successful_reports := successful_reports st;
     failed_reports := failed_reports st ++ [e];
     total_created := total_created st |}.

Definition required_report_fields : list string :=
  ["report_prefix"; "report_description_en"; "report_description_es";
   "query"].

Definition missing_in (d : gmap string value) (fields : list string)
    : list string :=
  List.filter (fun field => bool_decide (d !! field = None)) fields.

(** The body of the loop of bulk_create_reports for item number [i]. *)
Definition create_one (conn : nat) (i : nat) (report_data : gmap string value)
    (st : create_state) : M create_state :=
  try_except
    (match missing_in report_data required_report_fields with
     | (_ :: _) as missing_fields =>
       ret (fail_report st
              {| fl_index := i;
                 fl_report_prefix :=
                   get_or report_data "report_prefix" (VStr "N/A");
                 fl_error := "Campos faltantes: "
                             +:+ join ", " missing_fields |})
     | [] =>
       query <- getitem report_data "query" ;;
       found <- py_contains "@business_unit" query ;;
       if negb found then
         prefix <- getitem report_data "report_prefix" ;;
         ret (fail_report st
                {| fl_index := i; fl_report_prefix := prefix;
                   fl_error :=
                     "La query debe incluir el parámetro @business_unit" |})
       else
         let query_database_key := get_or report_data "database_key" VNone in
         query_database_key <-
           (if is_none query_database_key then
              query <- getitem report_data "query" ;;
              u <- py_upper query ;;
              ret (if contains "INTEGRACION_CW_20_DEV" u
                   then VStr "INTEGRACION_CW_20_DEV" else VStr "default")
            else ret query_database_key) ;;
         let base := [("business_unit", VStr "NVARCHAR(20)")] in
         params_config <-
           (if truthy (get_or report_data "additional_params" VNone) then
              extra <- getitem report_data "additional_params" ;;
              py_update base extra
            else ret base) ;;
         let params_json := json_dumps params_config in
         prefix <- getitem report_data "report_prefix" ;;
         description_en <- getitem report_data "report_description_en" ;;
         description_es <- getitem report_data "report_description_es" ;;
         query <- getitem report_data "query" ;;
         let args :=
           {| sp_report_prefix := prefix;
              sp_report_description := description_en;
              sp_report_description_es := description_es;
              sp_query := query;
              sp_params_config := VStr params_json;
              sp_is_detail := get_or report_data "is_detail" (VInt 0);
              sp_hasDetail := get_or report_data "has_detail" VNone;
              sp_actionColumn := get_or report_data "action_column" VNone;
              sp_detail_prefix := get_or report_data "detail_prefix" VNone;
              sp_detail_mode := get_or report_data "detail_mode" VNone;
              sp_open_another_tab :=
                get_or report_data "open_another_tab" VNone;
              sp_type_resource :=
                get_or report_data "type_resource" (VStr "table");
              sp_columns_to_render :=
                get_or report_data "columns_to_render" VNone;
              sp_default_for_all :=
                get_or report_data "default_for_all" (VInt 0) |} in
         execute conn (ExecCreateColumnsConfig args) (sp_params args)
           (exec_sp args) ;;
         prefix <- getitem report_data "report_prefix" ;;
         qc <- config_at query_database_key ;;
         dc <- config_of "default" ;;
         ret {| successful_reports :=
                  successful_reports st ++
                  [{| cr_index := i; cr_report_prefix := prefix;
                      cr_query_database := cfg_database qc;
                      cr_sp_database := cfg_database dc |}];
                failed_reports := failed_reports st;
                total_created := S (total_created st) |}
     end)
    (fun e =>
       ret (fail_report st
              {| fl_index := i;
                 fl_report_prefix :=
                   get_or report_data "report_prefix" (VStr "N/A");
                 fl_error := exn_str e |})).

Definition render_created (result : string) (r : created_entry) : string :=
  result
  +:+ "  " +:+ pretty (cr_index r) +:+ ". " +:+ py_str (cr_report_prefix r)
  +:+ nl
  +:+ "     Query apunta a: " +:+ env_str (cr_query_database r) +:+ nl
  +:+ "     SP ejecutado en: " +:+ env_str (cr_sp_database r) +:+ nl +:+ nl.

Definition render_failed_report (result : string) (r : failed_entry)
    : string :=
  result
  +:+ "  " +:+ pretty (fl_index r) +:+ ". " +:+ py_str (fl_report_prefix r)
  +:+ ": " +:+ fl_error r +:+ nl.

Definition render_create_state (st : create_state) : string :=
  let result := "📊 Creación masiva de reportes completada!" +:+ nl +:+ nl in
  let result := result +:+ "✅ Reportes creados exitosamente: "
                +:+ pretty (total_created st) +:+ nl in
  let result := result +:+ "❌ Reportes fallidos: "
                +:+ pretty (length (failed_reports st)) +:+ nl +:+ nl in
  let result :=
    match successful_reports st with
    | [] => result
    | rs => fold_left render_created rs
              (result +:+ "📋 Reportes creados:" +:+ nl)
    end in
  match failed_reports st with
  | [] => result
  | rs => fold_left render_failed_report rs
            (result +:+ "❌ Reportes fallidos:" +:+ nl)
  end.

Definition bulk_create_reports (reports_data : list (gmap string value))
    : M string :=
  try_except
    (match reports_data with
     | [] => ret "⚠️ No se proporcionaron datos de reportes para crear"
     | _ =>
       conn <- get_db_connection "default" ;;
       st <- for_each (create_one conn) 1 reports_data
               {| successful_reports := []; failed_reports := [];
                  total_created := 0 |} ;;
       commit conn ;;
       close conn ;;
       ret (render_create_state st)
     end)
    (fun e => ret ("❌ Error en creación masiva: " +:+ exn_str e)).

(** ** Bulk assignment *)

Record assigned_entry : Type := {
  as_index : nat;
  as_report_prefix : value;
  as_business_unit : value;
  as_role_code : value;
  as_role_description : value;
  as_application_type : value;
  as_warning : string
}.

Record skipped_entry : Type := {
  sk_index : nat;
  sk_report_prefix : value;
  sk_business_unit : value;
  sk_role_code : value;
  sk_reason : string
}.

Record failed_assignment : Type := {
  fa_index : nat;
  fa_report_prefix : value;
  fa_business_unit : value;
  fa_error : string
}.

(** The loop variables of bulk_assign_reports_to_roles. *)
Record assign_state : Type := {
  successful_assignments : list assigned_entry;
  failed_assignments : list failed_assignment;
  skipped_assignments : list skipped_entry;
  total_inserted : nat
}.

Definition fail_assignment (st : assign_state) (e : failed_assignment)
    : assign_state :=
  {| successful_assignments := successful_assignments st;
     failed_assignments := failed_assignments st ++ [e];
     skipped_assignments := skipped_assignments st;
     total_inserted := total_inserted st |}.

Definition required_assignment_fields : list string :=
  ["report_prefix"; "business_unit"; "role_description"; "application_type"].

Definition valid_app_types : list string := ["sales_force"; "merchandising"].

(** The body of the loop of bulk_assign_reports_to_roles for item [i]. *)
Definition assign_one (conn : nat) (i : nat)
    (assignment_data : gmap string value) (st : assign_state)
    : M assign_state :=
  try_except
    (match missing_in assignment_data required_assignment_fields with
     | (_ :: _) as missing_fields =>
       ret (fail_assignment st
              {| fa_index := i;
                 fa_report_prefix :=
                   get_or assignment_data "report_prefix" (VStr "N/A");
                 fa_business_unit :=
                   get_or assignment_data "business_unit" (VStr "N/A");
                 fa_error := "Campos faltantes: "
                             +:+ join ", " missing_fields |})
     | [] =>
       app_type <- getitem assignment_data "application_type" ;;
       prefix <- getitem assignment_data "report_prefix" ;;
       bu <- getitem assignment_data "business_unit" ;;
       if negb (existsb (py_eq_str app_type) valid_app_types) then
         ret (fail_assignment st
                {| fa_index := i; fa_report_prefix := prefix;
                   fa_business_unit := bu;
                   fa_error :=
                     "application_type debe ser 'sales_force' o "
                     +:+ "'merchandising', recibido: '" +:+ py_str app_type
                     +:+ "'" |})
       else
         role_description <- getitem assignment_data "role_description" ;;
         let pattern := VStr ("%" +:+ py_str role_description +:+ "%") in
         roles <- execute conn (SelectRoles bu pattern) [bu; pattern]
                    (reads (select_roles bu pattern)) ;;
         match roles with
         | [] =>
           ret (fail_assignment st
                  {| fa_index := i; fa_report_prefix := prefix;
                     fa_business_unit := bu;
                     fa_error :=
                       "No se encontró rol con descripción '"
                       +:+ py_str role_description
                       +:+ "' (excluyendo sys_admin)" |})
         | first :: _ =>
           let role_code := dr_code first in
           let role_desc := dr_description first in
           let warning_msg :=
             if (1 <? length roles)%nat
             then "Se encontraron múltiples roles. Usando: "
                  +:+ py_str role_code +:+ " - " +:+ py_str role_desc
             else "" in
           exists_ <- execute conn (CountAssigned bu prefix role_code)
                        [bu; prefix; role_code]
                        (reads (count_assigned bu prefix role_code)) ;;
           if (0 <? exists_)%nat then
             ret {| successful_assignments := successful_assignments st;
                    failed_assignments := failed_assignments st;
                    skipped_assignments :=
                      skipped_assignments st ++
                      [{| sk_index := i; sk_report_prefix := prefix;
                          sk_business_unit := bu; sk_role_code := role_code;
                          sk_reason := "Asignación ya existe" |}];
                    total_inserted := total_inserted st |}
           else
             let row :=
               {| ar_role := role_code;
                  ar_report_prefix := prefix;
                  ar_business_unit := bu;
                  ar_application_type := app_type;
                  ar_order := get_or assignment_data "order" VNone;
                  ar_custom_tag := get_or assignment_data "custom_tag" VNone;
                  ar_sales_office :=
                    get_or assignment_data "sales_office" VNone;
                  ar_center_logistical :=
                    get_or assignment_data "center_logistical" VNone |} in
             execute conn (InsertAssigned row)
               [ ar_role row; ar_report_prefix row; ar_business_unit row;
                 ar_application_type row; ar_order row; ar_custom_tag row;
                 ar_sales_office row; ar_center_logistical row ]
               (writes (fun d => (tt, insert_assigned row d))) ;;
             ret {| successful_assignments :=
                      successful_assignments st ++
                      [{| as_index := i; as_report_prefix := prefix;
                          as_business_unit := bu; as_role_code := role_code;
                          as_role_description := role_desc;
                          as_application_type := app_type;
                          as_warning := warning_msg |}];
                    failed_assignments := failed_assignments st;
                    skipped_assignments := skipped_assignments st;
                    total_inserted := S (total_inserted st) |}
         end
     end)
    (fun e =>
       ret (fail_assignment st
              {| fa_index := i;
                 fa_report_prefix :=
                   get_or assignment_data "report_prefix" (VStr "N/A");
                 fa_business_unit :=
                   get_or assignment_data "business_unit" (VStr "N/A");
                 fa_error := exn_str e |})).

Definition render_assigned (result : string) (a : assigned_entry) : string :=
  let result :=
    result
    +:+ "  " +:+ pretty (as_index a) +:+ ". " +:+ py_str (as_report_prefix a)
    +:+ " → " +:+ py_str (as_role_code a) +:+ " - "
    +:+ py_str (as_role_description a) +:+ nl
    +:+ "     Unidad: " +:+ py_str (as_business_unit a) +:+ " | Tipo: "
    +:+ py_str (as_application_type a) +:+ nl in
  let result :=
    if truthy (VStr (as_warning a))
    then result +:+ "     ⚠️ " +:+ as_warning a +:+ nl
    else result in
  result +:+ nl.

Definition render_skipped (result : string) (a : skipped_entry) : string :=
  result
  +:+ "  " +:+ pretty (sk_index a) +:+ ". " +:+ py_str (sk_report_prefix a)
  +:+ " → " +:+ py_str (sk_role_code a) +:+ " (" +:+ sk_reason a +:+ ")"
  +:+ nl.

Definition render_failed_assignment (result : string) (a : failed_assignment)
    : string :=
  result
  +:+ "  " +:+ pretty (fa_index a) +:+ ". " +:+ py_str (fa_report_prefix a)
  +:+ " (" +:+ py_str (fa_business_unit a) +:+ "): " +:+ fa_error a +:+ nl.

Definition render_assign_state (st : assign_state) : string :=
  let result := "📊 Asignación masiva de reportes completada!" +:+ nl +:+ nl in
  let result := result +:+ "✅ Asignaciones creadas: "
                +:+ pretty (total_inserted st) +:+ nl in
  let result := result +:+ "⏭️ Asignaciones omitidas (ya existían): "
                +:+ pretty (length (skipped_assignments st)) +:+ nl in
  let result := result +:+ "❌ Asignaciones fallidas: "
                +:+ pretty (length (failed_assignments st)) +:+ nl +:+ nl in
  let result :=
    match successful_assignments st with
    | [] => result
    | rs => fold_left render_assigned rs
              (result +:+ "📋 Asignaciones creadas:" +:+ nl)
    end in
  let result :=
    match skipped_assignments st with
    | [] => result
    | rs => fold_left render_skipped rs
              (result +:+ "⏭️ Asignaciones omitidas:" +:+ nl)
    end in
  match failed_assignments st with
  | [] => result
  | rs => fold_left render_failed_assignment rs
            (result +:+ nl +:+ "❌ Asignaciones fallidas:" +:+ nl)
  end.

Definition bulk_assign_reports_to_roles
    (assignments_data : list (gmap string value)) : M string :=
  try_except
    (match assignments_data with
     | [] => ret "⚠️ No se proporcionaron datos de asignaciones"
     | _ =>
       conn <- get_db_connection "default" ;;
       st <- for_each (assign_one conn) 1 assignments_data
               {| successful_assignments := []; failed_assignments := [];
                  skipped_assignments := []; total_inserted := 0 |} ;;
       commit conn ;;
       close conn ;;
       ret (render_assign_state st)
     end)
    (fun e => ret ("❌ Error en asignación masiva: " +:+ exn_str e)).

(** ** Updates *)

(** [update_fields] zipped with [update_values]: one entry per argument
    that is not None, in the order the source tests them. *)
Definition update_sets (application_type : option string) (order : option Z)
    (custom_tag sales_office center_logistical : option string)
    : list (string * value) :=
  (match application_type with
   | Some v => [("application_type = ?", VStr v)] | None => [] end)
  ++ (match order with
      | Some v => [("[order] = ?", VInt v)] | None => [] end)
  ++ (match custom_tag with
      | Some v => [("custom_tag = ?", VStr v)] | None => [] end)
  ++ (match sales_office with
      | Some v => [("sales_office = ?", VStr v)] | None => [] end)
  ++ (match center_logistical with
      | Some v => [("center_logistical = ?", VStr v)] | None => [] end).

(** One line of the change report of update_report_assignment:
    [if new is not None and new != current]. *)
Definition change_line (label : string) (new current : value)
    (same : bool) : list string :=
  if is_none new then []
  else if same then []
  else [label +:+ ": " +:+ py_str current +:+ " → " +:+ py_str new].

Definition py_eq_opt_str (new : option string) (current : value) : bool :=
  match new with Some s => py_eq_str current s | None => false end.

Definition py_eq_opt_int (new : option Z) (current : value) : bool :=
  match new, current with
  | Some z, VInt c => z =? c
  | _, _ => false
  end.

Definition update_report_assignment
    (report_prefix business_unit role_code : string)
    (application_type : option string) (order : option Z)
    (custom_tag sales_office center_logistical : option string) : M string :=
  try_except
    (conn <- get_db_connection "default" ;;
     let key := [VStr business_unit; VStr report_prefix; VStr role_code] in
     exists_ <- execute conn
                  (CountAssigned (VStr business_unit) (VStr report_prefix)
                                 (VStr role_code))
                  key
                  (reads (count_assigned (VStr business_unit)
                            (VStr report_prefix) (VStr role_code))) ;;
     if (exists_ =? 0)%nat then
       ret ("❌ No existe una asignación del reporte '" +:+ report_prefix
            +:+ "' para el rol '" +:+ role_code +:+ "' en la unidad "
            +:+ business_unit)
     else
       current <- execute conn
                    (SelectCurrent (VStr business_unit) (VStr report_prefix)
                                   (VStr role_code))
                    key
                    (reads (select_current (VStr business_unit)
                              (VStr report_prefix) (VStr role_code))) ;;
       match current with
       | None => ret "❌ Error al obtener la asignación actual"
       | Some (cur, role_desc) =>
         let sets := update_sets application_type order custom_tag
                       sales_office center_logistical in
         match sets with
         | [] => ret "⚠️ No se proporcionaron campos para actualizar"
         | _ =>
           execute conn
             (UpdateAssigned sets (VStr business_unit) (VStr report_prefix)
                             (VStr role_code))
             (map snd sets ++ key)
             (writes (fun d =>
                (tt, snd (update_where sets
                            (key_matches (VStr business_unit)
                               (VStr report_prefix) (VStr role_code)) d)))) ;;
           commit conn ;;
           close conn ;;
           let changes :=
             change_line "Tipo de aplicación" (of_opt_str application_type)
               (ar_application_type cur)
               (py_eq_opt_str application_type (ar_application_type cur))
             ++ change_line "Orden" (of_opt_int order) (ar_order cur)
                  (py_eq_opt_int order (ar_order cur))
             ++ change_line "Etiqueta" (of_opt_str custom_tag)
                  (ar_custom_tag cur)
                  (py_eq_opt_str custom_tag (ar_custom_tag cur))
             ++ change_line "Oficina de ventas" (of_opt_str sales_office)
                  (ar_sales_office cur)
                  (py_eq_opt_str sales_office (ar_sales_office cur))
             ++ change_line "Centro logístico" (of_opt_str center_logistical)
                  (ar_center_logistical cur)
                  (py_eq_opt_str center_logistical
                     (ar_center_logistical cur)) in
           let changes_text :=
             match changes with
             | [] => "Sin cambios detectados"
             | _ => join (nl +:+ "  • ") changes
             end in
           ret ("✅ Asignación actualizada exitosamente!" +:+ nl
                +:+ nl
                +:+ "📋 Detalles de la actualización:" +:+ nl
                +:+ "  • Reporte: " +:+ report_prefix +:+ nl
                +:+ "  • Unidad: " +:+ business_unit +:+ nl
                +:+ "  • Rol: " +:+ role_code +:+ " - " +:+ or_na role_desc
                +:+ nl
                +:+ "  " +:+ nl
                +:+ "🔄 Cambios realizados:" +:+ nl
                +:+ "  • " +:+ changes_text +:+ nl)
         end
       end)
    (fun e => ret ("❌ Error al actualizar asignación: " +:+ exn_str e)).

(** One line of the change report of bulk_update_report_assignments. *)
Definition applied_line (label : string) (new : value) : list string :=
  if is_none new then [] else [label +:+ ": → " +:+ py_str new].

Definition bulk_update_report_assignments
    (report_prefix business_unit : string) (role_codes : list string)
    (application_type : option string) (order : option Z)
    (custom_tag sales_office center_logistical : option string) : M string :=
  try_except
    (match role_codes with
     | [] => ret "⚠️ No se proporcionaron códigos de roles para actualizar"
     | _ =>
       conn <- get_db_connection "default" ;;
       let codes := map VStr role_codes in
       let check_values :=
         [VStr business_unit; VStr report_prefix] ++ codes in
       exists_count <- execute conn
                         (CountAssignedIn (VStr business_unit)
                            (VStr report_prefix) codes)
                         check_values
                         (reads (count_assigned_in (VStr business_unit)
                                   (VStr report_prefix) codes)) ;;
       if (exists_count =? 0)%nat then
         ret ("❌ No existen asignaciones del reporte '" +:+ report_prefix
              +:+ "' para los roles " +:+ join ", " role_codes
              +:+ " en la unidad " +:+ business_unit)
       else
         roles_info <- execute conn
                         (SelectRolesInfo (VStr business_unit)
                            (VStr report_prefix) codes)
                         check_values
                         (reads (select_roles_info (VStr business_unit)
                                   (VStr report_prefix) codes)) ;;
         let sets := update_sets application_type order custom_tag
                       sales_office center_logistical in
         match sets with
         | [] => ret "⚠️ No se proporcionaron campos para actualizar"
         | _ =>
           affected_rows <-
             execute conn
               (UpdateAssignedIn sets (VStr business_unit)
                  (VStr report_prefix) codes)
               (map snd sets ++ check_values)
               (writes (update_where sets
                          (key_matches_in (VStr business_unit)
                             (VStr report_prefix) codes))) ;;
           commit conn ;;
           close conn ;;
           let roles_text :=
             join (nl +:+ "  • ")
               (map (fun r => py_str (fst r) +:+ " - " +:+ or_na (snd r))
                    roles_info) in
           let changes_text :=
             applied_line "Tipo de aplicación" (of_opt_str application_type)
             ++ applied_line "Orden" (of_opt_int order)
             ++ applied_line "Etiqueta" (of_opt_str custom_tag)
             ++ applied_line "Oficina de ventas" (of_opt_str sales_office)
             ++ applied_line "Centro logístico"
                  (of_opt_str center_logistical) in
           let changes_display :=
             match changes_text with
             | [] => "Sin cambios detectados"
             | _ => join (nl +:+ "  • ") changes_text
             end in
           ret ("✅ Actualización masiva completada exitosamente!" +:+ nl
                +:+ nl
                +:+ "📋 Detalles de la actualización:" +:+ nl
                +:+ "  • Reporte: " +:+ report_prefix +:+ nl
                +:+ "  • Unidad: " +:+ business_unit +:+ nl
                +:+ "  • Registros actualizados: " +:+ pretty affected_rows
                +:+ nl
                +:+ "  " +:+ nl
                +:+ "👥 Roles actualizados:" +:+ nl
                +:+ "  • " +:+ roles_text +:+ nl
                +:+ "  " +:+ nl
                +:+ "🔄 Cambios aplicados:" +:+ nl
                +:+ "  • " +:+ changes_display +:+ nl)
         end
     end)
    (fun e =>
       ret ("❌ Error en actualización masiva: " +:+ exn_str e)).

End Server.

(** ** Reasoning about runs *)

(** The outcome of running [m] from [w] satisfies [Q]. *)
Definition wp {A} (m : M A) (Q : exn + A -> world -> Prop) (w : world)
    : Prop :=
  Q (m w).1 (m w).2.

(** The message with which the next driver call fails, if it does. *)
Definition next_fault (fs : list (option string)) : option string :=
  match fs with Some msg :: _ => Some msg | _ => None end.

(** A world whose newest connection is the one an operation works on. *)
Definition W (srv : string -> database) (ss : list session) (cs : string)
    (d : database) (op : bool) (fs : list (option string)) (lg : list event)
    : world :=
  {| server := srv;
     sessions := ss ++ [{| target := cs; work := d; is_open := op |}];
     faults := fs; log := lg |}.

(** The committed state after a connection to [cs] commits [d]. *)
Definition publish (srv : string -> database) (cs : string) (d : database)
    : string -> database :=
  fun cs' => if String.eqb cs' cs then d else srv cs'.

(** The connections a run has opened and not closed. *)
Definition open_connections (w : world) : nat :=
  length (List.filter is_open (sessions w)).

(** * Definitions used by the statements *)


(** A text of ASCII characters only. *)
Fixpoint ascii_text (s : string) : bool :=
  match s with
  | EmptyString => true
  | String c s' => is_ascii c && ascii_text s'
  end.

Fixpoint drop_string (k : nat) (s : string) : string :=
  match k, s with
  | S k', String _ s' => drop_string k' s'
  | _, _ => s
  end.

Definition placeholder : string := "@business_unit".

(** [part] occurs in [text]. *)
Definition occurs_in (part text : string) : Prop :=
  exists before behind, text = before +:+ part +:+ behind.

(** *** How values are spelled in the answers *)

(** A value of the environment inside a text: the value itself, or the
    word [None] when the variable is not set. *)
Definition shown (o : option string) : string :=
  match o with
  | Some s => s
  | None => "None"
  end.

(** The texts of [l] with [sep] between each two of them. *)
Definition separated (sep : string) (l : list string) : string :=
  match l with
  | [] => ""
  | x :: l' => fold_left (fun text y => text +:+ sep +:+ y) l' x
  end.

(** A line of eighty dashes. *)
Definition rule : string :=
  "--------------------------------------------------------------------------------".

Section Spelling.
Context `{Runtime}.

(** A cell of a result set inside a text. *)
Definition cell (v : value) : string :=
  match v with
  | VNone => "None"
  | VInt z => pretty z
  | VStr s => s
  | VDict _ => py_repr v
  end.

End Spelling.

Section Defs.
Context `{Runtime}.

(** The text test_query returns for a non-empty result: a header, the
    first five rows at most, and the number of all rows. *)
Definition sample_report (database_name : option string)
    (columns : list string) (rows : list (list value)) : string :=
  fold_left
    (fun result row => result +:+ join " | " (map py_str row) +:+ nl)
    (take 5 rows)
    ((("✅ Query ejecutada correctamente en " +:+ env_str database_name
       +:+ ". Primeras 5 filas:")
      +:+ join " | " columns +:+ nl)
     +:+ repeat_string "-" 80 +:+ nl)
  +:+ nl +:+ "📊 Total de registros: " +:+ pretty (length rows).

(** The argument tuple create_report hands to the stored procedure. *)
Definition create_report_args
    (report_prefix report_description_en report_description_es query : string)
    (additional_params : option pydict) (is_detail : Z)
    (has_detail : option Z)
    (action_column detail_prefix detail_mode : option string)
    (open_another_tab : option Z) (type_resource : string)
    (columns_to_render : option string) (default_for_all : Z) : sp_args :=
  {| sp_report_prefix := VStr report_prefix;
     sp_report_description := VStr report_description_en;
     sp_report_description_es := VStr report_description_es;
     sp_query := VStr query;
     sp_params_config := VStr (json_dumps (params_config additional_params));
     sp_is_detail := VInt is_detail;
     sp_hasDetail := of_opt_int has_detail;
     sp_actionColumn := of_opt_str action_column;
     sp_detail_prefix := of_opt_str detail_prefix;
     sp_detail_mode := of_opt_str detail_mode;
     sp_open_another_tab := of_opt_int open_another_tab;
     sp_type_resource := VStr type_resource;
     sp_columns_to_render := of_opt_str columns_to_render;
     sp_default_for_all := VInt default_for_all |}.

(** The success text of create_report for a query attributed to the
    database named [query_database]. *)
Definition created_text (report_prefix report_description_en
    report_description_es params_json type_resource : string)
    (query_database : option string) : string :=
  "✅ Reporte creado exitosamente!" +:+ nl
  +:+ nl
  +:+ "📄 Detalles del reporte:" +:+ nl
  +:+ "  • Prefijo: " +:+ report_prefix +:+ nl
  +:+ "  • Descripción (EN): " +:+ report_description_en +:+ nl
  +:+ "  • Descripción (ES): " +:+ report_description_es +:+ nl
  +:+ "  • Parámetros: " +:+ params_json +:+ nl
  +:+ "  • Tipo de recurso: " +:+ type_resource +:+ nl
  +:+ "  • Query apunta a: " +:+ env_str query_database +:+ nl
  +:+ "  • SP ejecutado en: " +:+ env_str DEV_DATABASE +:+ nl.

End Defs.

Section BulkDefs.
Context `{Runtime}.

(** *** What bulk_create_reports makes of one item *)

Definition report_query (item : gmap string value) : string :=
  match item !! "query" with Some (VStr q) => q | _ => "" end.

Definition report_params (item : gmap string value) : pydict :=
  match get_or item "additional_params" VNone with
  | VDict extra => params_config (Some extra)
  | _ => params_config None
  end.

Definition report_database_key (item : gmap string value) : string :=
  match get_or item "database_key" VNone with
  | VStr k => k
  | _ => infer_database_key (report_query item)
  end.

Definition report_database (item : gmap string value) : option string :=
  match lookup_config (report_database_key item) DB_CONFIGS with
  | Some c => cfg_database c
  | None => None
  end.

Definition report_args (item : gmap string value) : sp_args :=
  {| sp_report_prefix := get_or item "report_prefix" VNone;
     sp_report_description := get_or item "report_description_en" VNone;
     sp_report_description_es := get_or item "report_description_es" VNone;
     sp_query := get_or item "query" VNone;
     sp_params_config := VStr (json_dumps (report_params item));
     sp_is_detail := get_or item "is_detail" (VInt 0);
     sp_hasDetail := get_or item "has_detail" VNone;
     sp_actionColumn := get_or item "action_column" VNone;
     sp_detail_prefix := get_or item "detail_prefix" VNone;
     sp_detail_mode := get_or item "detail_mode" VNone;
     sp_open_another_tab := get_or item "open_another_tab" VNone;
     sp_type_resource := get_or item "type_resource" (VStr "table");
     sp_columns_to_render := get_or item "columns_to_render" VNone;
     sp_default_for_all := get_or item "default_for_all" (VInt 0) |}.

(** A valid item: the four required fields are there, the query is text
    with the placeholder, the optional [additional_params] is a
    dictionary (or empty), the optional [database_key] names a configured
    database, and every argument is of a type the driver can bind. *)
Definition valid_report (item : gmap string value) : bool :=
  forallb (fun field => bool_decide (is_Some (item !! field)))
          required_report_fields
  && match item !! "query" with
     | Some (VStr q) => contains "@business_unit" q
     | _ => false
     end
  && match get_or item "additional_params" VNone with
     | VDict _ => true
     | v => negb (truthy v)
     end
  && match get_or item "database_key" VNone with
     | VNone => true
     | VStr k => bool_decide (is_Some (lookup_config k DB_CONFIGS))
     | _ => false
     end
  && bool_decide (find_unbindable 0 (sp_params (report_args item)) = None).

(** The entry bulk_create_reports records for a created report. *)
Definition created (i : nat) (item : gmap string value) : created_entry :=
  {| cr_index := i;
     cr_report_prefix := get_or item "report_prefix" VNone;
     cr_query_database := report_database item;
     cr_sp_database := DEV_DATABASE |}.

Definition add_created (st : create_state) (e : created_entry)
    : create_state :=
  {| successful_reports := successful_reports st ++ [e];
     failed_reports := failed_reports st;
     total_created := S (total_created st) |}.

(** The stored-procedure calls among the driver calls of a log. *)
Definition sp_calls (lg : list event) : list sp_args :=
  omap (fun e => match e with
                 | EExecute _ (ExecCreateColumnsConfig a) => Some a
                 | _ => None
                 end) lg.

(** The database after the stored procedure ran for each item in turn. *)
Definition after_sp (d : database) (items : list (gmap string value))
    : database :=
  fold_left (fun d item => match run_sp (report_args item) d with
                           | inr d' => d'
                           | inl _ => d
                           end) items d.

(** The entry recorded for an item that lacks required fields. *)
Definition missing_entry (i : nat) (item : gmap string value)
    : failed_entry :=
  {| fl_index := i;
     fl_report_prefix := get_or item "report_prefix" (VStr "N/A");
     fl_error := "Campos faltantes: "
                 +:+ join ", " (missing_in item required_report_fields) |}.

(** The loop of bulk_create_reports on items that are either valid or
    lack required fields, without the database. *)
Fixpoint tally (i : nat) (items : list (gmap string value))
    (st : create_state) : create_state :=
  match items with
  | [] => st
  | item :: rest =>
    tally (S i) rest
      (if valid_report item then add_created st (created i item)
       else fail_report st (missing_entry i item))
  end.

(** The stored procedure never refuses a call. *)
Definition sp_accepts : Prop :=
  forall a d, exists d', run_sp a d = inr d'.

(** The first lines of the text bulk_create_reports returns. *)
Definition summary_header (created_count failed_count : nat) : string :=
  (("📊 Creación masiva de reportes completada!" +:+ nl +:+ nl)
   +:+ "✅ Reportes creados exitosamente: " +:+ pretty created_count +:+ nl)
  +:+ "❌ Reportes fallidos: " +:+ pretty failed_count +:+ nl +:+ nl.

End BulkDefs.

(** [needle in v] came out true for the placeholder. *)
Definition has_placeholder (v : value) : bool :=
  match v with
  | VStr q => contains "@business_unit" q
  | VDict d => bool_decide (is_Some (dict_get "@business_unit" d))
  | _ => false
  end.

(** A driver call that is not a stored-procedure call for a query
    without the placeholder. *)
Definition placeholder_call (e : event) : Prop :=
  match e with
  | EExecute _ (ExecCreateColumnsConfig a) =>
    has_placeholder (sp_query a) = true
  | _ => True
  end.

Section AttributionDefs.
Context `{Runtime}.



(** The answer of test_query to a result with rows: the heading with the
    database, the column names, a rule, one line per row of [sample] with
    its cells between bars, and the number [total] of rows. *)
Definition sample_text (database_name : option string)
    (columns : list string) (sample : list (list value)) (total : nat)
    : string :=
  "✅ Query ejecutada correctamente en " +:+ shown database_name
  +:+ ". Primeras 5 filas:"
  +:+ separated " | " columns +:+ nl
  +:+ rule +:+ nl
  +:+ fold_right
        (fun row text => separated " | " (map cell row) +:+ nl +:+ text)
        "" sample
  +:+ nl +:+ "📊 Total de registros: " +:+ pretty total.

End AttributionDefs.

Section AssignmentDefs.
Context `{Runtime}.

(** No key has gained a second row and none has lost one: every key has
    as many rows in [d] as in [d0], or exactly one where [d0] had none.
    The rows of a key are counted as the COUNT check of the source counts
    them, with the engine's [=]; a key with a NULL in it matches no row. *)
Definition no_new_duplicates (d0 d : database) : Prop :=
  forall bu prefix role_code,
    count_assigned bu prefix role_code d
    = count_assigned bu prefix role_code d0
    \/ (count_assigned bu prefix role_code d0 = 0%nat
        /\ count_assigned bu prefix role_code d = 1%nat).

(** The row assign_report_to_role inserts. *)
Definition new_assignment (role_code : value)
    (report_prefix business_unit : string)
    (application_type : option string) (order : option Z)
    (custom_tag sales_office center_logistical : option string)
    : assignment :=
  {| ar_role := role_code;
     ar_report_prefix := VStr report_prefix;
     ar_business_unit := VStr business_unit;
     ar_application_type := of_opt_str application_type;
     ar_order := of_opt_int order;
     ar_custom_tag := of_opt_str custom_tag;
     ar_sales_office := of_opt_str sales_office;
     ar_center_logistical := of_opt_str center_logistical |}.

(** The text of a successful assign_report_to_role, [roles] being the
    roles the description matched and [first] the one used. *)
Definition assigned_text (report_prefix business_unit : string)
    (application_type : option string) (order : option Z)
    (custom_tag sales_office center_logistical : option string)
    (roles : list role_row) (first : role_row) : string :=
  (if (1 <? length roles)%nat
   then "⚠️ Se encontraron múltiples roles. Usando: "
        +:+ py_str (dr_code first) +:+ " - " +:+ py_str (dr_description first)
        +:+ nl +:+ nl
   else "")
  +:+ "✅ Reporte asignado exitosamente!" +:+ nl
  +:+ nl
  +:+ "📋 Detalles de la asignación:" +:+ nl
  +:+ "  • Reporte: " +:+ report_prefix +:+ nl
  +:+ "  • Unidad: " +:+ business_unit +:+ nl
  +:+ "  • Rol: " +:+ py_str (dr_code first) +:+ " - "
  +:+ py_str (dr_description first) +:+ nl
  +:+ "  • Tipo de aplicación: "
  +:+ or_na (of_opt_str application_type) +:+ nl
  +:+ "  • Orden: " +:+ or_na (of_opt_int order) +:+ nl
  +:+ "  • Etiqueta personalizada: "
  +:+ or_na (of_opt_str custom_tag) +:+ nl
  +:+ "  • Oficina de ventas: "
  +:+ or_na (of_opt_str sales_office) +:+ nl
  +:+ "  • Centro logístico: "
  +:+ or_na (of_opt_str center_logistical) +:+ nl.

(** The text of a successful get_table_structure. *)
Definition structure_text (table_name : string)
    (database_name : option string) (columns : list column_row) : string :=
  fold_left (fun result col => result +:+ render_column col) columns
    (("📋 Estructura de la tabla: " +:+ table_name +:+ nl)
     +:+ "🗄️ Base de datos: " +:+ env_str database_name +:+ nl +:+ nl).

(** A driver call that is not an INSERT into assigned_reports. *)
Definition not_insert (e : event) : Prop :=
  match e with
  | EExecute _ (InsertAssigned _) => False
  | _ => True
  end.

(** A driver call that is not an UPDATE of assigned_reports. *)
Definition not_update (e : event) : Prop :=
  match e with
  | EExecute _ (UpdateAssigned _ _ _ _) => False
  | EExecute _ (UpdateAssignedIn _ _ _ _) => False
  | _ => True
  end.

End AssignmentDefs.

Section FurtherDefs.
Context `{Runtime}.

(** A driver call that, if it opens a connection, opens it to [target]. *)
Definition connects_to (target : string) (e : event) : Prop :=
  match e with
  | EConnect cs => cs = target
  | _ => True
  end.

(** A driver call that, if it inserts an assignment, inserts it for a role
    of [d] that the role query with [bu] and [pattern] selects. *)
Definition inserts_selected_role (bu pattern : value) (d : database)
    (e : event) : Prop :=
  match e with
  | EExecute _ (InsertAssigned row) =>
    exists r, r ∈ default_roles d
              /\ ar_role row = dr_code r
              /\ sql_eq (dr_business_unit r) bu = true
              /\ sql_like_value (dr_description r) pattern = true
              /\ sql_ne (dr_application_type r) (VStr "sys_admin") = true
  | _ => True
  end.

(** A driver call that is not a commit. *)
Definition not_commit (e : event) : Prop :=
  match e with
  | ECommit _ => False
  | _ => True
  end.

(** An assignment after an update that names the fields that are not
    None. *)
Definition updated (application_type : option string) (order : option Z)
    (custom_tag sales_office center_logistical : option string)
    (a : assignment) : assignment :=
  {| ar_role := ar_role a;
     ar_report_prefix := ar_report_prefix a;
     ar_business_unit := ar_business_unit a;
     ar_application_type :=
       match application_type with
       | Some v => VStr v | None => ar_application_type a end;
     ar_order :=
       match order with Some v => VInt v | None => ar_order a end;
     ar_custom_tag :=
       match custom_tag with Some v => VStr v | None => ar_custom_tag a end;
     ar_sales_office :=
       match sales_office with
       | Some v => VStr v | None => ar_sales_office a end;
     ar_center_logistical :=
       match center_logistical with
       | Some v => VStr v | None => ar_center_logistical a end |}.

(** A driver call that, if it inserts an assignment, inserts one of an
    accepted application type for a role of [d] of the row's business unit
    that is not a system administrator. *)
Definition inserts_checked_item (d : database) (e : event) : Prop :=
  match e with
  | EExecute _ (InsertAssigned row) =>
    existsb (py_eq_str (ar_application_type row)) valid_app_types = true
    /\ exists r, r ∈ default_roles d
                 /\ ar_role row = dr_code r
                 /\ sql_eq (dr_business_unit r) (ar_business_unit row) = true
                 /\ sql_ne (dr_application_type r) (VStr "sys_admin") = true
  | _ => True
  end.

End FurtherDefs.

(** * Searching tables in several databases *)

(** ** A text built by [result += ...]

    The operations that visit every database keep their answer in a local
    variable [result]; the [try] around each database has a handler that
    appends to it, so what was appended before a call raised stays.  [T A]
    is a computation over that variable: it ends with a value or with an
    exception, and in both cases with the text so far. *)
Definition T (A : Type) : Type := string -> M ((exn + A) * string).

Definition t_ret {A} (a : A) : T A := fun result => ret (inr a, result).

Definition t_bind {A B} (m : T A) (k : A -> T B) : T B := fun result =>
  x <- m result ;;
  match x with
  | (inl e, result) => ret (inl e, result)
  | (inr a, result) => k a result
  end.

(** A call that does not touch [result]. *)
Definition call {A} (m : M A) : T A := fun result =>
  try_except (a <- m ;; ret (inr a, result)) (fun e => ret (inl e, result)).

(** [result += s] *)
Definition add (s : string) : T unit := fun result =>
  ret (inr tt, result +:+ s).

(** [try: m  except Exception as e: h e] *)
Definition t_try (m : T unit) (h : exn -> T unit) : T unit := fun result =>
  x <- m result ;;
  match x with
  | (inl e, result) => h e result
  | (inr a, result) => ret (inr a, result)
  end.

(** [for x in l: body x] *)
Fixpoint t_for {A} (l : list A) (body : A -> T unit) : T unit :=
  match l with
  | [] => t_ret tt
  | x :: l' => t_bind (body x) (fun _ => t_for l' body)
  end.

(** The text after [m], started from [result]. *)
Definition text_of (m : T unit) (result : string) : M string :=
  x <- m result ;;
  match x with
  | (inl e, _) => raise e
  | (inr _, result) => ret result
  end.

Arguments call {A} m%_py.

Declare Scope text_scope.
Delimit Scope text_scope with T.
Notation "x <- m ;; k" := (t_bind m (fun x => k))
  (at level 100, m at next level, right associativity) : text_scope.
Notation "m ;; k" := (t_bind m (fun _ => k))
  (at level 100, right associativity) : text_scope.

Section SchemaSearch.
Context `{Runtime}.

(** ** Search of one table in every database *)

(** One turn of the loop over [DB_CONFIGS.items()]. *)
Definition search_in (table_name : string) (entry : string * config)
    : T unit :=
  let (db_key, db_config) := entry in
  t_try
    (conn <- call (get_db_connection db_key) ;;
     columns <- call (execute conn (SelectColumns (VStr table_name))
                        [VStr table_name]
                        (reads (select_columns (VStr table_name)))) ;;
     match columns with
     | [] =>
       add ("❌ No encontrada en " +:+ env_str (cfg_database db_config)
            +:+ nl +:+ nl)
     | _ =>
       add ("✅ Encontrada en " +:+ env_str (cfg_database db_config)
            +:+ ":" +:+ nl) ;;
       t_for columns (fun col => add (render_column col)) ;;
       add nl
     end ;;
     call (close conn))%T
    (fun e =>
       add ("⚠️ Error al consultar " +:+ env_str (cfg_database db_config)
            +:+ ": " +:+ exn_str e +:+ nl +:+ nl)).

Definition search_table_in_all_databases (table_name : string) : M string :=
  try_except
    (text_of (t_for DB_CONFIGS (search_in table_name))
       ("🔍 Buscando tabla '" +:+ table_name
        +:+ "' en todas las bases de datos:" +:+ nl +:+ nl))
    (fun e => ret ("❌ Error general: " +:+ exn_str e)).

(** ** Several tables at once *)

(** The statement built around [placeholders]; [margin] is the
    indentation of the source's text. *)
Definition columns_in_query (margin placeholders : string) : string :=
  nl
  +:+ margin +:+ "SELECT " +:+ nl
  +:+ margin +:+ "    TABLE_NAME," +:+ nl
  +:+ margin +:+ "    COLUMN_NAME," +:+ nl
  +:+ margin +:+ "    DATA_TYPE," +:+ nl
  +:+ margin +:+ "    CHARACTER_MAXIMUM_LENGTH," +:+ nl
  +:+ margin +:+ "    IS_NULLABLE," +:+ nl
  +:+ margin +:+ "    ORDINAL_POSITION" +:+ nl
  +:+ margin +:+ "FROM INFORMATION_SCHEMA.COLUMNS" +:+ nl
  +:+ margin +:+ "WHERE TABLE_NAME IN (" +:+ placeholders +:+ ")" +:+ nl
  +:+ margin +:+ "ORDER BY TABLE_NAME, ORDINAL_POSITION" +:+ nl
  +:+ margin.

(** ORDER BY TABLE_NAME, ORDINAL_POSITION *)
Definition table_then_position (a b : column_row) : bool :=
  if sql_leb (TABLE_NAME a) (TABLE_NAME b) then
    if sql_leb (TABLE_NAME b) (TABLE_NAME a)
    then (ORDINAL_POSITION a <=? ORDINAL_POSITION b)%Z
    else true
  else false.

(** SELECT ... FROM INFORMATION_SCHEMA.COLUMNS WHERE TABLE_NAME IN (?, ...)
    ORDER BY TABLE_NAME, ORDINAL_POSITION *)
Definition select_columns_in (table_names : list value) (d : database)
    : list column_row :=
  order_by table_then_position
    (filter (fun r => existsb (sql_eq (TABLE_NAME r)) table_names = true)
            (information_schema_columns d)).

(** The dictionary appended to [tables_data[table_name]]. *)
Record column_info : Type := {
  ci_name : value;
  ci_type : value;
  ci_length : string;
  ci_nullable : string;
  ci_position : Z
}.

Definition describe_column (col : column_row) : column_info :=
  {| ci_name := COLUMN_NAME col;
     ci_type := DATA_TYPE col;
     ci_length :=
       if truthy (CHARACTER_MAXIMUM_LENGTH col)
       then "(" +:+ py_str (CHARACTER_MAXIMUM_LENGTH col) +:+ ")"
       else "";
     ci_nullable :=
       if py_eq_str (IS_NULLABLE col) "YES" then "NULL" else "NOT NULL";
     ci_position := ORDINAL_POSITION col |}.

(** [tables_data]: a dictionary from the table names the statement
    returned to their columns, in insertion order. *)
Definition tables : Type := list (value * list column_info).

(** [a == b] between dictionary keys. *)
Definition key_eqb (a b : value) : bool :=
  match a, b with
  | VNone, VNone => true
  | VInt x, VInt y => (x =? y)%Z
  | VStr x, VStr y => String.eqb x y
  | _, _ => false
  end.

(** [tables_data.get(k)] *)
Fixpoint tables_get (k : value) (t : tables) : option (list column_info) :=
  match t with
  | [] => None
  | (k', cols) :: t' => if key_eqb k k' then Some cols else tables_get k t'
  end.

(** [tables_data[k].append(c)] *)
Fixpoint tables_append (k : value) (c : column_info) (t : tables) : tables :=
  match t with
  | [] => []
  | (k', cols) :: t' =>
    if key_eqb k k' then (k', cols ++ [c]) :: t'
    else (k', cols) :: tables_append k c t'
  end.

(** One turn of the loop that groups the rows by table. *)
Definition group_column (tables_data : tables) (col : column_row)
    : M tables :=
  match TABLE_NAME col with
  | VDict _ => raise (TypeError "unhashable type: 'dict'")
  | table_name =>
    let tables_data :=
      match tables_get table_name tables_data with
      | None => tables_data ++ [(table_name, [])]
      | Some _ => tables_data
      end in
    ret (tables_append table_name (describe_column col) tables_data)
  end.

Definition group_columns (columns : list column_row) : M tables :=
  for_each (fun _ col tables_data => group_column tables_data col) 0
    columns [].

Definition get_multiple_table_structures (table_names : list string)
    (database_key : string) : M string :=
  try_except
    (match table_names with
     | [] => ret "⚠️ No se proporcionaron nombres de tablas"
     | _ =>
       conn <- get_db_connection database_key ;;
       let placeholders := join "," (map (fun _ => "?") table_names) in
       let query := columns_in_query "        " placeholders in
       columns <- execute conn (RawSQL query) (map VStr table_names)
                    (reads (select_columns_in (map VStr table_names))) ;;
       match columns with
       | [] =>
         let tables_str := join ", " table_names in
         c <- config_of database_key ;;
         ret ("⚠️ No se encontraron las tablas '" +:+ tables_str
              +:+ "' en la base de datos '" +:+ env_str (cfg_database c)
              +:+ "'")
       | _ =>
         tables_data <- group_columns columns ;;
         c <- config_of database_key ;;
         let result := "📋 Estructuras de tablas en "
                       +:+ env_str (cfg_database c) +:+ ":" +:+ nl +:+ nl in
         let result :=
           fold_left
             (fun result table_name =>
                match tables_get (VStr table_name) tables_data with
                | Some cols =>
                  let result :=
                    result +:+ "🗂️ Tabla: " +:+ table_name +:+ nl in
                  let result :=
                    fold_left
                      (fun result col =>
                         result +:+ "  • " +:+ py_str (ci_name col) +:+ ": "
                         +:+ py_str (ci_type col) +:+ ci_length col +:+ " - "
                         +:+ ci_nullable col +:+ nl)
                      cols result in
                  result +:+ nl
                | None =>
                  result +:+ "❌ Tabla '" +:+ table_name
                  +:+ "' no encontrada" +:+ nl +:+ nl
                end)
             table_names result in
         close conn ;;
         ret result
       end
     end)
    (fun e =>
       ret ("❌ Error al obtener estructuras múltiples: " +:+ exn_str e)).

(** ** Several tables in every database *)

(** One turn of the loop over [DB_CONFIGS.items()]. *)
Definition structures_in (table_names : list string)
    (entry : string * config) : T unit :=
  let (db_key, db_config) := entry in
  t_try
    (conn <- call (get_db_connection db_key) ;;
     let placeholders := join "," (map (fun _ => "?") table_names) in
     let query := columns_in_query "                " placeholders in
     columns <- call (execute conn (RawSQL query) (map VStr table_names)
                        (reads (select_columns_in (map VStr table_names)))) ;;
     add ("🗄️ Base de datos: " +:+ env_str (cfg_database db_config)
          +:+ nl) ;;
     match columns with
     | [] => add ("  ❌ Ninguna tabla encontrada" +:+ nl)
     | _ =>
       tables_data <- call (group_columns columns) ;;
       t_for table_names (fun table_name =>
         match tables_get (VStr table_name) tables_data with
         | Some cols =>
           add ("  ✅ " +:+ table_name +:+ ":" +:+ nl) ;;
           t_for cols (fun col =>
             add ("    • " +:+ py_str (ci_name col) +:+ ": "
                  +:+ py_str (ci_type col) +:+ ci_length col +:+ " - "
                  +:+ ci_nullable col +:+ nl))
         | None => add ("  ❌ " +:+ table_name +:+ ": No encontrada" +:+ nl)
         end)
     end ;;
     add nl ;;
     call (close conn))%T
    (fun e =>
       add ("⚠️ Error al consultar " +:+ env_str (cfg_database db_config)
            +:+ ": " +:+ exn_str e +:+ nl +:+ nl)).

Definition get_table_structures_across_databases
    (table_names : list string) : M string :=
  try_except
    (match table_names with
     | [] => ret "⚠️ No se proporcionaron nombres de tablas"
     | _ =>
       let result :=
         "🔍 Buscando estructuras de tablas en todas las bases de datos:"
         +:+ nl in
       let result := result +:+ "📋 Tablas solicitadas: "
                     +:+ join ", " table_names +:+ nl +:+ nl in
       text_of (t_for DB_CONFIGS (structures_in table_names)) result
     end)
    (fun e => ret ("❌ Error general: " +:+ exn_str e)).

End SchemaSearch.

Section SchemaSearchDefs.
Context `{Runtime}.

(** The connection strings of the connections a run asked for, in order,
    whether or not the driver opened them. *)
Definition connections (evs : list event) : list string :=
  omap (fun e => match e with
                 | EConnect cs => Some cs
                 | _ => None
                 end) evs.

(** What search_table_in_all_databases says about a database that holds
    [d] and is configured by [c], when the driver raises nothing. *)
Definition found_text (table_name : string) (c : config) (d : database)
    : string :=
  match select_columns (VStr table_name) d with
  | [] => "❌ No encontrada en " +:+ env_str (cfg_database c) +:+ nl +:+ nl
  | columns =>
    "✅ Encontrada en " +:+ env_str (cfg_database c) +:+ ":" +:+ nl
    +:+ fold_left (fun text col => text +:+ render_column col) columns ""
    +:+ nl
  end.

(** The rows of [columns] whose table name is spelled [table_name]. *)
Definition columns_named (table_name : string) (columns : list column_row)
    : list column_row :=
  filter (fun col => key_eqb (VStr table_name) (TABLE_NAME col) = true)
         columns.

(** What get_multiple_table_structures says about one requested name,
    given the rows the statement returned. *)
Definition table_text (columns : list column_row) (table_name : string)
    : string :=
  match columns_named table_name columns with
  | [] => "❌ Tabla '" +:+ table_name +:+ "' no encontrada" +:+ nl +:+ nl
  | found =>
    "🗂️ Tabla: " +:+ table_name +:+ nl
    +:+ fold_left (fun text col => text +:+ render_column col) found ""
    +:+ nl
  end.

End SchemaSearchDefs.

Section UniquenessDefs.
Context `{Runtime}.

(** The row bulk_assign_reports_to_roles inserts for an item whose role
    description resolved to the role [first]. *)
Definition item_assignment (item : gmap string value) (first : role_row)
    : assignment :=
  {| ar_role := dr_code first;
     ar_report_prefix := get_or item "report_prefix" VNone;
     ar_business_unit := get_or item "business_unit" VNone;
     ar_application_type := get_or item "application_type" VNone;
     ar_order := get_or item "order" VNone;
     ar_custom_tag := get_or item "custom_tag" VNone;
     ar_sales_office := get_or item "sales_office" VNone;
     ar_center_logistical := get_or item "center_logistical" VNone |}.

(** The values an INSERT binds for a row. *)
Definition bound_values (row : assignment) : list value :=
  [ ar_role row; ar_report_prefix row; ar_business_unit row;
    ar_application_type row; ar_order row; ar_custom_tag row;
    ar_sales_office row; ar_center_logistical row ].

End UniquenessDefs.

(** ** A concrete runtime and database for examples *)

Module Demo.

Definition dquote : string := String (Ascii.ascii_of_nat 34) EmptyString.

(** A stand-in for [repr] and [json.dumps], enough for flat dictionaries
    of plain text. *)
Definition repr (v : value) : string :=
  match v with
  | VNone => "None"
  | VInt z => pretty z
  | VStr s => "'" +:+ s +:+ "'"
  | VDict _ => "{...}"
  end.

Definition json_value (v : value) : string :=
  match v with
  | VNone => "null"
  | VInt z => pretty z
  | VStr s => dquote +:+ s +:+ dquote
  | VDict _ => "{...}"
  end.

Definition dumps (d : pydict) : string :=
  "{" +:+ join ", " (map (fun kv => dquote +:+ fst kv +:+ dquote +:+ ": "
                                    +:+ json_value (snd kv)) d) +:+ "}".

Fixpoint drop_last (s : string) : string :=
  match s with
  | EmptyString => EmptyString
  | String c EmptyString => EmptyString
  | String c s' => String c (drop_last s')
  end.

(** [LIKE] for patterns of the shape [%text%], without regard to case. *)
Definition like (x pattern : string) : bool :=
  match pattern with
  | EmptyString => false
  | String _ rest => contains (ascii_upper (drop_last rest)) (ascii_upper x)
  end.

(** A stand-in for [str.upper] outside ASCII: U+0131, dotless i (the
    bytes 196 and 177 in UTF-8), becomes [I]; other text is left alone. *)
Definition upper_outside_ascii (run : string) : string :=
  if String.eqb run "ı" then "I" else run.

Definition append_config (a : sp_args) (d : database) : database :=
  {| information_schema_columns := information_schema_columns d;
     default_roles := default_roles d;
     assigned_reports := assigned_reports d;
     columns_config := columns_config d ++ [a] |}.

(** An engine that answers every ad-hoc statement with the role table. *)
Definition sql (text : string) (d : database)
    : (string + rowset) * database :=
  (inr (["code"; "description"],
        map (fun r => [dr_code r; dr_description r]) (default_roles d)), d).

Definition runtime : Runtime :=
  {| DEV_SERVER := Some "sql.example.org";
     DEV_DATABASE := Some "ECOSYSTEM_DEV";
     DEV_USERNAME := Some "svc_reports";
     DEV_PASSWORD := Some "secret";
     json_dumps := dumps;
     py_repr := repr;
     upper_non_ascii := upper_outside_ascii;
     collate := ascii_upper;
     sql_like := like;
     run_sql := sql;
     run_sp := fun a d => inr (append_config a d) |}.

Definition role (c desc app bu : string) : role_row :=
  {| dr_code := VStr c; dr_description := VStr desc;
     dr_application_type := VStr app; dr_business_unit := VStr bu;
     dr_order_ := VNone |}.

Definition grant (r p bu : string) : assignment :=
  {| ar_role := VStr r; ar_report_prefix := VStr p;
     ar_business_unit := VStr bu; ar_application_type := VStr "sales_force";
     ar_order := VNone; ar_custom_tag := VNone; ar_sales_office := VNone;
     ar_center_logistical := VNone |}.

Definition column (t c ty : string) (len : value) (nullable : string)
    (pos : Z) : column_row :=
  {| TABLE_NAME := VStr t; COLUMN_NAME := VStr c; DATA_TYPE := VStr ty;
     CHARACTER_MAXIMUM_LENGTH := len; IS_NULLABLE := VStr nullable;
     ORDINAL_POSITION := pos |}.

Definition db (grants : list assignment) : database :=
  {| information_schema_columns :=
       [ column "default_roles" "description" "nvarchar" (VInt 100) "YES" 2;
         column "default_roles" "code" "nvarchar" (VInt 20) "NO" 1 ];
     default_roles :=
       [ role "ADM" "Administrador" "sales_force" "1000";
         role "ROOT" "Administrador de sistema" "sys_admin" "1000";
         role "SUP" "Supervisor" "merchandising" "1000" ];
     assigned_reports := grants;
     columns_config := [] |}.

(** A server on which every database holds [db grants], with no
    connection yet and a driver that never fails. *)
Definition start (grants : list assignment) : world :=
  {| server := fun _ => db grants; sessions := []; faults := []; log := [] |}.

(** A database with seven roles, and a server that holds it
    everywhere. *)
Definition seven_roles : database :=
  {| information_schema_columns := [];
     default_roles :=
       [ role "R1" "Uno" "sales_force" "1000";
         role "R2" "Dos" "sales_force" "1000";
         role "R3" "Tres" "sales_force" "1000";
         role "R4" "Cuatro" "sales_force" "1000";
         role "R5" "Cinco" "sales_force" "1000";
         role "R6" "Seis" "sales_force" "1000";
         role "R7" "Siete" "sales_force" "1000" ];
     assigned_reports := [];
     columns_config := [] |}.

Definition start_on (d : database) : world :=
  {| server := fun _ => d; sessions := []; faults := []; log := [] |}.

Definition item (fields : list (string * value)) : gmap string value :=
  list_to_map fields.

End Demo.

(** ** Items of bulk requests used in the examples *)

Definition invalid_item : gmap string value :=
  Demo.item [("report_prefix", VStr "R1");
             ("report_description_en", VStr "Sales");
             ("report_description_es", VStr "Ventas")].

Definition valid_item : gmap string value :=
  Demo.item [("report_prefix", VStr "R2");
             ("report_description_en", VStr "Stock");
             ("report_description_es", VStr "Inventario");
             ("query", VStr "SELECT a FROM t WHERE bu = @business_unit")].

(** An item without a report prefix is inserted again by a second
    call: the table ends with the same row twice. *)
Definition unnamed_item : gmap string value :=
  Demo.item [("report_prefix", VNone);
             ("business_unit", VStr "1000");
             ("role_description", VStr "admin");
             ("application_type", VStr "sales_force")].

(** * Properties *)

Lemma wp_ret {A} (a : A) Q w : Q (inr a) w -> wp (ret a) Q w.
Proof. exact id. Qed.

Lemma wp_raise {A} e (Q : exn + A -> world -> Prop) w :
  Q (inl e) w -> wp (raise e) Q w.
Proof. exact id. Qed.

Lemma wp_bind {A B} (m : M A) (k : A -> M B) Q w :
  wp m (fun r w' => match r with
                    | inl e => Q (inl e) w'
                    | inr a => wp (k a) Q w'
                    end) w ->
  wp (bind m k) Q w.
Proof. unfold wp, bind. destruct (m w) as [[e|a] w']; exact id. Qed.

Lemma wp_try_except {A} (m : M A) h Q w :
  wp m (fun r w' => match r with
                    | inl e => wp (h e) Q w'
                    | inr a => Q (inr a) w'
                    end) w ->
  wp (try_except m h) Q w.
Proof. unfold wp, try_except. destruct (m w) as [[e|a] w']; exact id. Qed.

Lemma wp_mono {A} (m : M A) (Q Q' : exn + A -> world -> Prop) w :
  (forall r w', Q r w' -> Q' r w') -> wp m Q w -> wp m Q' w.
Proof. unfold wp. auto. Qed.

Lemma driver_call_eq e w :
  driver_call e w =
  (match next_fault (faults w) with
   | Some msg => inl (DriverError msg) | None => inr tt end,
   {| server := server w; sessions := sessions w; faults := tail (faults w);
      log := log w ++ [e] |}).
Proof.
  unfold driver_call, pop_fault, record. destruct w as [srv ss fs lg]; simpl.
  destruct fs as [|[m|] fs]; reflexivity.
Qed.

Lemma wp_pyodbc_connect cs Q w :
  match next_fault (faults w) with
  | Some msg =>
    Q (inl (DriverError msg))
      {| server := server w; sessions := sessions w;
         faults := tail (faults w); log := log w ++ [EConnect cs] |}
  | None =>
    Q (inr (length (sessions w)))
      (W (server w) (sessions w) cs (server w cs) true (tail (faults w))
         (log w ++ [EConnect cs]))
  end ->
  wp (pyodbc_connect cs) Q w.
Proof.
  unfold wp, pyodbc_connect, bind. rewrite driver_call_eq.
  destruct (next_fault (faults w)); exact id.
Qed.

Lemma live_session_W srv ss cs d op fs lg :
  live_session (length ss) (W srv ss cs d op fs lg) =
  (if op then inr {| target := cs; work := d; is_open := op |}
   else inl (DriverError "Attempt to use a closed connection."),
   W srv ss cs d op fs lg).
Proof.
  unfold live_session, W. simpl.
  rewrite list_lookup_middle by reflexivity. simpl. destruct op; reflexivity.
Qed.

Lemma update_session_W srv ss cs d op fs lg cs' d' op' :
  update_session (length ss)
    {| target := cs'; work := d'; is_open := op' |} (W srv ss cs d op fs lg)
  = W srv ss cs' d' op' fs lg.
Proof.
  unfold update_session, W. simpl. f_equal.
  rewrite insert_app_r_alt by lia. rewrite Nat.sub_diag. reflexivity.
Qed.

Lemma wp_execute {A} srv ss cs d fs lg q ps
    (sem : database -> (string + A) * database) Q :
  let lg' := lg ++ [EExecute (length ss) q] in
  match next_fault fs with
  | Some msg => Q (inl (DriverError msg)) (W srv ss cs d true (tail fs) lg')
  | None =>
    match find_unbindable 0 ps with
    | Some i =>
      Q (inl (DriverError
                ("('Invalid parameter type.  param-index=" +:+ pretty i
                 +:+ " param-type=dict', 'HY105')")))
        (W srv ss cs d true (tail fs) lg')
    | None =>
      Q (match (sem d).1 with
         | inl msg => inl (DriverError msg)
         | inr r => inr r
         end)
        (W srv ss cs (sem d).2 true (tail fs) lg')
    end
  end ->
  wp (execute (length ss) q ps sem) Q (W srv ss cs d true fs lg).
Proof.
  intros lg'. unfold wp, execute, bind. rewrite driver_call_eq. simpl.
  destruct (next_fault fs); [exact id|].
  change {| server := srv;
            sessions := ss ++ [{| target := cs; work := d; is_open := true |}];
            faults := tail fs; log := lg ++ [EExecute (length ss) q] |}
    with (W srv ss cs d true (tail fs) lg').
  rewrite live_session_W.
  destruct (find_unbindable 0 ps); [exact id|]. simpl.
  destruct (sem d) as [[msg|r] d']; simpl; rewrite update_session_W; exact id.
Qed.

Lemma wp_commit srv ss cs d fs lg Q :
  let lg' := lg ++ [ECommit (length ss)] in
  match next_fault fs with
  | Some msg => Q (inl (DriverError msg)) (W srv ss cs d true (tail fs) lg')
  | None => Q (inr tt) (W (publish srv cs d) ss cs d true (tail fs) lg')
  end ->
  wp (commit (length ss)) Q (W srv ss cs d true fs lg).
Proof.
  intros lg'. unfold wp, commit, bind. rewrite driver_call_eq. simpl.
  destruct (next_fault fs); [exact id|].
  change {| server := srv;
            sessions := ss ++ [{| target := cs; work := d; is_open := true |}];
            faults := tail fs; log := lg ++ [ECommit (length ss)] |}
    with (W srv ss cs d true (tail fs) lg').
  rewrite live_session_W. exact id.
Qed.

Lemma wp_close srv ss cs d fs lg Q :
  let lg' := lg ++ [EClose (length ss)] in
  match next_fault fs with
  | Some msg => Q (inl (DriverError msg)) (W srv ss cs d true (tail fs) lg')
  | None => Q (inr tt) (W srv ss cs d false (tail fs) lg')
  end ->
  wp (close (length ss)) Q (W srv ss cs d true fs lg).
Proof.
  intros lg'. unfold wp, close, bind. rewrite driver_call_eq. simpl.
  destruct (next_fault fs); [exact id|].
  change {| server := srv;
            sessions := ss ++ [{| target := cs; work := d; is_open := true |}];
            faults := tail fs; log := lg ++ [EClose (length ss)] |}
    with (W srv ss cs d true (tail fs) lg').
  rewrite live_session_W. simpl. rewrite update_session_W. exact id.
Qed.

Lemma wp_eq {A} (m : M A) w r w' :
  wp m (fun r0 w0 => r0 = r /\ w0 = w') w -> m w = (r, w').
Proof. unfold wp. destruct (m w); simpl. intros [-> ->]; reflexivity. Qed.

Lemma wp_of_eq {A} (m : M A) (Q : exn + A -> world -> Prop) w r w' :
  m w = (r, w') -> Q r w' -> wp m Q w.
Proof. unfold wp. by intros ->. Qed.

Section ServerFacts.
Context `{Runtime}.

Lemma lookup_default : lookup_config "default" DB_CONFIGS = Some default_config.
Proof. reflexivity. Qed.

Lemma lookup_secondary :
  lookup_config "INTEGRACION_CW_20_DEV" DB_CONFIGS = Some secondary_config.
Proof. reflexivity. Qed.

Lemma wp_get_db_connection key Q w :
  match lookup_config key DB_CONFIGS with
  | None =>
    Q (inl (ValueError ("Base de datos '" +:+ key +:+ "' no configurada"))) w
  | Some c => wp (pyodbc_connect (conn_string c)) Q w
  end ->
  wp (get_db_connection key) Q w.
Proof.
  unfold get_db_connection. destruct (lookup_config key DB_CONFIGS); exact id.
Qed.

Lemma wp_config_of key Q w :
  match lookup_config key DB_CONFIGS with
  | None => Q (inl (KeyError (VStr key))) w
  | Some c => Q (inr c) w
  end ->
  wp (config_of key) Q w.
Proof. unfold config_of. destruct (lookup_config key DB_CONFIGS); exact id. Qed.

End ServerFacts.

Ltac wp_simpl :=
  cbn [reads writes fst snd find_unbindable next_fault tail].

Ltac wp_known :=
  rewrite ?lookup_default, ?lookup_secondary;
  repeat match goal with
         | H : lookup_config ?k _ = _ |- context [lookup_config ?k _] =>
           rewrite H
         | H : faults ?w = _ |- context [faults ?w] => rewrite H
         end.

Ltac wp_prim :=
  lazymatch goal with
  | |- wp (try_except _ _) _ _ => apply wp_try_except
  | |- wp (bind _ _) _ _ => apply wp_bind
  | |- wp (ret _) _ _ => apply wp_ret
  | |- wp (raise _) _ _ => apply wp_raise
  | |- wp (get_db_connection _) _ _ => apply wp_get_db_connection; wp_known
  | |- wp (config_of _) _ _ => apply wp_config_of; wp_known
  | |- wp (pyodbc_connect _) _ _ => apply wp_pyodbc_connect; wp_known
  | |- wp (execute _ _ _ _) _ _ => apply wp_execute
  | |- wp (commit _) _ _ => apply wp_commit
  | |- wp (close _) _ _ => apply wp_close
  end;
  wp_simpl.

(** Steps of the dynamically typed helpers: they are plain case
    distinctions on a value. *)
Ltac wp_dyn :=
  lazymatch goal with
  | |- wp (getitem _ _) _ _ => unfold getitem
  | |- wp (py_contains _ _) _ _ => unfold py_contains
  | |- wp (py_upper _) _ _ => unfold py_upper
  | |- wp (py_update _ _) _ _ => unfold py_update
  | |- wp (config_at _) _ _ => unfold config_at
  end.

Ltac wp_case :=
  lazymatch goal with
  | |- match next_fault ?fs with _ => _ end => destruct (next_fault fs)
  | |- wp (match ?x with _ => _ end) _ _ => destruct x eqn:?
  | |- wp (if ?b then _ else _) _ _ => destruct b eqn:?
  | |- match ?x with _ => _ end => destruct x eqn:?
  end;
  wp_simpl.

(** Straight-line steps only. *)
Ltac wp_steps := wp_simpl; repeat wp_prim.

Ltac wp_run := wp_simpl; repeat first [wp_prim | wp_dyn | wp_case].

(** ** Strings *)

Lemma append_nil (b : string) : EmptyString +:+ b = b.
Proof. reflexivity. Qed.

Lemma append_cons c (a b : string) : String c a +:+ b = String c (a +:+ b).
Proof. reflexivity. Qed.

Lemma append_assoc (a b c : string) : (a +:+ b) +:+ c = a +:+ (b +:+ c).
Proof.
  induction a as [|c0 a IH]; [done|]. by rewrite !append_cons, IH.
Qed.

Lemma prefix_app (n b : string) : String.prefix n (n +:+ b) = true.
Proof.
  induction n as [|c n IH]; [by destruct b|].
  rewrite append_cons. simpl.
  destruct (Ascii.ascii_dec c c); [exact IH | done].
Qed.

Lemma prefix_inv (n h : string) :
  String.prefix n h = true -> exists b, h = n +:+ b.
Proof.
  revert h. induction n as [|c n IH]; intros h Hp; [by exists h|].
  destruct h as [|c' h]; simpl in Hp; [done|].
  destruct (Ascii.ascii_dec c c') as [->|]; [|done].
  destruct (IH _ Hp) as [b ->]. by exists b.
Qed.

Lemma contains_unfold (n h : string) :
  contains n h =
  String.prefix n h
  || match h with EmptyString => false | String _ h' => contains n h' end.
Proof. by destruct h. Qed.

Lemma contains_app (a n b : string) : contains n (a +:+ n +:+ b) = true.
Proof.
  induction a as [|c a IH].
  - rewrite append_nil, contains_unfold, prefix_app. done.
  - rewrite append_cons. simpl. rewrite IH. apply orb_true_r.
Qed.

Lemma contains_inv (n h : string) :
  contains n h = true -> exists a b, h = a +:+ n +:+ b.
Proof.
  induction h as [|c h IH]; rewrite contains_unfold; intros Hc.
  - rewrite orb_false_r in Hc. apply prefix_inv in Hc as [b Hb].
    exists EmptyString, b. done.
  - apply orb_true_iff in Hc as [Hp|Hc].
    + apply prefix_inv in Hp as [b Hb]. exists EmptyString, b. done.
    + destruct (IH Hc) as (a & b & ->). exists (String c a), b. done.
Qed.

(** [needle in hay] holds exactly when [hay] splits around [needle]. *)
Lemma contains_spec (n h : string) :
  contains n h = true <-> exists a b, h = a +:+ n +:+ b.
Proof.
  split; [apply contains_inv|]. intros (a & b & ->). apply contains_app.
Qed.




Lemma append_nil_r (a : string) : a +:+ EmptyString = a.
Proof.
  induction a as [|ch a IH]; [done|]. by rewrite append_cons, IH.
Qed.



Lemma ascii_text_app a b :
  ascii_text (a +:+ b) = ascii_text a && ascii_text b.
Proof.
  induction a as [|c a IH]; [done|].
  rewrite append_cons. cbn [ascii_text]. by rewrite IH, andb_assoc.
Qed.

(** ** Spelling *)

Lemma text_fold_left_prefix {A} (f : A -> string) (l : list A) : forall a b,
  fold_left (fun text x => text +:+ f x) l (a +:+ b)
  = a +:+ fold_left (fun text x => text +:+ f x) l b.
Proof.
  induction l as [|x l IH]; intros a b; [done|].
  cbn [fold_left]. by rewrite append_assoc, IH.
Qed.

Lemma text_fold_left_lines {A} (f : A -> string) (l : list A) a :
  fold_left (fun text x => text +:+ f x) l a
  = a +:+ fold_right (fun x text => f x +:+ text) "" l.
Proof.
  revert a. induction l as [|x l IH]; intros a.
  - by rewrite append_nil_r.
  - cbn [fold_left fold_right]. by rewrite IH, append_assoc.
Qed.

Lemma join_separated sep l : join sep l = separated sep l.
Proof.
  destruct l as [|x l]; [done|]. unfold separated.
  revert x. induction l as [|y l IH]; intros x; [done|].
  cbn [fold_left]. rewrite <- (append_assoc x sep y).
  rewrite (text_fold_left_prefix (fun y => sep +:+ y) l (x +:+ sep) y).
  rewrite <- IH, append_assoc. done.
Qed.

Lemma repeat_string_rule : repeat_string "-" 80 = rule.
Proof. reflexivity. Qed.

Section SpellingFacts.
Context `{Runtime}.

Lemma env_str_shown o : env_str o = shown o.
Proof. by destruct o. Qed.

Lemma py_str_cell v : py_str v = cell v.
Proof. by destruct v. Qed.

End SpellingFacts.

(** ** [str.upper] *)

Section Upper.
Context `{Runtime}.





End Upper.

(** replace *)

Lemma replace_from_drop old new s k :
  replace_from old new s k = replace_from old new (drop_string k s) 0.
Proof.
  revert k. induction s as [|c s IH]; intros [|k]; simpl; done.
Qed.

Lemma drop_string_app (a b : string) :
  drop_string (String.length a) (a +:+ b) = b.
Proof. induction a; [by destruct b|done]. Qed.

(** An occurrence at the front is replaced and scanning resumes behind it. *)
Lemma replace_match (old new rest : string) :
  old <> EmptyString ->
  replace old new (old +:+ rest) = new +:+ replace old new rest.
Proof.
  intros Hold. destruct old as [|c old]; [done|].
  unfold replace. rewrite append_cons. cbn [replace_from].
  rewrite <- append_cons. rewrite prefix_app. f_equal.
  rewrite replace_from_drop.
  replace (String.length (String c old) - 1)%nat with (String.length old)
    by (cbn [String.length]; lia).
  by rewrite drop_string_app.
Qed.

(** A byte that does not start an occurrence is copied. *)
Lemma replace_skip (old new : string) c s :
  old <> EmptyString -> String.prefix old (String c s) = false ->
  replace old new (String c s) = String c (replace old new s).
Proof.
  intros Hold Hp. destruct old as [|c' old]; [done|].
  unfold replace. cbn [replace_from]. by rewrite Hp.
Qed.

Lemma replace_none (old new s : string) :
  old <> EmptyString -> contains old s = false -> replace old new s = s.
Proof.
  intros Hold. induction s as [|c s IH]; intros Hc.
  - by destruct old.
  - rewrite contains_unfold in Hc. apply orb_false_iff in Hc as [Hp Hc].
    rewrite replace_skip by done. by rewrite IH.
Qed.

Lemma prefix_cons c n c' h :
  String.prefix (String c n) (String c' h) =
  if Ascii.ascii_dec c c' then String.prefix n h else false.
Proof. reflexivity. Qed.

Lemma prefix_nil (h : string) : String.prefix EmptyString h = true.
Proof. by destruct h. Qed.

Lemma prefix_short (p a rest : string) c :
  contains (String c EmptyString) p = false ->
  String.prefix p (a +:+ String c rest) = true ->
  String.prefix p a = true.
Proof.
  revert a. induction p as [|c' p IH]; intros a Hc Hp; [apply prefix_nil|].
  rewrite contains_unfold in Hc. apply orb_false_iff in Hc as [Hc' Hc].
  rewrite prefix_cons, prefix_nil in Hc'.
  destruct a as [|c'' a].
  - rewrite append_nil, prefix_cons in Hp.
    destruct (Ascii.ascii_dec c' c) as [->|]; [|done].
    by destruct (Ascii.ascii_dec c c).
  - rewrite append_cons, prefix_cons in Hp. rewrite prefix_cons.
    destruct (Ascii.ascii_dec c' c''); [|done]. by apply IH.
Qed.

(** The placeholder cannot overlap itself: an occurrence found in
    [a ++ placeholder ++ b] that starts inside [a] lies inside [a]. *)
Lemma placeholder_no_overlap (a b : string) :
  a <> EmptyString ->
  String.prefix placeholder (a +:+ placeholder +:+ b) = true ->
  String.prefix placeholder a = true.
Proof.
  intros Ha Hp. destruct a as [|c a]; [done|].
  unfold placeholder in *. rewrite !append_cons in Hp.
  rewrite prefix_cons in Hp |- *.
  destruct (Ascii.ascii_dec _ c); [|done].
  eapply prefix_short; [|exact Hp]. reflexivity.
Qed.

(** Every occurrence of the placeholder is replaced: the text before the
    first occurrence is kept, the occurrence becomes [new], and the rest is
    treated the same way. *)
Lemma replace_occurrence (new a b : string) :
  contains placeholder a = false ->
  replace placeholder new (a +:+ placeholder +:+ b)
  = a +:+ new +:+ replace placeholder new b.
Proof.
  induction a as [|c a IH]; intros Hc.
  - rewrite !append_nil. by apply replace_match.
  - rewrite contains_unfold in Hc. apply orb_false_iff in Hc as [Hp Hc].
    rewrite !append_cons. rewrite replace_skip; [by rewrite IH|done|].
    rewrite <- append_cons.
    destruct (String.prefix placeholder (String c a +:+ placeholder +:+ b))
      eqn:E; [|done].
    apply placeholder_no_overlap in E; [congruence|done].
Qed.

Section Properties.
Context `{Runtime}.

Lemma lookup_config_known key c :
  lookup_config key DB_CONFIGS = Some c ->
  (key = "default" /\ c = default_config)
  \/ (key = "INTEGRACION_CW_20_DEV" /\ c = secondary_config).
Proof.
  unfold DB_CONFIGS. cbn [lookup_config].
  destruct (String.eqb key "default") eqn:E1.
  { apply String.eqb_eq in E1. intros [= <-]. left. done. }
  destruct (String.eqb key "INTEGRACION_CW_20_DEV") eqn:E2.
  { apply String.eqb_eq in E2. intros [= <-]. right. done. }
  discriminate.
Qed.

(** C9. For a key of the registry, get_db_connection calls the driver
    once, with the connection string made of exactly the driver, server,
    database, user and password stored for that key, each spelled as it
    is (an unset variable as the word None): for [default] the four
    values of the environment, for [INTEGRACION_CW_20_DEV] the same
    server, user and password with the database of that name.  The
    registry has no other key; for any other key get_db_connection raises
    the configuration error and makes no driver call at all. *)
Theorem get_db_connection_registry (key : string) (w : world) :
  match lookup_config key DB_CONFIGS with
  | Some c =>
    ((key = "default" /\ c = default_config)
     \/ (key = "INTEGRACION_CW_20_DEV" /\ c = secondary_config))
    /\ log (get_db_connection key w).2 =
       log w ++
       [EConnect ("DRIVER=" +:+ cfg_driver c +:+ ";"
                  +:+ "SERVER=" +:+ shown (cfg_server c) +:+ ";"
                  +:+ "DATABASE=" +:+ shown (cfg_database c) +:+ ";"
                  +:+ "UID=" +:+ shown (cfg_username c) +:+ ";"
                  +:+ "PWD=" +:+ shown (cfg_password c))]
  | None =>
    get_db_connection key w =
    (inl (ValueError ("Base de datos '" +:+ key +:+ "' no configurada")), w)
  end
  /\ (key = "default" ->
      log (get_db_connection key w).2 =
      log w ++
      [EConnect ("DRIVER={ODBC Driver 17 for SQL Server};SERVER="
                 +:+ shown DEV_SERVER +:+ ";DATABASE=" +:+ shown DEV_DATABASE
                 +:+ ";UID=" +:+ shown DEV_USERNAME
                 +:+ ";PWD=" +:+ shown DEV_PASSWORD)])
  /\ (key = "INTEGRACION_CW_20_DEV" ->
      log (get_db_connection key w).2 =
      log w ++
      [EConnect ("DRIVER={ODBC Driver 17 for SQL Server};SERVER="
                 +:+ shown DEV_SERVER +:+ ";DATABASE=INTEGRACION_CW_20_DEV"
                 +:+ ";UID=" +:+ shown DEV_USERNAME
                 +:+ ";PWD=" +:+ shown DEV_PASSWORD)])
  /\ (key <> "default" -> key <> "INTEGRACION_CW_20_DEV" ->
      get_db_connection key w =
      (inl (ValueError ("Base de datos '" +:+ key +:+ "' no configurada")),
       w)).
Proof.
  assert (Hlog : forall c,
    lookup_config key DB_CONFIGS = Some c ->
    log (get_db_connection key w).2 =
    log w ++
    [EConnect ("DRIVER=" +:+ cfg_driver c +:+ ";"
               +:+ "SERVER=" +:+ shown (cfg_server c) +:+ ";"
               +:+ "DATABASE=" +:+ shown (cfg_database c) +:+ ";"
               +:+ "UID=" +:+ shown (cfg_username c) +:+ ";"
               +:+ "PWD=" +:+ shown (cfg_password c))]).
  { intros c Hk. rewrite <- !env_str_shown.
    change (wp (get_db_connection key)
              (fun _ w' => log w' = log w ++ [EConnect (conn_string c)]) w).
    wp_prim. wp_prim. wp_case; reflexivity. }
  assert (Hnone :
    lookup_config key DB_CONFIGS = None ->
    get_db_connection key w =
    (inl (ValueError ("Base de datos '" +:+ key +:+ "' no configurada")), w)).
  { intros Hk. apply wp_eq. wp_prim. done. }
  split; [|split; [|split]].
  - destruct (lookup_config key DB_CONFIGS) as [c|] eqn:Hk.
    + split; [by apply lookup_config_known | by apply Hlog].
    + by apply Hnone.
  - intros ->. exact (Hlog default_config eq_refl).
  - intros ->. exact (Hlog secondary_config eq_refl).
  - intros Hd Hs. apply Hnone.
    destruct (lookup_config key DB_CONFIGS) as [c|] eqn:Hk; [|done].
    by destruct (lookup_config_known _ _ Hk) as [[? _]|[? _]].
Qed.

(** C5 (amended). For a key that is not in the registry,
    get_db_connection raises the configuration error before any driver
    call, and the tool operation that asked for the connection catches it
    at its own boundary: get_table_structure and test_query return their
    error text with the message of the error, and the world is untouched. *)
Theorem configuration_error_is_rendered (key table_name query business_unit : string) (w : world) :
  lookup_config key DB_CONFIGS = None ->
  let msg := "Base de datos '" +:+ key +:+ "' no configurada" in
  get_db_connection key w = (inl (ValueError msg), w)
  /\ get_table_structure table_name key w
     = (inr ("❌ Error al obtener estructura: " +:+ msg), w)
  /\ (contains "@business_unit" query = true ->
      test_query query business_unit key w
      = (inr ("❌ Error al probar query: " +:+ msg), w)).
Proof.
  intros Hk msg. repeat split.
  - apply wp_eq. wp_steps. done.
  - apply wp_eq. unfold get_table_structure. wp_steps. done.
  - intros Hq. apply wp_eq. unfold test_query. rewrite Hq. cbn [negb].
    wp_steps. done.
Qed.

End Properties.

Section Properties.
Context `{Runtime}.

Lemma test_query_rejects q bu key w :
  contains "@business_unit" q = false ->
  test_query q bu key w
  = (inr "⚠️ La query debe incluir el parámetro @business_unit", w).
Proof.
  intros Hq. apply wp_eq. unfold test_query. rewrite Hq. cbn [negb].
  wp_prim. wp_prim. done.
Qed.

Lemma world_eta w :
  w = {| server := server w; sessions := sessions w; faults := faults w; log := log w |}.
Proof. by destruct w. Qed.

Lemma test_query_runs q bu key c w :
  contains "@business_unit" q = true ->
  lookup_config key DB_CONFIGS = Some c ->
  faults w = [] ->
  let text := replace "@business_unit" ("'" +:+ bu +:+ "'") q in
  let conn := length (sessions w) in
  let out := test_query q bu key w in
  let calls := [EConnect (conn_string c); EExecute conn (RawSQL text)] in
  match run_sql text (server w (conn_string c)) with
  | (inl msg, _) =>
    out.1 = inr ("❌ Error al probar query: " +:+ msg)
    /\ log out.2 = log w ++ calls
  | (inr (columns, []), _) =>
    out.1 = inr ("✅ Query ejecutada correctamente en "
                 +:+ env_str (cfg_database c)
                 +:+ " pero no retornó resultados")
    /\ log out.2 = log w ++ calls
  | (inr (columns, rows), _) =>
    out.1 = inr (sample_report (cfg_database c) columns rows)
    /\ log out.2 = log w ++ calls ++ [EClose conn]
  end.
Proof.
  intros Hq Hk Hf text conn out calls. subst out.
  destruct (run_sql text (server w (conn_string c)))
    as [[msg|[columns rows]] d'] eqn:E; [|destruct rows as [|row rows]].
  all: match goal with
       | |- ?r = ?x /\ log ?w' = ?y =>
         change (wp (test_query q bu key)
                   (fun r0 w0 => r0 = x /\ log w0 = y) w)
       end.
  all: unfold test_query; rewrite Hq; cbn [negb].
  all: wp_steps; fold text; rewrite E; wp_steps; cbn [log W exn_str].
  all: split; [done|]; by rewrite <- ?app_assoc.
Qed.

(** *** Dictionaries *)

Lemma dict_get_set k k' v d :
  dict_get k (dict_set k' v d)
  = if String.eqb k k' then Some v else dict_get k d.
Proof.
  induction d as [|[k0 v0] d IH]; cbn [dict_set dict_get]; [done|].
  destruct (String.eqb_spec k' k0) as [->|Hne]; cbn [dict_get].
  - by destruct (String.eqb k k0).
  - destruct (String.eqb_spec k k0) as [->|Hne'].
    + destruct (String.eqb_spec k0 k'); [congruence|done].
    + exact IH.
Qed.

Lemma dict_get_update_absent k d other :
  dict_get k other = None ->
  dict_get k (dict_update d other) = dict_get k d.
Proof.
  unfold dict_update. revert d.
  induction other as [|[k0 v0] other IH]; intros d Hk; [done|].
  cbn [dict_get] in Hk. cbn [fold_left fst snd].
  destruct (String.eqb k k0) eqn:E; [done|].
  rewrite IH by done. by rewrite dict_get_set, E.
Qed.

Lemma dict_get_absent_not_key k (d : pydict) :
  k ∉ map fst d -> dict_get k d = None.
Proof.
  induction d as [|[k0 v0] d IH]; [done|]. cbn [map fst dict_get].
  rewrite not_elem_of_cons. intros [Hne Hk].
  destruct (String.eqb_spec k k0); [done|]. by apply IH.
Qed.

Lemma dict_get_update_present k v d other :
  NoDup (map fst other) ->
  dict_get k other = Some v ->
  dict_get k (dict_update d other) = Some v.
Proof.
  unfold dict_update. revert d.
  induction other as [|[k0 v0] other IH]; intros d Hnd Hk; [done|].
  cbn [dict_get] in Hk. cbn [map fst] in Hnd. apply NoDup_cons in Hnd as [Hk0 Hnd].
  cbn [fold_left fst snd].
  destruct (String.eqb_spec k k0) as [->|Hne].
  - injection Hk as ->.
    change (dict_get k0 (dict_update (dict_set k0 v d) other) = Some v).
    rewrite dict_get_update_absent by by apply dict_get_absent_not_key.
    by rewrite dict_get_set, String.eqb_refl.
  - by apply IH.
Qed.

Lemma dict_get_update_some k d other :
  is_Some (dict_get k d) -> is_Some (dict_get k (dict_update d other)).
Proof.
  unfold dict_update. revert d.
  induction other as [|[k0 v0] other IH]; intros d Hk; [done|].
  cbn [fold_left fst snd]. apply IH. rewrite dict_get_set.
  by destruct (String.eqb k k0).
Qed.

(** *** create_report *)

Lemma create_report_rejects rp en es q ap isd hd ac dp dm oat tr ctr dfa dk w :
  contains "@business_unit" q = false ->
  create_report rp en es q ap isd hd ac dp dm oat tr ctr dfa dk w
  = (inr "⚠️ La query debe incluir el parámetro @business_unit", w).
Proof.
  intros Hq. apply wp_eq. unfold create_report. rewrite Hq. cbn [negb].
  wp_steps. done.
Qed.

Lemma create_report_args_bindable rp en es q ap isd hd ac dp dm oat tr ctr dfa :
  find_unbindable 0
    (sp_params
       (create_report_args rp en es q ap isd hd ac dp dm oat tr ctr dfa))
  = None.
Proof. by destruct hd, ac, dp, dm, oat, ctr. Qed.

(** A run of create_report against a driver that raises nothing and a
    stored procedure that accepts the arguments. *)
Lemma create_report_runs rp en es q ap isd hd ac dp dm oat tr ctr dfa dk w d' :
  contains "@business_unit" q = true ->
  faults w = [] ->
  let cs := conn_string default_config in
  let conn := length (sessions w) in
  let args := create_report_args rp en es q ap isd hd ac dp dm oat tr ctr dfa in
  run_sp args (server w cs) = inr d' ->
  let key := match dk with None => infer_database_key q | Some k => k end in
  create_report rp en es q ap isd hd ac dp dm oat tr ctr dfa dk w
  = (match lookup_config key DB_CONFIGS with
     | Some qc =>
       inr (created_text rp en es (json_dumps (params_config ap)) tr
              (cfg_database qc))
     | None => inr ("❌ Error al crear el reporte: " +:+ py_repr (VStr key))
     end,
     W (publish (server w) cs d') (sessions w) cs d' false []
       (log w ++ [EConnect cs; EExecute conn (ExecCreateColumnsConfig args);
                  ECommit conn; EClose conn])).
Proof.
  intros Hq Hf cs conn args Hsp key. apply wp_eq.
  unfold create_report. rewrite Hq. cbn [negb].
  wp_steps. fold cs.
  change (find_unbindable 0 (sp_params _))
    with (find_unbindable 0 (sp_params args)).
  unfold args at 1. rewrite create_report_args_bindable.
  fold (create_report_args rp en es q ap isd hd ac dp dm oat tr ctr dfa).
  fold args. unfold exec_sp. rewrite Hsp. wp_steps.
  fold key. destruct (lookup_config key DB_CONFIGS) as [qc|] eqn:Hkey.
  - wp_steps. split; [done|]. by rewrite <- !app_assoc.
  - wp_steps. split; [done|]. by rewrite <- !app_assoc.
Qed.

End Properties.

Section Properties.
Context `{Runtime}.

Lemma wp_getitem item k v Q w :
  item !! k = Some v -> Q (inr v) w -> wp (getitem item k) Q w.
Proof. intros Hk HQ. unfold getitem. by rewrite Hk. Qed.

Lemma get_or_some item k v dflt : item !! k = Some v -> get_or item k dflt = v.
Proof. intros Hk. unfold get_or. by rewrite Hk. Qed.

Lemma missing_in_nil item fields :
  missing_in item fields = [] <->
  forallb (fun field => bool_decide (is_Some (item !! field))) fields = true.
Proof.
  unfold missing_in. induction fields as [|f fields IH]; [done|].
  cbn [List.filter forallb]. destruct (item !! f) as [v|] eqn:E.
  - rewrite bool_decide_eq_false_2 by done.
    rewrite bool_decide_eq_true_2 by done. exact IH.
  - rewrite bool_decide_eq_true_2 by done.
    rewrite (bool_decide_eq_false_2 (is_Some None)) by (by intros [? ?]).
    done.
Qed.

Lemma missing_in_absent item fields k :
  k ∈ fields -> item !! k = None -> missing_in item fields <> [].
Proof.
  intros Hin Hk Hnil. apply missing_in_nil in Hnil.
  rewrite forallb_forall in Hnil. specialize (Hnil k).
  rewrite <- list_elem_of_In in Hnil. specialize (Hnil Hin).
  rewrite Hk in Hnil. apply bool_decide_eq_true_1 in Hnil. by destruct Hnil.
Qed.

(** An item without its query is recorded as failed; nothing else
    happens. *)
Lemma create_one_missing conn i item st w :
  item !! "query" = None ->
  create_one conn i item st w
  = (inr (fail_report st
            {| fl_index := i;
               fl_report_prefix := get_or item "report_prefix" (VStr "N/A");
               fl_error := "Campos faltantes: "
                 +:+ join ", " (missing_in item required_report_fields) |}),
     w).
Proof.
  intros Hq. apply wp_eq. unfold create_one.
  destruct (missing_in item required_report_fields) as [|f fs] eqn:E.
  - exfalso. revert E. apply (missing_in_absent item _ "query"); [|done].
    unfold required_report_fields. set_solver.
  - wp_steps. done.
Qed.

(** An item whose query text lacks the placeholder is recorded as failed;
    nothing else happens. *)
Lemma create_one_rejects conn i item st w q :
  item !! "query" = Some (VStr q) ->
  contains "@business_unit" q = false ->
  exists e,
    create_one conn i item st w = (inr (fail_report st e), w)
    /\ fl_index e = i.
Proof.
  intros Hq Hc. unfold create_one.
  destruct (missing_in item required_report_fields) as [|f fs] eqn:E.
  - apply missing_in_nil in E. cbn [forallb required_report_fields] in E.
    apply andb_prop in E as [Hp _]. apply bool_decide_eq_true_1 in Hp as [vp Hp].
    eexists. split; [|shelve]. apply wp_eq. wp_steps.
    eapply wp_getitem; [done|]. wp_steps. cbn [py_contains]. wp_steps.
    rewrite Hc. cbn [negb]. wp_steps.
    eapply wp_getitem; [done|]. wp_steps. done.
  - eexists. split; [|shelve]. apply wp_eq. wp_steps. done.
  Unshelve. all: done.
Qed.

Lemma valid_report_fields item :
  valid_report item = true ->
  exists vp ven ves q,
    item !! "report_prefix" = Some vp
    /\ item !! "report_description_en" = Some ven
    /\ item !! "report_description_es" = Some ves
    /\ item !! "query" = Some (VStr q)
    /\ contains "@business_unit" q = true
    /\ find_unbindable 0 (sp_params (report_args item)) = None
    /\ is_Some (lookup_config (report_database_key item) DB_CONFIGS).
Proof.
  unfold valid_report. rewrite !andb_true_iff.
  intros [[[[Hreq Hq] Hap] Hdk] Hb].
  cbn [forallb required_report_fields] in Hreq.
  rewrite !andb_true_iff in Hreq. destruct Hreq as (Hp & Hen & Hes & _ & _).
  apply bool_decide_eq_true_1 in Hp as [vp Hp].
  apply bool_decide_eq_true_1 in Hen as [ven Hen].
  apply bool_decide_eq_true_1 in Hes as [ves Hes].
  apply bool_decide_eq_true_1 in Hb.
  destruct (item !! "query") as [[| |q|]|] eqn:E; try done.
  exists vp, ven, ves, q. repeat split; try done.
  unfold report_database_key.
  destruct (get_or item "database_key" VNone) as [| |k|]; try done.
  - unfold infer_database_key.
    destruct (contains "INTEGRACION_CW_20_DEV" _); eexists; reflexivity.
  - by apply bool_decide_eq_true_1 in Hdk.
Qed.

(** A valid item, a driver that raises nothing and a stored procedure
    that accepts: the procedure is called once and the item is recorded
    as created. *)
Lemma create_one_valid srv ss cs d lg i item st d' :
  valid_report item = true ->
  run_sp (report_args item) d = inr d' ->
  create_one (length ss) i item st (W srv ss cs d true [] lg)
  = (inr (add_created st (created i item)),
     W srv ss cs d' true []
       (lg ++ [EExecute (length ss)
                 (ExecCreateColumnsConfig (report_args item))])).
Proof.
  intros Hv Hsp.
  destruct (valid_report_fields _ Hv)
    as (vp & ven & ves & q & Hp & Hen & Hes & Hq & Hc & Hb & [qc Hqc]).
  unfold valid_report in Hv. rewrite !andb_true_iff in Hv.
  destruct Hv as [[[[Hreq _] Hap] Hdk] _].
  apply missing_in_nil in Hreq.
  apply wp_eq. unfold create_one. rewrite Hreq. wp_steps.
  eapply wp_getitem; [done|]. wp_steps. cbn [py_contains]. wp_steps.
  rewrite Hc. cbn [negb]. wp_steps.
  assert (Hargs : forall pj,
    {| sp_report_prefix := vp; sp_report_description := ven;
       sp_report_description_es := ves; sp_query := VStr q;
       sp_params_config := VStr (json_dumps pj);
       sp_is_detail := get_or item "is_detail" (VInt 0);
       sp_hasDetail := get_or item "has_detail" VNone;
       sp_actionColumn := get_or item "action_column" VNone;
       sp_detail_prefix := get_or item "detail_prefix" VNone;
       sp_detail_mode := get_or item "detail_mode" VNone;
       sp_open_another_tab := get_or item "open_another_tab" VNone;
       sp_type_resource := get_or item "type_resource" (VStr "table");
       sp_columns_to_render := get_or item "columns_to_render" VNone;
       sp_default_for_all := get_or item "default_for_all" (VInt 0) |}
    = {| sp_report_prefix := get_or item "report_prefix" VNone;
         sp_report_description := get_or item "report_description_en" VNone;
         sp_report_description_es :=
           get_or item "report_description_es" VNone;
         sp_query := get_or item "query" VNone;
         sp_params_config := VStr (json_dumps pj);
         sp_is_detail := get_or item "is_detail" (VInt 0);
         sp_hasDetail := get_or item "has_detail" VNone;
         sp_actionColumn := get_or item "action_column" VNone;
         sp_detail_prefix := get_or item "detail_prefix" VNone;
         sp_detail_mode := get_or item "detail_mode" VNone;
         sp_open_another_tab := get_or item "open_another_tab" VNone;
         sp_type_resource := get_or item "type_resource" (VStr "table");
         sp_columns_to_render := get_or item "columns_to_render" VNone;
         sp_default_for_all := get_or item "default_for_all" (VInt 0) |}).
  { intros pj. by rewrite (get_or_some _ _ _ _ Hp), (get_or_some _ _ _ _ Hen),
      (get_or_some _ _ _ _ Hes), (get_or_some _ _ _ _ Hq). }
  (* the database the query is attributed to *)
  assert (Hkey : wp
    (if is_none (get_or item "database_key" VNone)
     then query <- getitem item "query";;
          u <- py_upper query;;
          ret (if contains "INTEGRACION_CW_20_DEV" u
               then VStr "INTEGRACION_CW_20_DEV" else VStr "default")
     else ret (get_or item "database_key" VNone))
    (fun r w' => r = inr (VStr (report_database_key item))
                 /\ w' = W srv ss cs d true [] lg)
    (W srv ss cs d true [] lg)).
  { unfold report_database_key, report_query. rewrite Hq.
    destruct (get_or item "database_key" VNone) as [| |k|]; try done;
      cbn [is_none]; wp_steps.
    eapply wp_getitem; [done|]. wp_steps. cbn [py_upper]. wp_steps.
    unfold infer_database_key.
    by destruct (contains "INTEGRACION_CW_20_DEV" _). }
  eapply wp_mono; [|exact Hkey]. clear Hkey.
  intros r w' [-> ->]. wp_steps.
  (* the parameter map *)
  assert (Hpar : wp
    (if truthy (get_or item "additional_params" VNone)
     then extra <- getitem item "additional_params";;
          py_update [("business_unit", VStr "NVARCHAR(20)")] extra
     else ret [("business_unit", VStr "NVARCHAR(20)")])
    (fun r w' => r = inr (report_params item)
                 /\ w' = W srv ss cs d true [] lg)
    (W srv ss cs d true [] lg)).
  { unfold report_params.
    destruct (get_or item "additional_params" VNone) as [|z|s|extra] eqn:E.
    - cbn [truthy]. by wp_steps.
    - apply negb_true_iff in Hap. rewrite Hap. by wp_steps.
    - apply negb_true_iff in Hap. rewrite Hap. by wp_steps.
    - unfold params_config. destruct (truthy (VDict extra)); [|by wp_steps].
      wp_steps. unfold get_or in E.
      destruct (item !! "additional_params") as [v|] eqn:E'; [|done].
      simpl in E. subst v. eapply wp_getitem; [done|]. wp_steps.
      cbn [py_update]. by wp_steps. }
  eapply wp_mono; [|exact Hpar]. clear Hpar.
  intros r w' [-> ->]. wp_steps.
  eapply wp_getitem; [done|]. wp_steps.
  eapply wp_getitem; [done|]. wp_steps.
  eapply wp_getitem; [done|]. wp_steps.
  eapply wp_getitem; [done|]. wp_steps.
  rewrite Hargs. fold (report_args item). rewrite Hb.
  unfold exec_sp. rewrite Hsp. wp_steps.
  eapply wp_getitem; [done|]. wp_steps. cbn [config_at]. wp_steps.
  split; [|done]. unfold add_created, created, report_database.
  rewrite Hqc. by rewrite (get_or_some _ _ _ _ Hp).
Qed.

Lemma after_sp_cons d item items d' :
  run_sp (report_args item) d = inr d' ->
  after_sp d (item :: items) = after_sp d' items.
Proof. intros Hsp. unfold after_sp. cbn [fold_left]. by rewrite Hsp. Qed.

(** The loop, run against a driver that raises nothing. *)
Lemma for_each_create_one srv ss cs items :
  sp_accepts ->
  Forall (fun item => valid_report item = true \/ item !! "query" = None)
         items ->
  forall i d st lg,
  for_each (create_one (length ss)) i items st (W srv ss cs d true [] lg)
  = (inr (tally i items st),
     W srv ss cs (after_sp d (List.filter valid_report items)) true []
       (lg ++ map (fun item => EExecute (length ss)
                     (ExecCreateColumnsConfig (report_args item)))
                  (List.filter valid_report items))).
Proof.
  intros Hsp Hall. induction Hall as [|item items Hitem _ IH]; intros i d st lg'.
  - cbn [for_each List.filter map tally]. by rewrite app_nil_r.
  - cbn [for_each tally List.filter]. unfold bind.
    destruct Hitem as [Hv|Hq].
    + destruct (Hsp (report_args item) d) as [d' Hd'].
      rewrite (create_one_valid _ _ _ _ _ _ _ _ d') by done.
      rewrite Hv, IH. cbn [map]. rewrite (after_sp_cons _ _ _ d') by done.
      by rewrite <- app_assoc.
    + rewrite create_one_missing by done.
      assert (valid_report item = false) as ->.
      { unfold valid_report. rewrite Hq.
        by rewrite andb_false_r. }
      by rewrite IH.
Qed.

Lemma tally_counts items : forall i st,
  total_created (tally i items st)
  = (total_created st + length (List.filter valid_report items))%nat
  /\ length (failed_reports (tally i items st))
    = (length (failed_reports st)
       + (length items - length (List.filter valid_report items)))%nat
  /\ (length (List.filter valid_report items) <= length items)%nat.
Proof.
  induction items as [|item items IH]; intros i st.
  - cbn. lia.
  - cbn [tally List.filter]. destruct (IH (S i)
      (if valid_report item then add_created st (created i item)
       else fail_report st (missing_entry i item))) as (IH1 & IH2 & IH3).
    rewrite IH1, IH2. destruct (valid_report item);
      cbn [add_created fail_report total_created failed_reports length];
      rewrite ?length_app; cbn [length]; lia.
Qed.

Lemma fold_render_created rs : forall init,
  exists rest, fold_left render_created rs init = init +:+ rest.
Proof.
  induction rs as [|r rs IH]; intros init.
  - exists EmptyString. cbn [fold_left]. induction init as [|c x IHx]; [done|].
    by rewrite append_cons, <- IHx.
  - cbn [fold_left]. destruct (IH (render_created init r)) as [rest ->].
    unfold render_created. rewrite append_assoc. by eexists.
Qed.

Lemma fold_render_failed rs : forall init,
  exists rest, fold_left render_failed_report rs init = init +:+ rest.
Proof.
  induction rs as [|r rs IH]; intros init.
  - exists EmptyString. cbn [fold_left]. induction init as [|c x IHx]; [done|].
    by rewrite append_cons, <- IHx.
  - cbn [fold_left]. destruct (IH (render_failed_report init r)) as [rest ->].
    unfold render_failed_report. rewrite append_assoc. by eexists.
Qed.

(** The text opens with the two counts. *)
Lemma render_create_state_header st :
  exists rest,
    render_create_state st
    = summary_header (total_created st) (length (failed_reports st))
      +:+ rest.
Proof.
  unfold render_create_state. fold (summary_header (total_created st)
                                      (length (failed_reports st))).
  set (h := summary_header _ _). clearbody h.
  assert (Hnil : forall x : string, x = x +:+ EmptyString).
  { clear. intros x. induction x as [|c x IH]; [done|].
    by rewrite append_cons, <- IH. }
  destruct (successful_reports st) as [|r rs];
    destruct (failed_reports st) as [|f fs].
  - exists EmptyString. apply Hnil.
  - destruct (fold_render_failed (f :: fs)
                (h +:+ "❌ Reportes fallidos:" +:+ nl)) as [rest ->].
    rewrite append_assoc. by eexists.
  - destruct (fold_render_created (r :: rs)
                (h +:+ "📋 Reportes creados:" +:+ nl)) as [rest ->].
    rewrite append_assoc. by eexists.
  - destruct (fold_render_created (r :: rs)
                (h +:+ "📋 Reportes creados:" +:+ nl)) as [rest ->].
    destruct (fold_render_failed (f :: fs)
                (((h +:+ "📋 Reportes creados:" +:+ nl) +:+ rest)
                 +:+ "❌ Reportes fallidos:" +:+ nl)) as [rest' ->].
    rewrite !append_assoc. by eexists.
Qed.

Lemma sp_calls_app l1 l2 : sp_calls (l1 ++ l2) = sp_calls l1 ++ sp_calls l2.
Proof. unfold sp_calls. apply omap_app. Qed.

Lemma sp_calls_executed conn items :
  sp_calls (map (fun item => EExecute conn
                   (ExecCreateColumnsConfig (report_args item))) items)
  = map report_args items.
Proof.
  induction items as [|item items IH]; [done|].
  cbn [map]. change (report_args item :: sp_calls (map (fun item =>
    EExecute conn (ExecCreateColumnsConfig (report_args item))) items)
    = report_args item :: map report_args items).
  by rewrite IH.
Qed.

(** A run of bulk_create_reports against a driver that raises nothing. *)
Lemma bulk_create_reports_runs items w :
  faults w = [] -> sp_accepts -> items <> [] ->
  Forall (fun item => valid_report item = true \/ item !! "query" = None)
         items ->
  let cs := conn_string default_config in
  let conn := length (sessions w) in
  let valid := List.filter valid_report items in
  let st := tally 1 items {| successful_reports := []; failed_reports := [];
                            total_created := 0 |} in
  bulk_create_reports items w
  = (inr (render_create_state st),
     W (publish (server w) cs (after_sp (server w cs) valid)) (sessions w)
       cs (after_sp (server w cs) valid) false []
       (log w ++ [EConnect cs]
        ++ map (fun item => EExecute conn
                  (ExecCreateColumnsConfig (report_args item))) valid
        ++ [ECommit conn; EClose conn])).
Proof.
  intros Hf Hsp Hne Hall cs conn valid st. apply wp_eq.
  unfold bulk_create_reports. destruct items as [|item items]; [done|].
  wp_steps. fold cs.
  eapply wp_of_eq; [by apply for_each_create_one|].
  wp_steps. split; [done|]. fold valid conn. by rewrite <- !app_assoc.
Qed.

(** C7. With a driver that raises nothing and a stored procedure that
    accepts its calls, bulk_create_reports on a list whose items are
    either valid or lack the query field reports as many successes as
    there are valid items and as many failures as there are others (one
    and one for a list of one valid and one invalid item), and calls the
    stored procedure for every valid item in list order, wherever the
    failing items stand. *)
Theorem bulk_create_isolates_failures
    (items : list (gmap string value)) (w : world) :
  faults w = [] -> sp_accepts -> items <> [] ->
  Forall (fun item => valid_report item = true \/ item !! "query" = None)
         items ->
  let out := bulk_create_reports items w in
  let valid := List.filter valid_report items in
  exists st rest,
    out.1 = inr (render_create_state st)
    /\ render_create_state st
       = summary_header (length valid) (length items - length valid)
         +:+ rest
    /\ total_created st = length valid
    /\ length (failed_reports st) = (length items - length valid)%nat
    /\ sp_calls (log out.2) = sp_calls (log w) ++ map report_args valid.
Proof.
  intros Hf Hsp Hne Hall out valid. subst out.
  rewrite bulk_create_reports_runs by done. cbn [fst snd log W].
  set (st := tally 1 items _).
  destruct (tally_counts items 1
              {| successful_reports := []; failed_reports := [];
                 total_created := 0 |}) as (Hc & Hfl & _).
  cbn [total_created failed_reports length] in Hc, Hfl.
  rewrite Nat.add_0_l in Hc, Hfl. fold st valid in Hc, Hfl.
  destruct (render_create_state_header st) as [rest Hrest].
  exists st, rest. rewrite Hrest, Hc, Hfl. repeat split.
  rewrite !sp_calls_app, sp_calls_executed. cbn. by rewrite app_nil_r.
Qed.

End Properties.

Section Properties.
Context `{Runtime}.

Ltac leaf :=
  repeat match goal with
         | H : negb _ = false |- _ => apply negb_false_iff in H
         end;
  first
    [ by exfalso
    | by (eexists _, _, _, []; rewrite app_nil_r; repeat split)
    | by (eexists _, _, _, [_]; repeat split;
          repeat constructor; cbn [placeholder_call sp_query has_placeholder];
          try done) ].

(** Whatever the driver does, one turn of the loop returns normally,
    leaves the connection as it was, and calls the stored procedure only
    for a query with the placeholder. *)
Lemma create_one_calls srv ss cs d fs lg i item st :
  wp (create_one (length ss) i item st)
    (fun r w' => exists st' d' fs' evs,
       r = inr st' /\ w' = W srv ss cs d' true fs' (lg ++ evs)
       /\ Forall placeholder_call evs)
    (W srv ss cs d true fs lg).
Proof.
  unfold create_one.
  wp_run; leaf.
Qed.
Lemma for_each_create_calls srv ss cs items : forall i d fs lg st,
  wp (for_each (create_one (length ss)) i items st)
    (fun r w' => exists st' d' fs' evs,
       r = inr st' /\ w' = W srv ss cs d' true fs' (lg ++ evs)
       /\ Forall placeholder_call evs)
    (W srv ss cs d true fs lg).
Proof.
  induction items as [|item items IH]; intros i d fs lg st.
  - cbn [for_each]. wp_steps. exists st, d, fs, []. by rewrite app_nil_r.
  - cbn [for_each]. wp_prim.
    eapply wp_mono; [|apply create_one_calls].
    intros r w' (st' & d' & fs' & evs & -> & -> & Hevs).
    eapply wp_mono; [|apply IH].
    intros r w' (st'' & d'' & fs'' & evs' & -> & -> & Hevs').
    exists st'', d'', fs'', (evs ++ evs'). rewrite app_assoc.
    repeat split. by apply Forall_app.
Qed.

(** Whatever the driver does, bulk_create_reports calls the stored
    procedure only for queries with the placeholder. *)
Lemma bulk_create_reports_calls items w :
  exists evs,
    log (bulk_create_reports items w).2 = log w ++ evs
    /\ Forall placeholder_call evs.
Proof.
  change (wp (bulk_create_reports items)
            (fun _ w' => exists evs,
               log w' = log w ++ evs /\ Forall placeholder_call evs) w).
  unfold bulk_create_reports. destruct items as [|item items].
  { wp_steps. exists []. by rewrite app_nil_r. }
  wp_steps. wp_case.
  { wp_steps. cbn [log]. eexists [_]. split; [done|]. by repeat constructor. }
  wp_prim.
  eapply wp_mono; [|apply for_each_create_calls].
  intros r w' (st' & d' & fs' & evs & -> & -> & Hevs).
  wp_run; cbn [log W]; rewrite <- ?app_assoc;
    (eexists; split; [reflexivity|]);
    repeat first [ apply Forall_app; split | apply Forall_cons; split
                 | apply Forall_nil | done ].
Qed.

(** C2. A query without the literal [@business_unit] never reaches the
    database: create_report answers with the warning and leaves the world
    untouched (no connection, no statement); the loop of
    bulk_create_reports records the item as failed and leaves the world
    untouched; and over a whole run of bulk_create_reports, whatever the
    driver does, every call of the stored procedure carries a query that
    passed the placeholder test. *)
Theorem placeholder_checked_before_database :
  (forall rp en es q ap isd hd ac dp dm oat tr ctr dfa dk w,
     contains "@business_unit" q = false ->
     create_report rp en es q ap isd hd ac dp dm oat tr ctr dfa dk w
     = (inr "⚠️ La query debe incluir el parámetro @business_unit", w))
  /\ (forall conn i item st w q,
        item !! "query" = Some (VStr q) ->
        contains "@business_unit" q = false ->
        exists e,
          create_one conn i item st w = (inr (fail_report st e), w)
          /\ fl_index e = i)
  /\ (forall items w,
        exists evs,
          log (bulk_create_reports items w).2 = log w ++ evs
          /\ Forall placeholder_call evs).
Proof.
  split; [|split].
  - intros. by apply create_report_rejects.
  - intros. by eapply create_one_rejects.
  - apply bulk_create_reports_calls.
Qed.

End Properties.

Section Properties.
Context `{Runtime}.

Lemma contains_false_occurs part text :
  contains part text = false <-> ~ occurs_in part text.
Proof.
  unfold occurs_in. rewrite <- contains_spec.
  destruct (contains part text); [|done].
  split; [done|]. intros Hn. by destruct Hn.
Qed.

Lemma contains_true_occurs part text :
  contains part text = true <-> occurs_in part text.
Proof. apply contains_spec. Qed.





(** C6 (amended). The parameter map always has the key [business_unit];
    it carries the fixed type NVARCHAR(20) whenever the caller's
    additional parameters do not themselves name [business_unit], and the
    caller's own entry otherwise; the JSON text of this map is what
    create_report and bulk_create_reports pass to the stored procedure. *)
Theorem params_config_business_unit :
  (forall ap, is_Some (dict_get "business_unit" (params_config ap)))
  /\ (dict_get "business_unit" (params_config None)
      = Some (VStr "NVARCHAR(20)"))
  /\ (forall extra,
        dict_get "business_unit" extra = None ->
        dict_get "business_unit" (params_config (Some extra))
        = Some (VStr "NVARCHAR(20)"))
  /\ (forall extra v,
        NoDup (map fst extra) ->
        dict_get "business_unit" extra = Some v ->
        dict_get "business_unit" (params_config (Some extra)) = Some v)
  /\ (forall rp en es q ap isd hd ac dp dm oat tr ctr dfa dk w d',
        contains "@business_unit" q = true ->
        faults w = [] ->
        run_sp (create_report_args rp en es q ap isd hd ac dp dm oat tr ctr
                  dfa)
               (server w (conn_string default_config)) = inr d' ->
        exists a,
          sp_calls (log (create_report rp en es q ap isd hd ac dp dm oat tr
                           ctr dfa dk w).2)
          = sp_calls (log w) ++ [a]
          /\ sp_params_config a = VStr (json_dumps (params_config ap)))
  /\ (forall srv ss cs d lg i item st d' extra,
        valid_report item = true ->
        item !! "additional_params" = Some (VDict extra) ->
        run_sp (report_args item) d = inr d' ->
        exists a,
          sp_calls (log (create_one (length ss) i item st
                           (W srv ss cs d true [] lg)).2)
          = sp_calls lg ++ [a]
          /\ sp_params_config a
             = VStr (json_dumps (params_config (Some extra)))).
Proof.
  split; [|split; [done|split; [|split; [|split]]]].
  - intros [extra|]; [|by eexists]. unfold params_config.
    destruct (truthy (VDict extra)); [|by eexists].
    apply dict_get_update_some. by eexists.
  - intros extra Hk. unfold params_config.
    destruct (truthy (VDict extra)); [|done].
    by rewrite dict_get_update_absent.
  - intros extra v Hnd Hk. unfold params_config.
    destruct extra as [|kv extra]; [done|]. cbn [truthy length Nat.eqb negb].
    by apply dict_get_update_present.
  - intros * Hq Hf Hsp.
    rewrite (create_report_runs _ _ _ _ _ _ _ _ _ _ _ _ _ _ _ _ d') by done.
    cbn [snd log W]. eexists. rewrite sp_calls_app. split; [reflexivity|done].
  - intros * Hv Hap Hsp.
    rewrite (create_one_valid _ _ _ _ _ _ _ _ d') by done.
    cbn [snd log W]. eexists. rewrite sp_calls_app. split; [reflexivity|].
    cbn [sp_params_config report_args]. unfold report_params.
    by rewrite (get_or_some _ _ _ _ Hap).
Qed.

Lemma map_py_str_cell (row : list value) : map py_str row = map cell row.
Proof.
  induction row as [|v row IH]; [done|].
  cbn [map]. by rewrite IH, py_str_cell.
Qed.

Lemma sample_lines_spelled (sample : list (list value)) :
  fold_right
    (fun row text => (join " | " (map py_str row) +:+ nl) +:+ text) ""
    sample
  = fold_right
      (fun row text => separated " | " (map cell row) +:+ nl +:+ text) ""
      sample.
Proof.
  induction sample as [|row sample IH]; [done|].
  cbn [fold_right].
  by rewrite IH, join_separated, map_py_str_cell, append_assoc.
Qed.

Lemma sample_report_spelled database_name columns rows :
  sample_report database_name columns rows
  = sample_text database_name columns (take 5 rows) (length rows).
Proof.
  unfold sample_report, sample_text.
  rewrite (text_fold_left_lines
             (fun row => join " | " (map py_str row) +:+ nl)).
  rewrite sample_lines_spelled.
  rewrite env_str_shown, join_separated, repeat_string_rule.
  by rewrite !append_assoc.
Qed.

(** C4. A query without [@business_unit] gets the warning text and no
    connection is opened.  A query with it is sent as the text in which
    every occurrence of the placeholder is replaced by the business unit
    between single quotes, with no bound parameter; a result with rows is
    answered with the heading, the column names, one line for each of the
    first five rows at most, and the count of all rows. *)
Theorem test_query_contract :
  (forall q bu key w,
     ~ occurs_in "@business_unit" q ->
     test_query q bu key w
     = (inr "⚠️ La query debe incluir el parámetro @business_unit", w))
  /\ (forall q bu key c w,
        occurs_in "@business_unit" q ->
        lookup_config key DB_CONFIGS = Some c ->
        faults w = [] ->
        let text := replace "@business_unit" ("'" +:+ bu +:+ "'") q in
        let conn := length (sessions w) in
        let out := test_query q bu key w in
        let calls := [EConnect (conn_string c); EExecute conn (RawSQL text)] in
        match run_sql text (server w (conn_string c)) with
        | (inl msg, _) =>
          out.1 = inr ("❌ Error al probar query: " +:+ msg)
          /\ log out.2 = log w ++ calls
        | (inr (columns, []), _) =>
          out.1 = inr ("✅ Query ejecutada correctamente en "
                       +:+ shown (cfg_database c)
                       +:+ " pero no retornó resultados")
          /\ log out.2 = log w ++ calls
        | (inr (columns, rows), _) =>
          out.1 = inr (sample_text (cfg_database c) columns (take 5 rows)
                         (length rows))
          /\ log out.2 = log w ++ calls ++ [EClose conn]
        end)
  /\ (forall new a b,
        ~ occurs_in "@business_unit" a ->
        replace "@business_unit" new (a +:+ "@business_unit" +:+ b)
        = a +:+ new +:+ replace "@business_unit" new b)
  /\ (forall new s,
        ~ occurs_in "@business_unit" s ->
        replace "@business_unit" new s = s).
Proof.
  split; [|split; [|split]].
  - intros * Hq. apply contains_false_occurs in Hq.
    by apply test_query_rejects.
  - intros * Hq Hk Hf text conn out calls. apply contains_true_occurs in Hq.
    pose proof (test_query_runs q bu key c w Hq Hk Hf) as Hrun.
    cbv zeta in Hrun. fold text conn calls in Hrun. subst out.
    destruct (run_sql text (server w (conn_string c)))
      as [[msg|[columns [|row rows]]] d']; try exact Hrun.
    + by rewrite <- env_str_shown.
    + by rewrite <- sample_report_spelled.
  - intros * Ha. apply contains_false_occurs in Ha.
    by apply replace_occurrence.
  - intros * Hs. apply contains_false_occurs in Hs. by apply replace_none.
Qed.

End Properties.

Section Properties.
Context `{Runtime}.

(** *** Keys and counts *)

Lemma sql_eq_sym a b : sql_eq a b = sql_eq b a.
Proof.
  destruct a, b; cbn [sql_eq]; try done.
  - apply Z.eqb_sym.
  - apply String.eqb_sym.
Qed.

Lemma sql_eq_trans a b c :
  sql_eq a b = true -> sql_eq b c = true -> sql_eq a c = true.
Proof.
  destruct a, b, c; cbn [sql_eq]; try done.
  - rewrite !Z.eqb_eq. congruence.
  - rewrite !String.eqb_eq. congruence.
Qed.

Lemma sql_eq_text s : sql_eq (VStr s) (VStr s) = true.
Proof. apply String.eqb_refl. Qed.

Lemma count_insert bu p r row d :
  count_assigned bu p r (insert_assigned row d)
  = (count_assigned bu p r d
     + if key_matches bu p r row then 1 else 0)%nat.
Proof.
  unfold count_assigned, insert_assigned. cbn [assigned_reports].
  rewrite filter_app, length_app. f_equal.
  rewrite filter_cons, filter_nil.
  destruct (key_matches bu p r row); [|done].
  by rewrite decide_True.
Qed.

Lemma count_zero bu p r d :
  count_assigned bu p r d = 0%nat ->
  forall a, a ∈ assigned_reports d -> key_matches bu p r a = false.
Proof.
  unfold count_assigned. intros Hc a Ha.
  apply length_zero_iff_nil in Hc.
  destruct (key_matches bu p r a) eqn:E; [|done].
  assert (a ∈ filter (fun a => key_matches bu p r a = true)
                     (assigned_reports d)) as Hin
    by by apply list_elem_of_filter.
  rewrite Hc in Hin. by apply elem_of_nil in Hin.
Qed.

Lemma count_zero_intro bu p r d :
  (forall a, a ∈ assigned_reports d -> key_matches bu p r a = false) ->
  count_assigned bu p r d = 0%nat.
Proof.
  unfold count_assigned. intros Hno.
  induction (assigned_reports d) as [|a l IH]; [done|].
  rewrite filter_cons. rewrite decide_False.
  - apply IH. intros a' Ha'. apply Hno. by right.
  - rewrite Hno; [done|by left].
Qed.

(** An insert guarded by the count check adds no second row to any key. *)
Lemma insert_checked row d :
  count_assigned (ar_business_unit row) (ar_report_prefix row) (ar_role row) d
  = 0%nat ->
  no_new_duplicates d (insert_assigned row d).
Proof.
  intros Hc bu p r. rewrite count_insert.
  destruct (key_matches bu p r row) eqn:E; [|lia].
  assert (count_assigned bu p r d = 0%nat) as ->; [|cbn; lia].
  apply count_zero_intro. intros a Ha.
  destruct (key_matches bu p r a) eqn:E'; [|done].
  pose proof (count_zero _ _ _ _ Hc a Ha) as Hno.
  assert (key_matches (ar_business_unit row) (ar_report_prefix row)
            (ar_role row) a = true); [|congruence].
  unfold key_matches in *. rewrite !andb_true_iff in *.
  destruct E as [[E1 E2] E3], E' as [[F1 F2] F3]. repeat split.
  - eapply sql_eq_trans; [exact F1|]. by rewrite sql_eq_sym.
  - eapply sql_eq_trans; [exact F2|]. by rewrite sql_eq_sym.
  - eapply sql_eq_trans; [exact F3|]. by rewrite sql_eq_sym.
Qed.

Lemma no_new_duplicates_refl d : no_new_duplicates d d.
Proof. intros bu p r. lia. Qed.

Lemma no_new_duplicates_trans d0 d1 d2 :
  no_new_duplicates d0 d1 -> no_new_duplicates d1 d2 ->
  no_new_duplicates d0 d2.
Proof.
  intros H1 H2 bu p r. specialize (H1 bu p r). specialize (H2 bu p r). lia.
Qed.

Lemma no_new_duplicates_publish srv cs d :
  no_new_duplicates (srv cs) d ->
  forall cs', no_new_duplicates (srv cs') (publish srv cs d cs').
Proof.
  intros Hd cs'. unfold publish. destruct (String.eqb_spec cs' cs) as [->|].
  - exact Hd.
  - apply no_new_duplicates_refl.
Qed.

(** *** Connections at the end of a run *)

Lemma sessions_W srv ss cs d op fs lg :
  sessions (W srv ss cs d op fs lg) !! length ss
  = Some {| target := cs; work := d; is_open := op |}.
Proof. unfold W. cbn [sessions]. by apply list_lookup_middle. Qed.

Lemma open_connections_W srv ss cs d op fs lg w :
  sessions w = ss ->
  open_connections (W srv ss cs d op fs lg)
  = (open_connections w + if op then 1 else 0)%nat.
Proof.
  intros <-. unfold open_connections, W. cbn [sessions].
  rewrite List.filter_app, length_app. by destruct op.
Qed.

Ltac closed_leaf :=
  let s := fresh "s" in
  let Hs := fresh "Hs" in
  let Hop := fresh "Hop" in
  intros s Hs Hop;
  first
    [ rewrite sessions_W in Hs; injection Hs as <-; cbn [is_open] in Hop;
      first [ discriminate Hop | by repeat eexists ]
    | cbn [sessions] in Hs; rewrite lookup_ge_None_2 in Hs by lia;
      discriminate Hs ].

(** Whatever the driver does, assign_report_to_role returns a text, adds
    no second row to any key, and ends with its connection closed only
    when it returns the text of a successful assignment. *)
Lemma assign_report_to_role_any rp bu rd apt o ct so cl w :
  wp (assign_report_to_role rp bu rd apt o ct so cl)
    (fun r w' =>
       (forall cs, no_new_duplicates (server w cs) (server w' cs))
       /\ (forall s, sessions w' !! length (sessions w) = Some s ->
                     is_open s = false ->
                     exists roles first,
                       r = inr (assigned_text rp bu apt o ct so cl roles
                                  first))
       /\ exists text, r = inr text)
    w.
Proof.
  unfold assign_report_to_role.
  wp_run.
  all: split; [|split; [closed_leaf | by eexists]].
  all: intros cs'; cbn [server W].
  all: try apply no_new_duplicates_refl.
  all: apply no_new_duplicates_publish, insert_checked.
  all: cbn [ar_business_unit ar_report_prefix ar_role].
  all: match goal with
       | Hlt : (0 <? _)%nat = false |- _ => apply Nat.ltb_ge in Hlt; lia
       end.
Qed.

(** The three ways assign_report_to_role ends when the driver raises
    nothing. *)
Lemma assign_report_to_role_runs rp bu rd apt o ct so cl w :
  faults w = [] ->
  let cs := conn_string default_config in
  let conn := length (sessions w) in
  let d0 := server w cs in
  let pattern := VStr ("%" +:+ rd +:+ "%") in
  let roles := select_roles (VStr bu) pattern d0 in
  let lookup := [EConnect cs; EExecute conn (SelectRoles (VStr bu) pattern)] in
  match roles with
  | [] =>
    assign_report_to_role rp bu rd apt o ct so cl w
    = (inr ("❌ No se encontró ningún rol con descripción '" +:+ rd
            +:+ "' para la unidad " +:+ bu +:+ " (excluyendo sys_admin)"),
       W (server w) (sessions w) cs d0 true [] (log w ++ lookup))
  | first :: _ =>
    forall rc, dr_code first = VStr rc ->
    let check := EExecute conn (CountAssigned (VStr bu) (VStr rp) (VStr rc)) in
    if (0 <? count_assigned (VStr bu) (VStr rp) (VStr rc) d0)%nat then
      assign_report_to_role rp bu rd apt o ct so cl w
      = (inr ("⚠️ El reporte '" +:+ rp +:+ "' ya está asignado al rol '"
              +:+ rc +:+ "' para la unidad " +:+ bu),
         W (server w) (sessions w) cs d0 true []
           (log w ++ lookup ++ [check]))
    else
      let row := new_assignment (VStr rc) rp bu apt o ct so cl in
      assign_report_to_role rp bu rd apt o ct so cl w
      = (inr (assigned_text rp bu apt o ct so cl roles first),
         W (publish (server w) cs (insert_assigned row d0)) (sessions w) cs
           (insert_assigned row d0) false []
           (log w ++ lookup
            ++ [check; EExecute conn (InsertAssigned row); ECommit conn;
                EClose conn]))
  end.
Proof.
  intros Hf cs conn d0 pattern roles lookup.
  destruct roles as [|first rest] eqn:Hroles.
  - apply wp_eq. unfold assign_report_to_role. wp_steps.
    fold cs d0 pattern. fold roles. rewrite Hroles. wp_steps.
    split; [done|]. by rewrite <- app_assoc.
  - intros rc Hrc check.
    destruct (0 <? count_assigned (VStr bu) (VStr rp) (VStr rc) d0)%nat
      eqn:Hcount.
    + apply wp_eq. unfold assign_report_to_role. wp_steps.
      fold cs d0 pattern. fold roles. rewrite Hroles. wp_steps.
      rewrite Hrc. wp_steps. fold d0. rewrite Hcount. wp_steps.
      split; [done|]. by rewrite <- !app_assoc.
    + intros row. apply wp_eq. unfold assign_report_to_role. wp_steps.
      fold cs d0 pattern. fold roles. rewrite Hroles. wp_steps.
      rewrite Hrc. wp_steps. fold d0. rewrite Hcount. wp_steps.
      match goal with
      | |- match ?x with _ => _ end =>
        replace x with (@None nat) by (by destruct apt, o, ct, so, cl)
      end.
      wp_steps.
      split; [|by rewrite <- !app_assoc].
      unfold assigned_text. by rewrite Hrc.
Qed.

Lemma publish_same srv cs d : publish srv cs d cs = d.
Proof. unfold publish. by rewrite String.eqb_refl. Qed.

Lemma key_matches_new rc rp bu apt o ct so cl :
  key_matches (VStr bu) (VStr rp) (VStr rc)
    (new_assignment (VStr rc) rp bu apt o ct so cl) = true.
Proof.
  unfold key_matches, new_assignment.
  cbn [ar_business_unit ar_report_prefix ar_role].
  by rewrite !sql_eq_text.
Qed.

(** Two calls in a row for the same report, unit and role. *)
Lemma assign_twice rp bu rd apt o ct so cl apt' o' ct' so' cl' w first rest rc :
  faults w = [] ->
  let cs := conn_string default_config in
  let pattern := VStr ("%" +:+ rd +:+ "%") in
  select_roles (VStr bu) pattern (server w cs) = first :: rest ->
  dr_code first = VStr rc ->
  (count_assigned (VStr bu) (VStr rp) (VStr rc) (server w cs) <= 1)%nat ->
  let w1 := (assign_report_to_role rp bu rd apt o ct so cl w).2 in
  let out := assign_report_to_role rp bu rd apt' o' ct' so' cl' w1 in
  let conn := length (sessions w1) in
  count_assigned (VStr bu) (VStr rp) (VStr rc) (server out.2 cs) = 1%nat
  /\ out.1 = inr ("⚠️ El reporte '" +:+ rp +:+ "' ya está asignado al rol '"
                  +:+ rc +:+ "' para la unidad " +:+ bu)
  /\ log out.2
     = log w1 ++ [EConnect cs; EExecute conn (SelectRoles (VStr bu) pattern);
                  EExecute conn
                    (CountAssigned (VStr bu) (VStr rp) (VStr rc))].
Proof.
  intros Hf cs pattern Hroles Hrc Hle w1 out conn.
  pose proof (assign_report_to_role_runs rp bu rd apt o ct so cl w Hf) as H1.
  cbv zeta in H1. fold cs pattern in H1. rewrite Hroles in H1.
  specialize (H1 rc Hrc).
  assert (exists srv1 ss1 d1 op1 lg1,
    w1 = W srv1 ss1 cs d1 op1 [] lg1
    /\ select_roles (VStr bu) pattern (srv1 cs) = first :: rest
    /\ count_assigned (VStr bu) (VStr rp) (VStr rc) (srv1 cs) = 1%nat)
    as (srv1 & ss1 & d1 & op1 & lg1 & Hw1 & Hroles1 & Hcount1).
  { subst w1.
    destruct (0 <? count_assigned (VStr bu) (VStr rp) (VStr rc) (server w cs))%nat
      eqn:Hcount; rewrite H1; cbn [snd].
    - apply Nat.ltb_lt in Hcount. eexists _, _, _, _, _.
      split; [reflexivity|]. split; [done|]. lia.
    - apply Nat.ltb_ge in Hcount. eexists _, _, _, _, _.
      split; [reflexivity|]. rewrite publish_same. split; [done|].
      rewrite count_insert, key_matches_new. lia. }
  clearbody w1. subst w1.
  pose proof (assign_report_to_role_runs rp bu rd apt' o' ct' so' cl'
                (W srv1 ss1 cs d1 op1 [] lg1) eq_refl) as H2.
  cbv zeta in H2. fold cs pattern in H2. cbn [server W] in H2.
  rewrite Hroles1 in H2. specialize (H2 rc Hrc). rewrite Hcount1 in H2.
  cbn [Nat.ltb Nat.leb] in H2. subst out conn. rewrite H2.
  cbn [fst snd server W log]. repeat split; done.
Qed.

(** *** The loop of bulk_assign_reports_to_roles *)

Ltac assign_leaf :=
  first
    [ by exfalso
    | eexists _, _, _, _; split; [reflexivity|]; split; [reflexivity|];
      first
        [ apply no_new_duplicates_refl
        | apply insert_checked;
          cbn [ar_business_unit ar_report_prefix ar_role];
          match goal with
          | Hlt : (0 <? _)%nat = false |- _ => apply Nat.ltb_ge in Hlt; lia
          end ] ].

(** Whatever the driver does, one turn of the loop returns normally,
    leaves the connection open and adds no second row to any key. *)
Lemma assign_one_any srv ss cs d fs lg i item st :
  wp (assign_one (length ss) i item st)
    (fun r w' => exists st' d' fs' lg',
       r = inr st' /\ w' = W srv ss cs d' true fs' lg'
       /\ no_new_duplicates d d')
    (W srv ss cs d true fs lg).
Proof.
  unfold assign_one. wp_run; assign_leaf.
Qed.

Lemma for_each_assign_any srv ss cs items : forall i d fs lg st,
  wp (for_each (assign_one (length ss)) i items st)
    (fun r w' => exists st' d' fs' lg',
       r = inr st' /\ w' = W srv ss cs d' true fs' lg'
       /\ no_new_duplicates d d')
    (W srv ss cs d true fs lg).
Proof.
  induction items as [|item items IH]; intros i d fs lg st.
  - cbn [for_each]. wp_steps. exists st, d, fs, lg.
    repeat split. apply no_new_duplicates_refl.
  - cbn [for_each]. wp_prim.
    eapply wp_mono; [|apply assign_one_any].
    intros r w' (st' & d' & fs' & lg' & -> & -> & Hd).
    eapply wp_mono; [|apply IH].
    intros r w' (st'' & d'' & fs'' & lg'' & -> & -> & Hd').
    exists st'', d'', fs'', lg''. repeat split.
    by eapply no_new_duplicates_trans.
Qed.

(** Whatever the driver does, bulk_assign_reports_to_roles adds no second
    row to any key. *)
Lemma bulk_assign_any items w :
  forall cs,
    no_new_duplicates (server w cs)
      (server (bulk_assign_reports_to_roles items w).2 cs).
Proof.
  change (wp (bulk_assign_reports_to_roles items)
            (fun _ w' => forall cs,
               no_new_duplicates (server w cs) (server w' cs)) w).
  unfold bulk_assign_reports_to_roles. destruct items as [|item items].
  { wp_steps. intros cs. apply no_new_duplicates_refl. }
  wp_steps. wp_case.
  { wp_steps. intros cs. apply no_new_duplicates_refl. }
  wp_prim.
  eapply wp_mono; [|apply for_each_assign_any].
  intros r w' (st' & d' & fs' & lg' & -> & -> & Hd).
  wp_run; intros cs'; cbn [server W];
    first [ apply no_new_duplicates_refl
          | by apply no_new_duplicates_publish ].
Qed.

(** *** Updates *)

Lemma apply_set_key a set :
  ar_business_unit (apply_set a set) = ar_business_unit a
  /\ ar_report_prefix (apply_set a set) = ar_report_prefix a
  /\ ar_role (apply_set a set) = ar_role a.
Proof.
  destruct set as [column v]. unfold apply_set.
  repeat match goal with
         | |- context [String.eqb column ?c] => destruct (String.eqb column c)
         end; done.
Qed.

Lemma fold_apply_set_key sets : forall a,
  ar_business_unit (fold_left apply_set sets a) = ar_business_unit a
  /\ ar_report_prefix (fold_left apply_set sets a) = ar_report_prefix a
  /\ ar_role (fold_left apply_set sets a) = ar_role a.
Proof.
  induction sets as [|set sets IH]; intros a; [done|].
  cbn [fold_left]. destruct (IH (apply_set a set)) as (-> & -> & ->).
  apply apply_set_key.
Qed.

(** An UPDATE of this module changes no key column, hence no count. *)
Lemma count_update_where sets hit d bu p r :
  count_assigned bu p r (update_where sets hit d).2
  = count_assigned bu p r d.
Proof.
  unfold count_assigned, update_where. cbn [snd assigned_reports].
  induction (assigned_reports d) as [|a l IH]; [done|].
  cbn [map]. rewrite !filter_cons.
  assert (key_matches bu p r (if hit a then fold_left apply_set sets a else a)
          = key_matches bu p r a) as Hk.
  { destruct (hit a); [|done]. unfold key_matches.
    by destruct (fold_apply_set_key sets a) as (-> & -> & ->). }
  rewrite Hk. destruct (key_matches bu p r a).
  - rewrite !decide_True by done. cbn [length]. by rewrite IH.
  - rewrite !decide_False by done. exact IH.
Qed.

Lemma no_new_duplicates_update sets hit d :
  no_new_duplicates d (update_where sets hit d).2.
Proof. intros bu p r. rewrite count_update_where. lia. Qed.

Ltac update_leaf :=
  intros ?cs; cbn [server W];
  first [ apply no_new_duplicates_refl
        | apply no_new_duplicates_publish, no_new_duplicates_update ].

Lemma update_report_assignment_any rp bu rc apt o ct so cl w :
  forall cs,
    no_new_duplicates (server w cs)
      (server (update_report_assignment rp bu rc apt o ct so cl w).2 cs).
Proof.
  change (wp (update_report_assignment rp bu rc apt o ct so cl)
            (fun _ w' => forall cs,
               no_new_duplicates (server w cs) (server w' cs)) w).
  unfold update_report_assignment. wp_run; update_leaf.
Qed.

Lemma bulk_update_report_assignments_any rp bu codes apt o ct so cl w :
  forall cs,
    no_new_duplicates (server w cs)
      (server (bulk_update_report_assignments rp bu codes apt o ct so cl
                 w).2 cs).
Proof.
  change (wp (bulk_update_report_assignments rp bu codes apt o ct so cl)
            (fun _ w' => forall cs,
               no_new_duplicates (server w cs) (server w' cs)) w).
  unfold bulk_update_report_assignments. wp_run; update_leaf.
Qed.

(** *** Updates without a field *)

Ltac log_leaf P :=
  split;
  [ intros ?cs; reflexivity
  | eexists; split;
    [ cbn [log W]; rewrite <- ?app_assoc; reflexivity
    | repeat constructor ] ].

(** Whatever the driver does, update_report_assignment without a field
    leaves every committed database as it was and sends no UPDATE. *)
Lemma update_without_fields_any rp bu rc w :
  let out := update_report_assignment rp bu rc None None None None None w in
  (forall cs, server out.2 cs = server w cs)
  /\ exists evs, log out.2 = log w ++ evs /\ Forall not_update evs.
Proof.
  change (wp (update_report_assignment rp bu rc None None None None None)
            (fun _ w' =>
               (forall cs, server w' cs = server w cs)
               /\ exists evs, log w' = log w ++ evs
                              /\ Forall not_update evs) w).
  unfold update_report_assignment.
  change (update_sets None None None None None) with (@nil (string * value)).
  wp_run; log_leaf not_update.
Qed.

Lemma bulk_update_without_fields_any rp bu codes w :
  let out := bulk_update_report_assignments rp bu codes None None None None
               None w in
  (forall cs, server out.2 cs = server w cs)
  /\ exists evs, log out.2 = log w ++ evs /\ Forall not_update evs.
Proof.
  change (wp (bulk_update_report_assignments rp bu codes None None None None
                None)
            (fun _ w' =>
               (forall cs, server w' cs = server w cs)
               /\ exists evs, log w' = log w ++ evs
                              /\ Forall not_update evs) w).
  unfold bulk_update_report_assignments.
  change (update_sets None None None None None) with (@nil (string * value)).
  wp_run; first [ log_leaf not_update
                | by (split; [done|]; exists []; rewrite app_nil_r) ].
Qed.

Lemma left_join_roles_nonempty d a : left_join_roles d a <> [].
Proof.
  unfold left_join_roles.
  destruct (filter _ (default_roles d)); done.
Qed.

(** A row that the count check sees is also read back. *)
Lemma select_current_some bu p r d :
  count_assigned bu p r d <> 0%nat ->
  exists cur, select_current bu p r d = Some cur.
Proof.
  unfold count_assigned, select_current.
  destruct (filter _ (assigned_reports d)) as [|a l]; [done|]. intros _.
  cbn [flat_map].
  destruct (left_join_roles d a) as [|cur rest] eqn:E.
  - by apply left_join_roles_nonempty in E.
  - by exists cur.
Qed.

(** With a driver that raises nothing and an existing assignment,
    update_report_assignment without a field returns the warning. *)
Lemma update_without_fields_runs rp bu rc w :
  faults w = [] ->
  count_assigned (VStr bu) (VStr rp) (VStr rc)
    (server w (conn_string default_config)) <> 0%nat ->
  (update_report_assignment rp bu rc None None None None None w).1
  = inr "⚠️ No se proporcionaron campos para actualizar".
Proof.
  intros Hf Hc.
  change (wp (update_report_assignment rp bu rc None None None None None)
            (fun r _ =>
               r = inr "⚠️ No se proporcionaron campos para actualizar") w).
  unfold update_report_assignment.
  change (update_sets None None None None None) with (@nil (string * value)).
  destruct (select_current_some _ _ _ _ Hc) as [[cur desc] Hcur].
  apply Nat.eqb_neq in Hc.
  wp_steps. rewrite Hc. wp_steps. rewrite Hcur. wp_steps. done.
Qed.

Lemma count_assigned_in_nil bu p d : count_assigned_in bu p [] d = 0%nat.
Proof.
  unfold count_assigned_in, key_matches_in. cbn [existsb].
  induction (assigned_reports d) as [|a l IH]; [done|].
  rewrite filter_cons, decide_False; [done|]. by rewrite andb_false_r.
Qed.

Lemma find_unbindable_text n (l : list string) :
  find_unbindable n (map VStr l) = None.
Proof.
  revert n. induction l as [|c l IH]; intros n; [done|].
  cbn [map find_unbindable]. apply IH.
Qed.

Lemma bulk_update_without_fields_runs rp bu codes w :
  faults w = [] ->
  count_assigned_in (VStr bu) (VStr rp) (map VStr codes)
    (server w (conn_string default_config)) <> 0%nat ->
  (bulk_update_report_assignments rp bu codes None None None None None w).1
  = inr "⚠️ No se proporcionaron campos para actualizar".
Proof.
  intros Hf Hc.
  change (wp (bulk_update_report_assignments rp bu codes None None None None
                None)
            (fun r _ =>
               r = inr "⚠️ No se proporcionaron campos para actualizar") w).
  unfold bulk_update_report_assignments.
  change (update_sets None None None None None) with (@nil (string * value)).
  destruct codes as [|code codes].
  { by rewrite count_assigned_in_nil in Hc. }
  pose proof (find_unbindable_text 2 (code :: codes)) as Hb.
  apply Nat.eqb_neq in Hc.
  wp_steps. cbn [app find_unbindable]. rewrite Hb. wp_steps.
  rewrite Hc. wp_steps. cbn [app find_unbindable]. rewrite Hb. wp_steps.
  done.
Qed.

End Properties.

Section Properties.
Context `{Runtime}.

Ltac closed_leaf :=
  let s := fresh "s" in
  let Hs := fresh "Hs" in
  let Hop := fresh "Hop" in
  intros s Hs Hop;
  first
    [ rewrite sessions_W in Hs; injection Hs as <-; cbn [is_open] in Hop;
      first [ discriminate Hop
            | by (eexists _, _; split;
                  [|unfold structure_text; reflexivity]) ]
    | cbn [sessions] in Hs; rewrite lookup_ge_None_2 in Hs by lia;
      discriminate Hs ].

(** Whatever the driver does, get_table_structure ends with its
    connection closed only when it returns the listing of a table. *)
Lemma get_table_structure_any tn key w :
  wp (get_table_structure tn key)
    (fun r w' =>
       forall s, sessions w' !! length (sessions w) = Some s ->
                 is_open s = false ->
                 exists c columns,
                   columns <> []
                   /\ r = inr (structure_text tn (cfg_database c) columns))
    w.
Proof.
  unfold get_table_structure. wp_run; closed_leaf.
Qed.

(** The two ways get_table_structure ends when the driver raises
    nothing. *)
Lemma get_table_structure_runs tn key c w :
  lookup_config key DB_CONFIGS = Some c ->
  faults w = [] ->
  let cs := conn_string c in
  let conn := length (sessions w) in
  let d0 := server w cs in
  let calls := [EConnect cs; EExecute conn (SelectColumns (VStr tn))] in
  match select_columns (VStr tn) d0 with
  | [] =>
    get_table_structure tn key w
    = (inr ("⚠️ No se encontró la tabla '" +:+ tn
            +:+ "' en la base de datos '" +:+ env_str (cfg_database c)
            +:+ "'"),
       W (server w) (sessions w) cs d0 true [] (log w ++ calls))
  | columns =>
    get_table_structure tn key w
    = (inr (structure_text tn (cfg_database c) columns),
       W (server w) (sessions w) cs d0 false []
         (log w ++ calls ++ [EClose conn]))
  end.
Proof.
  intros Hk Hf cs conn d0 calls.
  destruct (select_columns (VStr tn) d0) as [|col cols] eqn:E.
  - apply wp_eq. unfold get_table_structure. wp_steps.
    fold cs d0. rewrite E. wp_steps. split; [done|].
    by rewrite <- !app_assoc.
  - apply wp_eq. unfold get_table_structure. wp_steps.
    fold cs d0. rewrite E. wp_steps. split; [done|].
    by rewrite <- !app_assoc.
Qed.

(** C8. Called with every optional field None, update_report_assignment
    and bulk_update_report_assignments send no UPDATE and leave every
    committed database as it was, whatever the driver does; when the
    driver raises nothing and the targeted rows exist, they return the
    warning text. *)
Theorem update_without_fields :
  (forall rp bu rc w,
     let out := update_report_assignment rp bu rc None None None None None w
     in
     (forall cs, server out.2 cs = server w cs)
     /\ exists evs, log out.2 = log w ++ evs /\ Forall not_update evs)
  /\ (forall rp bu rc w,
        faults w = [] ->
        count_assigned (VStr bu) (VStr rp) (VStr rc)
          (server w (conn_string default_config)) <> 0%nat ->
        (update_report_assignment rp bu rc None None None None None w).1
        = inr "⚠️ No se proporcionaron campos para actualizar")
  /\ (forall rp bu codes w,
        let out := bulk_update_report_assignments rp bu codes None None None
                     None None w in
        (forall cs, server out.2 cs = server w cs)
        /\ exists evs, log out.2 = log w ++ evs /\ Forall not_update evs)
  /\ (forall rp bu codes w,
        faults w = [] ->
        count_assigned_in (VStr bu) (VStr rp) (map VStr codes)
          (server w (conn_string default_config)) <> 0%nat ->
        (bulk_update_report_assignments rp bu codes None None None None None
           w).1
        = inr "⚠️ No se proporcionaron campos para actualizar").
Proof.
  split; [|split; [|split]].
  - intros. apply update_without_fields_any.
  - intros. by apply update_without_fields_runs.
  - intros. apply bulk_update_without_fields_any.
  - intros. by apply bulk_update_without_fields_runs.
Qed.

(** C10. When the driver raises nothing, assign_report_to_role returns
    with its connection still open when no role matches and when the
    assignment already exists, and get_table_structure returns with its
    connection still open when the table is not found: the run leaves one
    more open connection than it found.  On the full-success paths the
    connection is closed.  Whatever the driver does, either operation
    ends with its connection closed only when it returns its success
    text. *)
Theorem early_returns_leave_connection_open :
  (forall rp bu rd apt o ct so cl w,
     faults w = [] ->
     let cs := conn_string default_config in
     let out := assign_report_to_role rp bu rd apt o ct so cl w in
     let roles := select_roles (VStr bu) (VStr ("%" +:+ rd +:+ "%"))
                    (server w cs) in
     match roles with
     | [] =>
       out.1 = inr ("❌ No se encontró ningún rol con descripción '" +:+ rd
                    +:+ "' para la unidad " +:+ bu
                    +:+ " (excluyendo sys_admin)")
       /\ open_connections out.2 = S (open_connections w)
     | first :: _ =>
       forall rc, dr_code first = VStr rc ->
       if (0 <? count_assigned (VStr bu) (VStr rp) (VStr rc) (server w cs))%nat
       then
         out.1 = inr ("⚠️ El reporte '" +:+ rp
                      +:+ "' ya está asignado al rol '" +:+ rc
                      +:+ "' para la unidad " +:+ bu)
         /\ open_connections out.2 = S (open_connections w)
       else
         out.1 = inr (assigned_text rp bu apt o ct so cl roles first)
         /\ open_connections out.2 = open_connections w
     end)
  /\ (forall tn key c w,
        lookup_config key DB_CONFIGS = Some c ->
        faults w = [] ->
        let out := get_table_structure tn key w in
        match select_columns (VStr tn) (server w (conn_string c)) with
        | [] =>
          out.1 = inr ("⚠️ No se encontró la tabla '" +:+ tn
                       +:+ "' en la base de datos '"
                       +:+ env_str (cfg_database c) +:+ "'")
          /\ open_connections out.2 = S (open_connections w)
        | columns =>
          out.1 = inr (structure_text tn (cfg_database c) columns)
          /\ open_connections out.2 = open_connections w
        end)
  /\ (forall rp bu rd apt o ct so cl w s,
        let out := assign_report_to_role rp bu rd apt o ct so cl w in
        sessions out.2 !! length (sessions w) = Some s ->
        is_open s = false ->
        exists roles first,
          out.1 = inr (assigned_text rp bu apt o ct so cl roles first))
  /\ (forall tn key w s,
        let out := get_table_structure tn key w in
        sessions out.2 !! length (sessions w) = Some s ->
        is_open s = false ->
        exists c columns,
          columns <> []
          /\ out.1 = inr (structure_text tn (cfg_database c) columns)).
Proof.
  split; [|split; [|split]].
  - intros * Hf cs out roles.
    pose proof (assign_report_to_role_runs rp bu rd apt o ct so cl w Hf)
      as Hrun. cbv zeta in Hrun. fold cs roles in Hrun. subst out.
    destruct roles as [|first rest].
    + rewrite Hrun. cbn [fst snd]. split; [done|].
      rewrite (open_connections_W _ _ _ _ _ _ _ w) by done. lia.
    + intros rc Hrc. specialize (Hrun rc Hrc).
      destruct (0 <? count_assigned _ _ _ _)%nat; rewrite Hrun;
        cbn [fst snd]; (split; [done|]);
        rewrite (open_connections_W _ _ _ _ _ _ _ w) by done; lia.
  - intros * Hk Hf out.
    pose proof (get_table_structure_runs tn key c w Hk Hf) as Hrun.
    cbv zeta in Hrun. subst out.
    destruct (select_columns (VStr tn) (server w (conn_string c)));
      rewrite Hrun; cbn [fst snd]; (split; [done|]);
      rewrite (open_connections_W _ _ _ _ _ _ _ w) by done; lia.
  - intros * Hs Hop.
    destruct (assign_report_to_role_any rp bu rd apt o ct so cl w)
      as (_ & Hclosed & _). by eapply Hclosed.
  - intros * Hs Hop.
    by eapply (get_table_structure_any tn key w).
Qed.

End Properties.

Section FurtherProperties.
Context `{Runtime}.

(** X1. create_report with a [database_key] that names no configured
    database, a query that has the placeholder and a driver that raises
    nothing: the stored procedure is executed and committed on the default
    database and the connection is closed, and only then the lookup of the
    key fails, so the text returned is the error
    "❌ Error al crear el reporte: " followed by [repr] of the key although
    the report has been created. *)
Theorem create_report_unknown_database_key
    rp en es q ap isd hd ac dp dm oat tr ctr dfa key w d' :
  contains "@business_unit" q = true ->
  faults w = [] ->
  lookup_config key DB_CONFIGS = None ->
  let cs := conn_string default_config in
  let conn := length (sessions w) in
  let args := create_report_args rp en es q ap isd hd ac dp dm oat tr ctr dfa in
  run_sp args (server w cs) = inr d' ->
  let out := create_report rp en es q ap isd hd ac dp dm oat tr ctr dfa
               (Some key) w in
  out.1 = inr ("❌ Error al crear el reporte: " +:+ py_repr (VStr key))
  /\ server out.2 cs = d'
  /\ log out.2 = log w ++ [EConnect cs;
                           EExecute conn (ExecCreateColumnsConfig args);
                           ECommit conn; EClose conn].
Proof.
  intros Hq Hf Hk cs conn args Hsp out. subst out.
  rewrite (create_report_runs _ _ _ _ _ _ _ _ _ _ _ _ _ _ _ _ d') by done.
  rewrite Hk. cbn [fst snd server W log]. fold cs.
  by rewrite publish_same.
Qed.

Ltac events_leaf :=
  eexists; split;
  [ cbn [log W]; rewrite <- ?app_assoc; reflexivity
  | repeat constructor ].

(** X2. Whatever its arguments, among them [database_key], and whatever
    the driver does, every connection create_report asks for is one to the
    default database: the stored procedure never runs anywhere else. *)
Theorem create_report_connects_to_default
    rp en es q ap isd hd ac dp dm oat tr ctr dfa dk w :
  exists evs,
    log (create_report rp en es q ap isd hd ac dp dm oat tr ctr dfa dk w).2
    = log w ++ evs
    /\ Forall (connects_to (conn_string default_config)) evs.
Proof.
  change (wp (create_report rp en es q ap isd hd ac dp dm oat tr ctr dfa dk)
            (fun _ w' => exists evs,
               log w' = log w ++ evs
               /\ Forall (connects_to (conn_string default_config)) evs) w).
  unfold create_report. wp_run;
    first [ events_leaf | by (exists []; rewrite app_nil_r) ].
Qed.

Lemma get_or_insert_ne (item : gmap string value) k k' v dflt :
  k <> k' -> get_or (<[k := v]> item) k' dflt = get_or item k' dflt.
Proof. intros Hne. unfold get_or. by rewrite lookup_insert_ne. Qed.

Lemma report_args_database_key item v :
  report_args (<["database_key" := v]> item) = report_args item.
Proof.
  unfold report_args, report_params. by rewrite !get_or_insert_ne.
Qed.

(** X3. In the loop of bulk_create_reports, an item that would be valid
    but whose [database_key] names no configured database has its stored
    procedure executed, and is then recorded as failed with [repr] of the
    key as its error; the count of created reports is not raised. *)
Theorem create_one_unknown_database_key srv ss cs d lg i item st key d' :
  valid_report item = true ->
  lookup_config key DB_CONFIGS = None ->
  run_sp (report_args item) d = inr d' ->
  create_one (length ss) i (<["database_key" := VStr key]> item) st
    (W srv ss cs d true [] lg)
  = (inr (fail_report st
            {| fl_index := i;
               fl_report_prefix := get_or item "report_prefix" VNone;
               fl_error := py_repr (VStr key) |}),
     W srv ss cs d' true []
       (lg ++ [EExecute (length ss)
                 (ExecCreateColumnsConfig (report_args item))])).
Proof.
  intros Hv Hkey Hsp.
  destruct (valid_report_fields _ Hv)
    as (vp & ven & ves & q & Hp & Hen & Hes & Hq & Hc & Hb & _).
  unfold valid_report in Hv. rewrite !andb_true_iff in Hv.
  destruct Hv as [[[[Hreq _] Hap] _] _].
  set (item' := <["database_key" := VStr key]> item).
  assert (Hp' : item' !! "report_prefix" = Some vp)
    by (by unfold item'; rewrite lookup_insert_ne).
  assert (Hen' : item' !! "report_description_en" = Some ven)
    by (by unfold item'; rewrite lookup_insert_ne).
  assert (Hes' : item' !! "report_description_es" = Some ves)
    by (by unfold item'; rewrite lookup_insert_ne).
  assert (Hq' : item' !! "query" = Some (VStr q))
    by (by unfold item'; rewrite lookup_insert_ne).
  assert (Hreq' : missing_in item' required_report_fields = []).
  { apply missing_in_nil. cbn [forallb required_report_fields].
    rewrite Hp', Hen', Hes', Hq'.
    by rewrite !bool_decide_eq_true_2 by (by eexists). }
  assert (Hk' : get_or item' "database_key" VNone = VStr key).
  { unfold get_or, item'. by rewrite lookup_insert_eq. }
  assert (Hargs : forall pj,
    {| sp_report_prefix := vp; sp_report_description := ven;
       sp_report_description_es := ves; sp_query := VStr q;
       sp_params_config := VStr (json_dumps pj);
       sp_is_detail := get_or item' "is_detail" (VInt 0);
       sp_hasDetail := get_or item' "has_detail" VNone;
       sp_actionColumn := get_or item' "action_column" VNone;
       sp_detail_prefix := get_or item' "detail_prefix" VNone;
       sp_detail_mode := get_or item' "detail_mode" VNone;
       sp_open_another_tab := get_or item' "open_another_tab" VNone;
       sp_type_resource := get_or item' "type_resource" (VStr "table");
       sp_columns_to_render := get_or item' "columns_to_render" VNone;
       sp_default_for_all := get_or item' "default_for_all" (VInt 0) |}
    = {| sp_report_prefix := get_or item "report_prefix" VNone;
         sp_report_description := get_or item "report_description_en" VNone;
         sp_report_description_es :=
           get_or item "report_description_es" VNone;
         sp_query := get_or item "query" VNone;
         sp_params_config := VStr (json_dumps pj);
         sp_is_detail := get_or item "is_detail" (VInt 0);
         sp_hasDetail := get_or item "has_detail" VNone;
         sp_actionColumn := get_or item "action_column" VNone;
         sp_detail_prefix := get_or item "detail_prefix" VNone;
         sp_detail_mode := get_or item "detail_mode" VNone;
         sp_open_another_tab := get_or item "open_another_tab" VNone;
         sp_type_resource := get_or item "type_resource" (VStr "table");
         sp_columns_to_render := get_or item "columns_to_render" VNone;
         sp_default_for_all := get_or item "default_for_all" (VInt 0) |}).
  { intros pj. unfold item'. rewrite !get_or_insert_ne by done.
    by rewrite (get_or_some _ _ _ _ Hp), (get_or_some _ _ _ _ Hen),
      (get_or_some _ _ _ _ Hes), (get_or_some _ _ _ _ Hq). }
  apply wp_eq. unfold create_one. rewrite Hreq'. wp_steps.
  eapply wp_getitem; [done|]. wp_steps. cbn [py_contains]. wp_steps.
  rewrite Hc. cbn [negb]. wp_steps.
  rewrite Hk'. cbn [is_none]. wp_steps.
  (* the parameter map *)
  assert (Hpar : wp
    (if truthy (get_or item' "additional_params" VNone)
     then extra <- getitem item' "additional_params";;
          py_update [("business_unit", VStr "NVARCHAR(20)")] extra
     else ret [("business_unit", VStr "NVARCHAR(20)")])
    (fun r w' => r = inr (report_params item)
                 /\ w' = W srv ss cs d true [] lg)
    (W srv ss cs d true [] lg)).
  { unfold report_params.
    assert (E0 : get_or item' "additional_params" VNone
                 = get_or item "additional_params" VNone)
      by (by unfold item'; rewrite get_or_insert_ne).
    rewrite E0.
    destruct (get_or item "additional_params" VNone) as [|z|s|extra] eqn:E.
    - cbn [truthy]. by wp_steps.
    - apply negb_true_iff in Hap. rewrite Hap. by wp_steps.
    - apply negb_true_iff in Hap. rewrite Hap. by wp_steps.
    - unfold params_config. destruct (truthy (VDict extra)); [|by wp_steps].
      wp_steps. unfold get_or in E.
      destruct (item !! "additional_params") as [v|] eqn:E'; [|done].
      simpl in E. subst v.
      eapply wp_getitem;
        [by unfold item'; rewrite lookup_insert_ne|].
      wp_steps. cbn [py_update]. by wp_steps. }
  eapply wp_mono; [|exact Hpar]. clear Hpar.
  intros r w' [-> ->]. wp_steps.
  eapply wp_getitem; [done|]. wp_steps.
  eapply wp_getitem; [done|]. wp_steps.
  eapply wp_getitem; [done|]. wp_steps.
  eapply wp_getitem; [done|]. wp_steps.
  rewrite Hargs. fold (report_args item). rewrite Hb.
  unfold exec_sp. rewrite Hsp. wp_steps.
  eapply wp_getitem; [done|]. wp_steps. cbn [config_at]. wp_steps.
  split; [|done]. cbn [exn_str].
  by rewrite (get_or_some _ _ _ _ Hp'), (get_or_some _ _ _ _ Hp).
Qed.

Lemma select_roles_elem bu pattern d r :
  r ∈ select_roles bu pattern d ->
  r ∈ default_roles d
  /\ sql_eq (dr_business_unit r) bu = true
  /\ sql_like_value (dr_description r) pattern = true
  /\ sql_ne (dr_application_type r) (VStr "sys_admin") = true.
Proof.
  unfold select_roles, role_matches. rewrite list_elem_of_filter.
  rewrite !andb_true_iff. tauto.
Qed.

(** X4. Whatever the driver does, an INSERT that assign_report_to_role
    sends carries the code of a role of the default database that belongs
    to the given business unit, whose description matches the pattern
    [%role_description%] and whose application type is not sys_admin. *)
Theorem assign_report_to_role_selected_role rp bu rd apt o ct so cl w :
  exists evs,
    log (assign_report_to_role rp bu rd apt o ct so cl w).2 = log w ++ evs
    /\ Forall (inserts_selected_role (VStr bu) (VStr ("%" +:+ rd +:+ "%"))
                 (server w (conn_string default_config))) evs.
Proof.
  change (wp (assign_report_to_role rp bu rd apt o ct so cl)
            (fun _ w' => exists evs,
               log w' = log w ++ evs
               /\ Forall (inserts_selected_role (VStr bu)
                            (VStr ("%" +:+ rd +:+ "%"))
                            (server w (conn_string default_config))) evs) w).
  unfold assign_report_to_role. wp_run.
  all: try by (exists []; rewrite app_nil_r).
  all: eexists; split;
    [ cbn [log W]; rewrite <- ?app_assoc; reflexivity |].
  all: repeat first [ apply Forall_app_2 | apply Forall_cons_2
                     | apply Forall_nil_2 ]; try exact I.
  all: match goal with
       | E : select_roles _ _ _ = ?r :: _ |- _ =>
         exists r; split_and?; try reflexivity;
         eapply select_roles_elem; rewrite E; left
       end.
Qed.

Ltac forall_events :=
  repeat first [ apply Forall_app_2 | apply Forall_cons_2
               | apply Forall_nil_2 ]; try exact I.

Ltac checked_leaf :=
  first
    [ by exfalso
    | eexists _, _, _, _; split; [reflexivity|]; split;
      [ cbn [log W]; rewrite <- ?app_assoc; reflexivity |];
      split; [reflexivity|]; forall_events;
      match goal with
      | E : select_roles _ _ _ = ?r :: _,
        Ha : negb (existsb _ valid_app_types) = false |- _ =>
        cbn [inserts_checked_item ar_role ar_business_unit
             ar_application_type];
        split; [ by apply negb_false_iff in Ha |];
        exists r; split_and?; try reflexivity;
        eapply select_roles_elem; rewrite E; left
      end
    | eexists _, _, _, []; split; [reflexivity|]; split;
      [ by rewrite app_nil_r |]; split; [reflexivity | constructor] ].

(** One turn of the loop of bulk_assign_reports_to_roles, whatever the
    driver does. *)
Lemma assign_one_checked srv ss cs d fs lg i item st :
  wp (assign_one (length ss) i item st)
    (fun r w' => exists st' d' fs' evs,
       r = inr st' /\ w' = W srv ss cs d' true fs' (lg ++ evs)
       /\ default_roles d' = default_roles d
       /\ Forall (inserts_checked_item d) evs)
    (W srv ss cs d true fs lg).
Proof.
  unfold assign_one. wp_run; checked_leaf.
Qed.

Lemma inserts_checked_item_roles d d' e :
  default_roles d' = default_roles d ->
  inserts_checked_item d' e -> inserts_checked_item d e.
Proof.
  intros Hd. destruct e as [| c [] | |]; try done. cbn. by rewrite Hd.
Qed.

Lemma for_each_assign_checked srv ss cs items : forall i d fs lg st,
  wp (for_each (assign_one (length ss)) i items st)
    (fun r w' => exists st' d' fs' evs,
       r = inr st' /\ w' = W srv ss cs d' true fs' (lg ++ evs)
       /\ default_roles d' = default_roles d
       /\ Forall (inserts_checked_item d) evs)
    (W srv ss cs d true fs lg).
Proof.
  induction items as [|item items IH]; intros i d fs lg st.
  - cbn [for_each]. wp_steps. exists st, d, fs, [].
    rewrite app_nil_r. repeat split. constructor.
  - cbn [for_each]. wp_prim.
    eapply wp_mono; [|apply assign_one_checked].
    intros r w' (st' & d' & fs' & evs & -> & -> & Hd & Hevs).
    eapply wp_mono; [|apply IH].
    intros r w' (st'' & d'' & fs'' & evs' & -> & -> & Hd' & Hevs').
    exists st'', d'', fs'', (evs ++ evs'). rewrite app_assoc.
    repeat split; [congruence|]. apply Forall_app_2; [done|].
    eapply Forall_impl; [exact Hevs'|].
    intros e. by apply inserts_checked_item_roles.
Qed.

(** X5. Whatever the items and whatever the driver does, every INSERT
    that bulk_assign_reports_to_roles sends has an application type that is
    sales_force or merchandising, and carries the code of a role of the
    row's business unit that is not sys_admin. *)
Theorem bulk_assign_inserts_checked_items items w :
  exists evs,
    log (bulk_assign_reports_to_roles items w).2 = log w ++ evs
    /\ Forall (inserts_checked_item
                 (server w (conn_string default_config))) evs.
Proof.
  change (wp (bulk_assign_reports_to_roles items)
            (fun _ w' => exists evs,
               log w' = log w ++ evs
               /\ Forall (inserts_checked_item
                            (server w (conn_string default_config))) evs) w).
  unfold bulk_assign_reports_to_roles. destruct items as [|item items].
  { wp_steps. exists []. by rewrite app_nil_r. }
  wp_steps. wp_case.
  { wp_steps. eexists; split; [reflexivity|]. by forall_events. }
  wp_prim.
  eapply wp_mono; [|apply for_each_assign_checked].
  intros r w' (st' & d' & fs' & evs & -> & -> & Hd & Hevs).
  wp_run.
  all: eexists; split;
    [ cbn [log W]; rewrite <- ?app_assoc; reflexivity |].
  all: forall_events; done.
Qed.

(** X6. In the loop of bulk_assign_reports_to_roles, an item that has the
    four required fields but an application type other than sales_force
    and merchandising is recorded as failed with the message that names
    the value received, and no call is made to the driver. *)
Theorem assign_one_rejects_application_type conn i item st w vp vbu vrd app :
  item !! "report_prefix" = Some vp ->
  item !! "business_unit" = Some vbu ->
  item !! "role_description" = Some vrd ->
  item !! "application_type" = Some app ->
  existsb (py_eq_str app) valid_app_types = false ->
  assign_one conn i item st w
  = (inr (fail_assignment st
            {| fa_index := i; fa_report_prefix := vp;
               fa_business_unit := vbu;
               fa_error := "application_type debe ser 'sales_force' o "
                           +:+ "'merchandising', recibido: '"
                           +:+ py_str app +:+ "'" |}),
     w).
Proof.
  intros Hp Hbu Hrd Ha Hv.
  assert (Hreq : missing_in item required_assignment_fields = []).
  { apply missing_in_nil. cbn [forallb required_assignment_fields].
    rewrite Hp, Hbu, Hrd, Ha.
    by rewrite !bool_decide_eq_true_2 by (by eexists). }
  apply wp_eq. unfold assign_one. rewrite Hreq. wp_steps.
  eapply wp_getitem; [done|]. wp_steps.
  eapply wp_getitem; [done|]. wp_steps.
  eapply wp_getitem; [done|]. wp_steps.
  rewrite Hv. cbn [negb]. by wp_steps.
Qed.

(** *** Updates *)

(** The SET clause built from the arguments writes the given fields and
    no other. *)
Lemma fold_apply_update_sets apt o ct so cl a :
  fold_left apply_set (update_sets apt o ct so cl) a
  = updated apt o ct so cl a.
Proof. destruct apt, o, ct, so, cl, a; reflexivity. Qed.

Lemma update_sets_bindable apt o ct so cl (key : list string) i :
  find_unbindable i (map snd (update_sets apt o ct so cl) ++ map VStr key)
  = None.
Proof.
  assert (Hkey : forall j, find_unbindable j (map VStr key) = None).
  { induction key as [|k key IH]; intros j; [done|]. cbn. apply IH. }
  destruct apt, o, ct, so, cl; cbn; apply Hkey.
Qed.

(** X7. update_report_assignment on an existing assignment, with at least
    one field given and a driver that raises nothing: in the committed
    table every row of the key has exactly the given fields replaced and
    keeps the others, every other row and the other tables are unchanged;
    the calls are connect, count, read, update, commit, close; the text
    starts with the success line. *)
Theorem update_report_assignment_writes_given_fields
    rp bu rc apt o ct so cl w :
  faults w = [] ->
  let cs := conn_string default_config in
  let conn := length (sessions w) in
  let hit := key_matches (VStr bu) (VStr rp) (VStr rc) in
  let sets := update_sets apt o ct so cl in
  count_assigned (VStr bu) (VStr rp) (VStr rc) (server w cs) <> 0%nat ->
  sets <> [] ->
  let out := update_report_assignment rp bu rc apt o ct so cl w in
  assigned_reports (server out.2 cs)
  = map (fun a => if hit a then updated apt o ct so cl a else a)
        (assigned_reports (server w cs))
  /\ default_roles (server out.2 cs) = default_roles (server w cs)
  /\ columns_config (server out.2 cs) = columns_config (server w cs)
  /\ log out.2
     = log w ++ [EConnect cs;
                 EExecute conn (CountAssigned (VStr bu) (VStr rp) (VStr rc));
                 EExecute conn (SelectCurrent (VStr bu) (VStr rp) (VStr rc));
                 EExecute conn
                   (UpdateAssigned sets (VStr bu) (VStr rp) (VStr rc));
                 ECommit conn; EClose conn]
  /\ exists details,
       out.1 = inr ("✅ Asignación actualizada exitosamente!" +:+ details).
Proof.
  intros Hf cs conn hit sets Hc Hsets out. subst out.
  set (Q := fun (r : exn + string) (w' : world) =>
    assigned_reports (server w' cs)
    = map (fun a => if hit a then updated apt o ct so cl a else a)
          (assigned_reports (server w cs))
    /\ default_roles (server w' cs) = default_roles (server w cs)
    /\ columns_config (server w' cs) = columns_config (server w cs)
    /\ log w'
       = log w ++ [EConnect cs;
                   EExecute conn (CountAssigned (VStr bu) (VStr rp) (VStr rc));
                   EExecute conn (SelectCurrent (VStr bu) (VStr rp) (VStr rc));
                   EExecute conn
                     (UpdateAssigned sets (VStr bu) (VStr rp) (VStr rc));
                   ECommit conn; EClose conn]
    /\ exists details,
         r = inr ("✅ Asignación actualizada exitosamente!" +:+ details)).
  change (wp (update_report_assignment rp bu rc apt o ct so cl) Q w).
  unfold update_report_assignment. fold sets.
  destruct (select_current_some _ _ _ _ Hc) as [[cur desc] Hcur].
  apply Nat.eqb_neq in Hc.
  wp_steps. fold cs. rewrite Hc. wp_steps. rewrite Hcur. wp_steps.
  destruct sets as [|set sets'] eqn:Es; [done|]. rewrite <- Es.
  pose proof (update_sets_bindable apt o ct so cl [bu; rp; rc] 0%nat) as Hb.
  cbn [map] in Hb. fold sets in Hb.
  wp_prim. wp_prim. rewrite Hb. wp_steps.
  unfold Q. rewrite <- Es. cbn [server W log]. unfold publish. rewrite String.eqb_refl.
  cbn [update_where snd assigned_reports default_roles columns_config].
  split_and?; try reflexivity.
  - apply map_ext. intros a. fold hit. destruct (hit a); [|done].
    subst sets. apply fold_apply_update_sets.
  - by rewrite <- !app_assoc.
  - rewrite <- !append_assoc. by eexists.
Qed.

(** X8. update_report_assignment for a key that has no row, with a driver
    that raises nothing: the text says that the assignment does not exist,
    only the connection and the count were asked of the driver, nothing is
    committed and the connection stays open. *)
Theorem update_report_assignment_not_found rp bu rc apt o ct so cl w :
  faults w = [] ->
  let cs := conn_string default_config in
  let conn := length (sessions w) in
  count_assigned (VStr bu) (VStr rp) (VStr rc) (server w cs) = 0%nat ->
  update_report_assignment rp bu rc apt o ct so cl w
  = (inr ("❌ No existe una asignación del reporte '" +:+ rp
          +:+ "' para el rol '" +:+ rc +:+ "' en la unidad " +:+ bu),
     W (server w) (sessions w) cs (server w cs) true []
       (log w ++ [EConnect cs;
                  EExecute conn
                    (CountAssigned (VStr bu) (VStr rp) (VStr rc))])).
Proof.
  intros Hf cs conn Hc. apply wp_eq. unfold update_report_assignment.
  wp_steps. fold cs. rewrite Hc. wp_steps.
  split; [done|]. by rewrite <- !app_assoc.
Qed.

(** X9. bulk_update_report_assignments with at least one of the role
    codes assigned, at least one field given and a driver that raises
    nothing: in the committed table every row of the report and unit whose
    role is among the codes has exactly the given fields replaced, the
    rest is unchanged, and the number of updated records in the text is
    the number of rows the check counted.  Codes without an assignment are
    passed over in silence. *)
Theorem bulk_update_writes_given_fields rp bu codes apt o ct so cl w :
  faults w = [] ->
  let cs := conn_string default_config in
  let hit := key_matches_in (VStr bu) (VStr rp) (map VStr codes) in
  let found := count_assigned_in (VStr bu) (VStr rp) (map VStr codes)
                 (server w cs) in
  found <> 0%nat ->
  update_sets apt o ct so cl <> [] ->
  let out := bulk_update_report_assignments rp bu codes apt o ct so cl w in
  assigned_reports (server out.2 cs)
  = map (fun a => if hit a then updated apt o ct so cl a else a)
        (assigned_reports (server w cs))
  /\ default_roles (server out.2 cs) = default_roles (server w cs)
  /\ columns_config (server out.2 cs) = columns_config (server w cs)
  /\ exists rest,
       out.1
       = inr ("✅ Actualización masiva completada exitosamente!" +:+ nl
              +:+ nl
              +:+ "📋 Detalles de la actualización:" +:+ nl
              +:+ "  • Reporte: " +:+ rp +:+ nl
              +:+ "  • Unidad: " +:+ bu +:+ nl
              +:+ "  • Registros actualizados: " +:+ pretty found +:+ nl
              +:+ rest).
Proof.
  intros Hf cs hit found Hc Hsets out. subst out.
  set (Q := fun (r : exn + string) (w' : world) =>
    assigned_reports (server w' cs)
    = map (fun a => if hit a then updated apt o ct so cl a else a)
          (assigned_reports (server w cs))
    /\ default_roles (server w' cs) = default_roles (server w cs)
    /\ columns_config (server w' cs) = columns_config (server w cs)
    /\ exists rest,
         r = inr ("✅ Actualización masiva completada exitosamente!" +:+ nl
                  +:+ nl
                  +:+ "📋 Detalles de la actualización:" +:+ nl
                  +:+ "  • Reporte: " +:+ rp +:+ nl
                  +:+ "  • Unidad: " +:+ bu +:+ nl
                  +:+ "  • Registros actualizados: " +:+ pretty found +:+ nl
                  +:+ rest)).
  change (wp (bulk_update_report_assignments rp bu codes apt o ct so cl) Q w).
  unfold bulk_update_report_assignments.
  destruct codes as [|code codes].
  { exfalso. apply Hc. apply count_assigned_in_nil. }
  pose proof (find_unbindable_text 2 (code :: codes)) as Hb.
  pose proof (update_sets_bindable apt o ct so cl (bu :: rp :: code :: codes)
                0%nat) as Hb'.
  apply Nat.eqb_neq in Hc.
  wp_steps. cbn [app find_unbindable]. rewrite Hb. wp_steps.
  fold cs. fold found. rewrite Hc. wp_steps.
  cbn [app find_unbindable]. rewrite Hb. wp_steps.
  destruct (update_sets apt o ct so cl) as [|set sets'] eqn:Es; [done|].
  rewrite <- Es in *.
  wp_prim. wp_prim. cbn [app map] in Hb' |- *. rewrite Hb'.
  unfold update_where. wp_steps.
  unfold Q. cbn [server W log]. unfold publish. rewrite String.eqb_refl.
  cbn [update_where fst snd assigned_reports default_roles columns_config].
  split_and?; try reflexivity.
  - apply map_ext. intros a. subst hit. cbn [map].
    destruct (key_matches_in _ _ _ a); [|done].
    apply fold_apply_update_sets.
  - subst found. unfold count_assigned_in. cbn [map]. by eexists.
Qed.

(** *** Operations that only read *)

Ltac read_only_leaf :=
  split; [ reflexivity |];
  first
    [ by (exists []; rewrite app_nil_r)
    | eexists; split;
      [ cbn [log W]; rewrite <- ?app_assoc; reflexivity
      | forall_events ] ].

(** X11. Whatever the driver does, get_table_structure leaves the
    committed state of every database as it was and never calls commit. *)
Theorem get_table_structure_commits_nothing t dk w :
  let out := get_table_structure t dk w in
  server out.2 = server w
  /\ exists evs, log out.2 = log w ++ evs /\ Forall not_commit evs.
Proof.
  cbn zeta.
  change (wp (get_table_structure t dk)
            (fun _ w' =>
               server w' = server w
               /\ exists evs, log w' = log w ++ evs /\ Forall not_commit evs)
            w).
  unfold get_table_structure. wp_run; read_only_leaf.
Qed.

End FurtherProperties.

(** ** Texts built by appending *)

Lemma fold_left_append {A} (f : A -> string) (l : list A) : forall a b,
  fold_left (fun text x => text +:+ f x) l (a +:+ b)
  = a +:+ fold_left (fun text x => text +:+ f x) l b.
Proof.
  induction l as [|x l IH]; intros a b; [done|].
  cbn [fold_left]. by rewrite append_assoc, IH.
Qed.

Lemma append_empty (a : string) : a +:+ "" = a.
Proof.
  induction a as [|ch a IH]; [done|]. by rewrite append_cons, IH.
Qed.

Lemma fold_left_append_nil {A} (f : A -> string) (l : list A) a :
  fold_left (fun text x => text +:+ f x) l a
  = a +:+ fold_left (fun text x => text +:+ f x) l "".
Proof.
  rewrite <- (fold_left_append f l a ""). by rewrite append_empty.
Qed.

Lemma t_for_add {A} (f : A -> string) (l : list A) : forall result w,
  t_for l (fun x => add (f x)) result w
  = (inr (inr tt, fold_left (fun text x => text +:+ f x) l result), w).
Proof.
  induction l as [|x l IH]; intros result w; [done|].
  cbn [t_for fold_left]. unfold t_bind at 1, add at 1, bind, ret.
  apply IH.
Qed.

Lemma wp_add s result (Q : exn + (exn + unit) * string -> world -> Prop) w :
  Q (inr (inr tt, result +:+ s)) w -> wp (add s result) Q w.
Proof. exact id. Qed.

Ltac t_unfold := unfold text_of, t_try, t_bind, call, t_ret.

Ltac wp_text :=
  wp_simpl;
  repeat first
    [ wp_prim
    | lazymatch goal with
      | |- wp (add _ _) _ _ => apply wp_add
      | |- wp (t_for _ (fun x => add _) _) _ _ =>
        eapply wp_of_eq; [apply t_for_add|]
      end; wp_simpl
    | wp_dyn
    | lazymatch goal with
      | |- wp (match ?x with _ => _ end _) _ _ => destruct x eqn:?
      end; wp_simpl
    | wp_case ].

Ltac visit_leaf :=
  rewrite ?fold_left_append, ?append_assoc;
  eexists _, _; split; [reflexivity|];
  split; [ cbn [log W]; rewrite <- ?app_assoc; reflexivity |];
  split; reflexivity.

Section SchemaSearchProperties.
Context `{Runtime}.

(** One database of the search, whatever the driver does. *)
Lemma search_in_any t k c result w :
  lookup_config k DB_CONFIGS = Some c ->
  wp (search_in t (k, c) result)
    (fun r w' => exists block evs,
       r = inr (inr tt, result +:+ block)
       /\ log w' = log w ++ evs
       /\ connections evs = [conn_string c]
       /\ server w' = server w)
    w.
Proof.
  intros Hk. unfold search_in. t_unfold. wp_text; visit_leaf.
Qed.

(** The loop over the databases, whatever the driver does. *)
Lemma search_loop_any t entries :
  Forall (fun e => lookup_config e.1 DB_CONFIGS = Some e.2) entries ->
  forall result w,
  wp (t_for entries (search_in t) result)
    (fun r w' => exists blocks evs,
       r = inr (inr tt, result +:+ blocks)
       /\ log w' = log w ++ evs
       /\ connections evs = map (fun e => conn_string e.2) entries
       /\ server w' = server w)
    w.
Proof.
  induction 1 as [|[k c] entries Hk _ IH]; intros result w.
  - cbn [t_for]. unfold t_ret. wp_steps. exists "", [].
    by rewrite append_empty, app_nil_r.
  - cbn [t_for]. unfold t_bind at 1. wp_prim.
    eapply wp_mono; [|by apply search_in_any].
    intros r w' (block & evs & -> & Hlog & Hconn & Hsrv).
    eapply wp_mono; [|apply IH].
    intros r w'' (blocks & evs' & -> & Hlog' & Hconn' & Hsrv').
    exists (block +:+ blocks), (evs ++ evs').
    rewrite append_assoc, Hlog', Hlog, app_assoc, Hsrv', Hsrv.
    split_and?; try done.
    unfold connections in *. rewrite omap_app. cbn [map snd].
    by rewrite Hconn, Hconn'.
Qed.

(** X13. Whatever the driver does, search_table_in_all_databases asks for
    one connection to each configured database, in the order of the
    registry, so a failure at one database does not keep it from the next;
    its text always starts with the heading, the failures being reported
    after it, and it commits nothing. *)
Theorem search_visits_every_database t w :
  let out := search_table_in_all_databases t w in
  exists blocks evs,
    out.1 = inr ("🔍 Buscando tabla '" +:+ t
                 +:+ "' en todas las bases de datos:" +:+ nl +:+ nl
                 +:+ blocks)
    /\ log out.2 = log w ++ evs
    /\ connections evs
       = [conn_string default_config; conn_string secondary_config]
    /\ server out.2 = server w.
Proof.
  cbn zeta.
  change (wp (search_table_in_all_databases t)
    (fun r w' => exists blocks evs,
       r = inr ("🔍 Buscando tabla '" +:+ t
                +:+ "' en todas las bases de datos:" +:+ nl +:+ nl
                +:+ blocks)
       /\ log w' = log w ++ evs
       /\ connections evs
          = [conn_string default_config; conn_string secondary_config]
       /\ server w' = server w) w).
  unfold search_table_in_all_databases, text_of. wp_prim. wp_prim.
  eapply wp_mono; [|apply search_loop_any].
  - intros r w' (blocks & evs & -> & Hlog & Hconn & Hsrv). wp_steps.
    exists blocks, evs. rewrite !append_assoc. by split_and?.
  - repeat constructor.
Qed.

(** One database of the search when the driver raises nothing. *)
Lemma search_in_runs t k c result w :
  lookup_config k DB_CONFIGS = Some c ->
  faults w = [] ->
  let cs := conn_string c in
  let conn := length (sessions w) in
  search_in t (k, c) result w
  = (inr (inr tt, result +:+ found_text t c (server w cs)),
     W (server w) (sessions w) cs (server w cs) false []
       (log w ++ [EConnect cs; EExecute conn (SelectColumns (VStr t));
                  EClose conn])).
Proof.
  intros Hk Hf cs conn. apply wp_eq. unfold search_in, found_text.
  t_unfold. wp_steps. fold cs.
  destruct (select_columns (VStr t) (server w cs)) as [|col cols] eqn:E;
    wp_text.
  - by rewrite <- !app_assoc.
  - rewrite <- !app_assoc. split; [|done].
    by rewrite fold_left_append_nil, !append_assoc.
Qed.

(** X14. With a driver that raises nothing, the text of
    search_table_in_all_databases is the heading followed, for the default
    and then the secondary database, by the columns of the table there or
    by the line that says it was not found; each connection is closed,
    also where the table was not found. *)
Theorem search_every_database_runs t w :
  faults w = [] ->
  let cs1 := conn_string default_config in
  let cs2 := conn_string secondary_config in
  let conn := length (sessions w) in
  let out := search_table_in_all_databases t w in
  out.1 = inr ("🔍 Buscando tabla '" +:+ t
               +:+ "' en todas las bases de datos:" +:+ nl +:+ nl
               +:+ found_text t default_config (server w cs1)
               +:+ found_text t secondary_config (server w cs2))
  /\ log out.2
     = log w ++ [EConnect cs1; EExecute conn (SelectColumns (VStr t));
                 EClose conn;
                 EConnect cs2; EExecute (S conn) (SelectColumns (VStr t));
                 EClose (S conn)]
  /\ open_connections out.2 = open_connections w.
Proof.
  intros Hf cs1 cs2 conn out. subst out.
  set (Q := fun (r : exn + string) (w' : world) =>
    r = inr ("🔍 Buscando tabla '" +:+ t
             +:+ "' en todas las bases de datos:" +:+ nl +:+ nl
             +:+ found_text t default_config (server w cs1)
             +:+ found_text t secondary_config (server w cs2))
    /\ log w'
       = log w ++ [EConnect cs1; EExecute conn (SelectColumns (VStr t));
                   EClose conn;
                   EConnect cs2; EExecute (S conn) (SelectColumns (VStr t));
                   EClose (S conn)]
    /\ open_connections w' = open_connections w).
  change (wp (search_table_in_all_databases t) Q w).
  unfold search_table_in_all_databases, text_of.
  cbn [t_for DB_CONFIGS]. unfold t_bind. wp_prim. wp_prim. wp_prim.
  eapply wp_of_eq;
    [by apply (search_in_runs t "default" default_config)|].
  fold cs1 conn. wp_steps.
  eapply wp_of_eq;
    [by apply (search_in_runs t "INTEGRACION_CW_20_DEV" secondary_config)|].
  cbn [server W log sessions]. fold cs2. unfold t_ret. wp_steps.
  unfold Q. split_and?.
  - by rewrite !append_assoc.
  - rewrite length_app. cbn [length]. rewrite Nat.add_1_r. fold conn.
    cbn [log W]. by rewrite <- !app_assoc.
  - rewrite (open_connections_W _ _ _ _ _ _ _
               (W (server w) (sessions w) cs1 (server w cs1) false []
                  [])) by done.
    rewrite (open_connections_W _ _ _ _ _ _ _ w) by done. lia.
Qed.

(** *** Grouping the rows by table *)

Lemma key_eqb_eq a b : key_eqb a b = true -> a = b.
Proof.
  destruct a, b; cbn; try done.
  - intros E. apply Z.eqb_eq in E. by subst.
  - intros E. apply String.eqb_eq in E. by subst.
Qed.

Lemma key_eqb_text a b : key_eqb (VStr a) (VStr b) = String.eqb a b.
Proof. reflexivity. Qed.

Lemma tables_get_snoc k k' v t :
  tables_get k (t ++ [(k', v)])
  = match tables_get k t with
    | Some cols => Some cols
    | None => if key_eqb k k' then Some v else None
    end.
Proof.
  induction t as [|[k1 cols] t IH]; [done|].
  cbn [app tables_get]. by destruct (key_eqb k k1).
Qed.

Lemma tables_get_append_same k c t cols :
  tables_get k t = Some cols ->
  tables_get k (tables_append k c t) = Some (cols ++ [c]).
Proof.
  induction t as [|[k1 cols1] t IH]; [done|].
  cbn [tables_get tables_append]. destruct (key_eqb k k1) eqn:E.
  - intros [= ->]. cbn [tables_get]. by rewrite E.
  - intros Hget. cbn [tables_get]. rewrite E. by apply IH.
Qed.

Lemma tables_get_append_other k k' c t :
  key_eqb k k' = false ->
  tables_get k (tables_append k' c t) = tables_get k t.
Proof.
  intros Hne. induction t as [|[k1 cols1] t IH]; [done|].
  cbn [tables_get tables_append]. destruct (key_eqb k' k1) eqn:E.
  - apply key_eqb_eq in E. subst k1. cbn [tables_get]. by rewrite Hne.
  - cbn [tables_get]. by rewrite IH.
Qed.

(** The rows the loop has grouped under a name are the rows of that name,
    in the order of the result set. *)
Lemma group_columns_from columns : forall i tables_data w,
  Forall (fun col => exists s, TABLE_NAME col = VStr s) columns ->
  exists grouped,
    for_each (fun _ col tables_data => group_column tables_data col) i
      columns tables_data w
    = (inr grouped, w)
    /\ forall n,
         tables_get (VStr n) grouped
         = match columns_named n columns with
           | [] => tables_get (VStr n) tables_data
           | found =>
             Some (default [] (tables_get (VStr n) tables_data)
                   ++ map describe_column found)
           end.
Proof.
  induction columns as [|col columns IH]; intros i tables_data w Hcols.
  { exists tables_data. by split. }
  apply Forall_cons in Hcols as [[s Hs] Hcols].
  cbn [for_each]. unfold bind at 1, group_column at 1. rewrite Hs.
  unfold ret at 1.
  set (tables_data' :=
    match tables_get (VStr s) tables_data with
    | Some _ => tables_data
    | None => tables_data ++ [(VStr s, [])]
    end).
  destruct (IH (S i)
              (tables_append (VStr s) (describe_column col) tables_data') w
              Hcols) as (grouped & Hrun & Hget).
  exists grouped. split; [exact Hrun|]. intros n. rewrite Hget.
  unfold columns_named. rewrite filter_cons, Hs, key_eqb_text.
  fold (columns_named n columns).
  assert (Hs' : tables_get (VStr s) tables_data'
                = Some (default [] (tables_get (VStr s) tables_data))).
  { unfold tables_data'.
    destruct (tables_get (VStr s) tables_data) as [cols|] eqn:E; [done|].
    rewrite tables_get_snoc, E, key_eqb_text. by rewrite String.eqb_refl. }
  destruct (String.eqb n s) eqn:E.
  - apply String.eqb_eq in E. subst n. rewrite decide_True by done.
    rewrite (tables_get_append_same _ _ _ _ Hs'). cbn [default map].
    destruct (columns_named s columns); [done|].
    unfold id. by rewrite <- app_assoc.
  - rewrite decide_False by done.
    rewrite tables_get_append_other by (by rewrite key_eqb_text).
    assert (Hn : tables_get (VStr n) tables_data'
                 = tables_get (VStr n) tables_data).
    { unfold tables_data'. destruct (tables_get (VStr s) tables_data);
        [done|].
      rewrite tables_get_snoc, key_eqb_text, E.
      by destruct (tables_get (VStr n) tables_data). }
    by rewrite Hn.
Qed.

Lemma group_columns_spec columns w :
  Forall (fun col => exists s, TABLE_NAME col = VStr s) columns ->
  exists grouped,
    group_columns columns w = (inr grouped, w)
    /\ forall n,
         tables_get (VStr n) grouped
         = match columns_named n columns with
           | [] => None
           | found => Some (map describe_column found)
           end.
Proof.
  intros Hcols.
  destruct (group_columns_from columns 0 [] w Hcols)
    as (grouped & Hrun & Hget).
  exists grouped. split; [exact Hrun|]. intros n. by rewrite Hget.
Qed.

(** *** What the statement selects *)

Lemma insert_sorted_elem {A} (le : A -> A -> bool) x y l :
  y ∈ insert_sorted le x l <-> y = x \/ y ∈ l.
Proof.
  induction l as [|z l IH]; cbn [insert_sorted].
  - rewrite list_elem_of_singleton, elem_of_nil. tauto.
  - destruct (le x z).
    + by rewrite (elem_of_cons (z :: l)).
    + rewrite !elem_of_cons, IH. tauto.
Qed.

Lemma order_by_elem {A} (le : A -> A -> bool) y l :
  y ∈ order_by le l <-> y ∈ l.
Proof.
  unfold order_by. induction l as [|x l IH]; [done|].
  cbn [fold_right]. rewrite insert_sorted_elem, elem_of_cons, IH. tauto.
Qed.

Lemma select_columns_in_text names d :
  Forall (fun col => exists s, TABLE_NAME col = VStr s)
         (select_columns_in (map VStr names) d).
Proof.
  apply Forall_forall. intros col Hcol. unfold select_columns_in in Hcol.
  apply order_by_elem, list_elem_of_filter in Hcol as [Hin _].
  apply existsb_exists in Hin as (v & Hv & Heq).
  apply list_elem_of_In, list_elem_of_fmap in Hv as (n & -> & _).
  destruct (TABLE_NAME col); try discriminate Heq. by eexists.
Qed.

(** *** Several tables at once *)

Lemma fold_left_map_append {A B} (g : A -> B) (f : B -> string) l : forall a,
  fold_left (fun text y => text +:+ f y) (map g l) a
  = fold_left (fun text x => text +:+ f (g x)) l a.
Proof. induction l as [|x l IH]; intros a; [done|]. apply IH. Qed.

(** The part of the answer for one requested name. *)
Lemma table_text_grouped columns grouped n result :
  (forall n,
     tables_get (VStr n) grouped
     = match columns_named n columns with
       | [] => None
       | found => Some (map describe_column found)
       end) ->
  match tables_get (VStr n) grouped with
  | Some cols =>
    fold_left
      (fun result col =>
         result +:+ "  • " +:+ py_str (ci_name col) +:+ ": "
         +:+ py_str (ci_type col) +:+ ci_length col +:+ " - "
         +:+ ci_nullable col +:+ nl)
      cols (result +:+ "🗂️ Tabla: " +:+ n +:+ nl)
    +:+ nl
  | None => result +:+ "❌ Tabla '" +:+ n +:+ "' no encontrada" +:+ nl +:+ nl
  end
  = result +:+ table_text columns n.
Proof.
  intros Hget. rewrite Hget. unfold table_text.
  destruct (columns_named n columns) as [|col found]; [done|].
  rewrite (fold_left_map_append describe_column
             (fun col => "  • " +:+ py_str (ci_name col) +:+ ": "
                         +:+ py_str (ci_type col) +:+ ci_length col +:+ " - "
                         +:+ ci_nullable col +:+ nl)).
  change (fun text x =>
            text +:+ "  • " +:+ py_str (ci_name (describe_column x)) +:+ ": "
            +:+ py_str (ci_type (describe_column x))
            +:+ ci_length (describe_column x) +:+ " - "
            +:+ ci_nullable (describe_column x) +:+ nl)
    with (fun text x => text +:+ render_column x).
  rewrite fold_left_append_nil. by rewrite !append_assoc.
Qed.

Lemma fold_left_table_text columns grouped names :
  (forall n,
     tables_get (VStr n) grouped
     = match columns_named n columns with
       | [] => None
       | found => Some (map describe_column found)
       end) ->
  forall result,
  fold_left
    (fun result table_name =>
       match tables_get (VStr table_name) grouped with
       | Some cols =>
         fold_left
           (fun result col =>
              result +:+ "  • " +:+ py_str (ci_name col) +:+ ": "
              +:+ py_str (ci_type col) +:+ ci_length col +:+ " - "
              +:+ ci_nullable col +:+ nl)
           cols (result +:+ "🗂️ Tabla: " +:+ table_name +:+ nl)
         +:+ nl
       | None =>
         result +:+ "❌ Tabla '" +:+ table_name +:+ "' no encontrada"
         +:+ nl +:+ nl
       end)
    names result
  = fold_left (fun text n => text +:+ table_text columns n) names result.
Proof.
  intros Hget. induction names as [|n names IH]; intros result; [done|].
  cbn [fold_left]. rewrite (table_text_grouped columns grouped n result Hget).
  apply IH.
Qed.

(** X15. get_multiple_table_structures with a driver that raises nothing
    and a statement that returns rows: after the heading, the text has one
    part per requested name, in the order of the request, which lists the
    returned rows whose TABLE_NAME is spelled exactly like the name, and
    says "no encontrada" when there is none, even if the engine matched
    the name under its collation; the connection is closed. *)
Theorem get_multiple_table_structures_runs names key c w :
  names <> [] ->
  lookup_config key DB_CONFIGS = Some c ->
  faults w = [] ->
  let cs := conn_string c in
  let conn := length (sessions w) in
  let columns := select_columns_in (map VStr names) (server w cs) in
  columns <> [] ->
  let out := get_multiple_table_structures names key w in
  out.1 = inr (fold_left (fun text n => text +:+ table_text columns n) names
                 ("📋 Estructuras de tablas en "
                  +:+ env_str (cfg_database c) +:+ ":" +:+ nl +:+ nl))
  /\ log out.2
     = log w ++ [EConnect cs;
                 EExecute conn
                   (RawSQL (columns_in_query "        "
                              (join "," (map (fun _ => "?") names))));
                 EClose conn]
  /\ open_connections out.2 = open_connections w.
Proof.
  intros Hnames Hk Hf cs conn columns Hcols out. subst out.
  set (Q := fun (r : exn + string) (w' : world) =>
    r = inr (fold_left (fun text n => text +:+ table_text columns n) names
               ("📋 Estructuras de tablas en "
                +:+ env_str (cfg_database c) +:+ ":" +:+ nl +:+ nl))
    /\ log w'
       = log w ++ [EConnect cs;
                   EExecute conn
                     (RawSQL (columns_in_query "        "
                                (join "," (map (fun _ => "?") names))));
                   EClose conn]
    /\ open_connections w' = open_connections w).
  change (wp (get_multiple_table_structures names key) Q w).
  unfold get_multiple_table_structures.
  destruct names as [|n names]; [done|].
  wp_steps. rewrite find_unbindable_text. wp_steps. fold cs columns.
  destruct columns as [|col cols] eqn:E; [done|]. rewrite <- E.
  wp_prim.
  destruct (group_columns_spec columns
              (W (server w) (sessions w) cs (server w cs) true []
                 ((log w ++ [EConnect cs])
                  ++ [EExecute (length (sessions w))
                        (RawSQL (columns_in_query "        "
                                   (join "," (map (fun _ => "?")
                                                  (n :: names)))))])))
    as (grouped & Hrun & Hget).
  { apply select_columns_in_text. }
  eapply wp_of_eq; [exact Hrun|]. wp_steps.
  unfold Q. rewrite <- E. split_and?.
  - by rewrite (fold_left_table_text columns grouped _ Hget).
  - cbn [log W]. by rewrite <- !app_assoc.
  - rewrite (open_connections_W _ _ _ _ _ _ _ w) by done. lia.
Qed.

(** X16. get_multiple_table_structures when the statement returns no row,
    with a driver that raises nothing: the text is the warning with the
    requested names joined by commas, and the connection stays open. *)
Theorem get_multiple_table_structures_not_found names key c w :
  names <> [] ->
  lookup_config key DB_CONFIGS = Some c ->
  faults w = [] ->
  let cs := conn_string c in
  let conn := length (sessions w) in
  select_columns_in (map VStr names) (server w cs) = [] ->
  get_multiple_table_structures names key w
  = (inr ("⚠️ No se encontraron las tablas '" +:+ join ", " names
          +:+ "' en la base de datos '" +:+ env_str (cfg_database c)
          +:+ "'"),
     W (server w) (sessions w) cs (server w cs) true []
       (log w ++ [EConnect cs;
                  EExecute conn
                    (RawSQL (columns_in_query "        "
                               (join "," (map (fun _ => "?") names))))])).
Proof.
  intros Hnames Hk Hf cs conn Hcols. apply wp_eq.
  unfold get_multiple_table_structures.
  destruct names as [|n names]; [done|].
  wp_steps. rewrite find_unbindable_text. wp_steps. fold cs.
  rewrite Hcols. wp_steps. split; [done|]. by rewrite <- !app_assoc.
Qed.

(** *** Several tables in every database *)

Lemma wp_t_ret {A} (a : A) result
    (Q : exn + (exn + A) * string -> world -> Prop) w :
  Q (inr (inr a, result)) w -> wp (t_ret a result) Q w.
Proof. exact id. Qed.

Lemma wp_call {A} (m : M A) result
    (Q : exn + (exn + A) * string -> world -> Prop) w :
  wp m (fun r w' => match r with
                    | inl e => Q (inr (inl e, result)) w'
                    | inr a => Q (inr (inr a, result)) w'
                    end) w ->
  wp (call m result) Q w.
Proof.
  unfold wp, call, try_except, bind, ret.
  destruct (m w) as [[e|a] w']; exact id.
Qed.

Lemma wp_t_bind {A B} (m : T A) (k : A -> T B) result
    (Q : exn + (exn + B) * string -> world -> Prop) w :
  wp (m result)
    (fun r w' => match r with
                 | inl e => Q (inl e) w'
                 | inr (inl e, result') => Q (inr (inl e, result')) w'
                 | inr (inr a, result') => wp (k a result') Q w'
                 end) w ->
  wp (t_bind m k result) Q w.
Proof.
  unfold wp, t_bind, bind, ret.
  destruct (m result w) as [[e|[[e|a] result']] w']; exact id.
Qed.

Lemma wp_t_try (m : T unit) h result
    (Q : exn + (exn + unit) * string -> world -> Prop) w :
  wp (m result)
    (fun r w' => match r with
                 | inl e => Q (inl e) w'
                 | inr (inl e, result') => wp (h e result') Q w'
                 | inr (inr a, result') => Q (inr (inr a, result')) w'
                 end) w ->
  wp (t_try m h result) Q w.
Proof.
  unfold wp, t_try, bind, ret.
  destruct (m result w) as [[e|[[e|a] result']] w']; exact id.
Qed.

(** Grouping asks nothing of the driver. *)
Lemma group_columns_pure columns w :
  exists r, group_columns columns w = (r, w).
Proof.
  unfold group_columns. generalize 0%nat ([] : tables).
  induction columns as [|col columns IH]; intros i tables_data.
  { by eexists. }
  cbn [for_each]. unfold bind at 1, group_column at 1.
  destruct (TABLE_NAME col); try apply IH. by eexists.
Qed.

Lemma wp_group_columns columns (Q : exn + tables -> world -> Prop) w :
  (forall r, Q r w) -> wp (group_columns columns) Q w.
Proof.
  intros HQ. destruct (group_columns_pure columns w) as [r Hr].
  unfold wp. rewrite Hr. apply HQ.
Qed.

(** The loop over the requested names only appends text. *)
Lemma tables_loop_text grouped names : forall result w,
  exists text,
    t_for names
      (fun table_name =>
         match tables_get (VStr table_name) grouped with
         | Some cols =>
           (add ("  ✅ " +:+ table_name +:+ ":" +:+ nl) ;;
            t_for cols (fun col =>
              add ("    • " +:+ py_str (ci_name col) +:+ ": "
                   +:+ py_str (ci_type col) +:+ ci_length col +:+ " - "
                   +:+ ci_nullable col +:+ nl)))%T
         | None => add ("  ❌ " +:+ table_name +:+ ": No encontrada" +:+ nl)
         end) result w
    = (inr (inr tt, result +:+ text), w).
Proof.
  induction names as [|n names IH]; intros result w.
  { exists "". by rewrite append_empty. }
  cbn [t_for]. unfold t_bind at 1, bind at 1.
  destruct (tables_get (VStr n) grouped) as [cols|].
  - unfold t_bind at 1, add at 1, bind at 1, ret at 1.
    rewrite t_for_add.
    destruct (IH (fold_left
                    (fun text x =>
                       text +:+ "    • " +:+ py_str (ci_name x) +:+ ": "
                       +:+ py_str (ci_type x) +:+ ci_length x +:+ " - "
                       +:+ ci_nullable x +:+ nl)
                    cols (result +:+ "  ✅ " +:+ n +:+ ":" +:+ nl)) w)
      as [text Htext].
    rewrite Htext. rewrite fold_left_append, append_assoc. by eexists.
  - unfold add at 1, ret at 1.
    destruct (IH (result +:+ "  ❌ " +:+ n +:+ ": No encontrada" +:+ nl) w)
      as [text Htext].
    rewrite Htext. rewrite append_assoc. by eexists.
Qed.

Lemma wp_tables_loop grouped names result
    (Q : exn + (exn + unit) * string -> world -> Prop) w :
  (forall text, Q (inr (inr tt, result +:+ text)) w) ->
  wp (t_for names
        (fun table_name =>
           match tables_get (VStr table_name) grouped with
           | Some cols =>
             (add ("  ✅ " +:+ table_name +:+ ":" +:+ nl) ;;
              t_for cols (fun col =>
                add ("    • " +:+ py_str (ci_name col) +:+ ": "
                     +:+ py_str (ci_type col) +:+ ci_length col +:+ " - "
                     +:+ ci_nullable col +:+ nl)))%T
           | None =>
             add ("  ❌ " +:+ table_name +:+ ": No encontrada" +:+ nl)
           end) result) Q w.
Proof.
  intros HQ. destruct (tables_loop_text grouped names result w) as [text Ht].
  unfold wp. rewrite Ht. apply HQ.
Qed.

Ltac wp_text_prim :=
  lazymatch goal with
  | |- wp (t_try _ _ _) _ _ => apply wp_t_try
  | |- wp (t_bind _ _ _) _ _ => apply wp_t_bind
  | |- wp (call _ _) _ _ => apply wp_call
  | |- wp (t_ret _ _) _ _ => apply wp_t_ret
  | |- wp (add _ _) _ _ => apply wp_add
  | |- wp (group_columns _) _ _ =>
    apply wp_group_columns; intros [?e|?grouped]
  | |- wp (t_for _ (fun x => match tables_get _ _ with _ => _ end) _) _ _ =>
    apply wp_tables_loop; intros ?text
  | |- wp (match ?x with _ => _ end _) _ _ => destruct x eqn:?
  end; wp_simpl.

Ltac wp_texts := wp_simpl; repeat first [wp_prim | wp_text_prim | wp_case].

(** One database of the search for several tables, whatever the driver
    does. *)
Lemma structures_in_any names k c result w :
  lookup_config k DB_CONFIGS = Some c ->
  wp (structures_in names (k, c) result)
    (fun r w' => exists block evs,
       r = inr (inr tt, result +:+ block)
       /\ log w' = log w ++ evs
       /\ connections evs = [conn_string c]
       /\ server w' = server w)
    w.
Proof.
  intros Hk. unfold structures_in. wp_texts; visit_leaf.
Qed.

Lemma structures_loop_any names entries :
  Forall (fun e => lookup_config e.1 DB_CONFIGS = Some e.2) entries ->
  forall result w,
  wp (t_for entries (structures_in names) result)
    (fun r w' => exists blocks evs,
       r = inr (inr tt, result +:+ blocks)
       /\ log w' = log w ++ evs
       /\ connections evs = map (fun e => conn_string e.2) entries
       /\ server w' = server w)
    w.
Proof.
  induction 1 as [|[k c] entries Hk _ IH]; intros result w.
  - cbn [t_for]. unfold t_ret. wp_steps. exists "", [].
    by rewrite append_empty, app_nil_r.
  - cbn [t_for]. apply wp_t_bind.
    eapply wp_mono; [|by apply structures_in_any].
    intros r w' (block & evs & -> & Hlog & Hconn & Hsrv).
    eapply wp_mono; [|apply IH].
    intros r w'' (blocks & evs' & -> & Hlog' & Hconn' & Hsrv').
    exists (block +:+ blocks), (evs ++ evs').
    rewrite append_assoc, Hlog', Hlog, app_assoc, Hsrv', Hsrv.
    split_and?; try done.
    unfold connections in *. rewrite omap_app. cbn [map snd].
    by rewrite Hconn, Hconn'.
Qed.

(** X17. Whatever the driver does, get_table_structures_across_databases
    for a list of names that is not empty asks for one connection to each
    configured database, in the order of the registry; its text always
    starts with the heading and the requested names, and it commits
    nothing. *)
Theorem structures_visit_every_database names w :
  names <> [] ->
  let out := get_table_structures_across_databases names w in
  exists blocks evs,
    out.1 = inr ("🔍 Buscando estructuras de tablas en todas las bases de datos:"
                 +:+ nl +:+ "📋 Tablas solicitadas: " +:+ join ", " names
                 +:+ nl +:+ nl +:+ blocks)
    /\ log out.2 = log w ++ evs
    /\ connections evs
       = [conn_string default_config; conn_string secondary_config]
    /\ server out.2 = server w.
Proof.
  intros Hnames. cbn zeta.
  change (wp (get_table_structures_across_databases names)
    (fun r w' => exists blocks evs,
       r = inr ("🔍 Buscando estructuras de tablas en todas las bases de datos:"
                +:+ nl +:+ "📋 Tablas solicitadas: " +:+ join ", " names
                +:+ nl +:+ nl +:+ blocks)
       /\ log w' = log w ++ evs
       /\ connections evs
          = [conn_string default_config; conn_string secondary_config]
       /\ server w' = server w) w).
  unfold get_table_structures_across_databases, text_of.
  destruct names as [|n names]; [done|]. wp_prim. wp_prim.
  eapply wp_mono; [|apply structures_loop_any].
  - intros r w' (blocks & evs & -> & Hlog & Hconn & Hsrv). wp_steps.
    exists blocks, evs. rewrite !append_assoc. by split_and?.
  - repeat constructor.
Qed.

End SchemaSearchProperties.

Section Uniqueness.
Context `{Runtime}.

(** The COUNT check finds no row for a key with a NULL in it, whatever
    the table holds. *)
Lemma count_assigned_null bu prefix role_code d :
  bu = VNone \/ prefix = VNone \/ role_code = VNone ->
  count_assigned bu prefix role_code d = 0%nat.
Proof.
  intros Hnull. apply count_zero_intro. intros a _.
  unfold key_matches.
  destruct Hnull as [-> | [-> | ->]];
    destruct (ar_business_unit a), (ar_report_prefix a), (ar_role a);
    cbn [sql_eq]; rewrite ?andb_false_r; reflexivity.
Qed.

(** An item of bulk_assign_reports_to_roles without a report prefix
    (None, sent as NULL) whose role resolves: the COUNT check finds
    nothing and the row is inserted and committed, whatever the table
    holds. *)
Lemma bulk_assign_null_prefix item vbu vrd app first rest w :
  faults w = [] ->
  let cs := conn_string default_config in
  let conn := length (sessions w) in
  let d0 := server w cs in
  let pattern := VStr ("%" +:+ py_str vrd +:+ "%") in
  let row := item_assignment item first in
  item !! "report_prefix" = Some VNone ->
  item !! "business_unit" = Some vbu ->
  item !! "role_description" = Some vrd ->
  item !! "application_type" = Some app ->
  existsb (py_eq_str app) valid_app_types = true ->
  select_roles vbu pattern d0 = first :: rest ->
  find_unbindable 0 (bound_values row) = None ->
  (bulk_assign_reports_to_roles [item] w).2
  = W (publish (server w) cs (insert_assigned row d0)) (sessions w) cs
      (insert_assigned row d0) false []
      (log w ++ [EConnect cs;
                 EExecute conn (SelectRoles vbu pattern);
                 EExecute conn (CountAssigned vbu VNone (dr_code first));
                 EExecute conn (InsertAssigned row);
                 ECommit conn; EClose conn]).
Proof.
  intros Hf cs conn d0 pattern row Hp Hbu Hrd Ha Hv Hroles Hbind.
  assert (Hreq : missing_in item required_assignment_fields = []).
  { apply missing_in_nil. cbn [forallb required_assignment_fields].
    rewrite Hp, Hbu, Hrd, Ha.
    by rewrite !bool_decide_eq_true_2 by (by eexists). }
  assert (Hcount : forall r, count_assigned vbu VNone r d0 = 0%nat).
  { intros r. apply count_assigned_null. tauto. }
  assert (Hrow : row
    = {| ar_role := dr_code first; ar_report_prefix := VNone;
         ar_business_unit := vbu; ar_application_type := app;
         ar_order := get_or item "order" VNone;
         ar_custom_tag := get_or item "custom_tag" VNone;
         ar_sales_office := get_or item "sales_office" VNone;
         ar_center_logistical := get_or item "center_logistical" VNone |}).
  { subst row. unfold item_assignment.
    by rewrite (get_or_some _ _ _ _ Hp), (get_or_some _ _ _ _ Hbu),
      (get_or_some _ _ _ _ Ha). }
  rewrite Hrow in Hbind |- *. clearbody row. clear Hrow row.
  unfold bound_values in Hbind.
  cbn [ar_role ar_report_prefix ar_business_unit ar_application_type
       ar_order ar_custom_tag ar_sales_office ar_center_logistical] in Hbind.
  match goal with
  | |- _ = ?w' =>
    change (wp (bulk_assign_reports_to_roles [item]) (fun _ w'' => w'' = w') w)
  end.
  unfold bulk_assign_reports_to_roles. wp_steps. cbn [for_each].
  unfold assign_one. rewrite Hreq. wp_steps.
  eapply wp_getitem; [done|]. wp_steps.
  eapply wp_getitem; [done|]. wp_steps.
  eapply wp_getitem; [done|]. wp_steps.
  rewrite Hv. cbn [negb]. wp_steps.
  eapply wp_getitem; [done|]. wp_steps.
  destruct app; try discriminate Hv.
  destruct vbu, (dr_code first) eqn:Hrc; try discriminate Hbind.
  all: cbn [find_unbindable] in Hbind.
  all: wp_steps; fold cs d0 pattern; rewrite Hroles; wp_steps; rewrite ?Hrc;
    wp_steps.
  all: rewrite ?Hcount; change (0 <? 0)%nat with false; wp_steps.
  all: cbn [find_unbindable ar_role ar_report_prefix ar_business_unit
            ar_application_type ar_order ar_custom_tag ar_sales_office
            ar_center_logistical];
    rewrite Hbind; wp_steps.
  all: by rewrite <- !app_assoc.
Qed.

(** The roles a description resolves to do not depend on the
    assignments. *)
Lemma select_roles_insert_assigned bu pattern row d :
  select_roles bu pattern (insert_assigned row d) = select_roles bu pattern d.
Proof. reflexivity. Qed.

(** Two calls in a row with such an item leave the row twice. *)
Lemma bulk_assign_null_prefix_twice item vbu vrd app first rest w :
  faults w = [] ->
  let cs := conn_string default_config in
  let row := item_assignment item first in
  item !! "report_prefix" = Some VNone ->
  item !! "business_unit" = Some vbu ->
  item !! "role_description" = Some vrd ->
  item !! "application_type" = Some app ->
  existsb (py_eq_str app) valid_app_types = true ->
  select_roles vbu (VStr ("%" +:+ py_str vrd +:+ "%")) (server w cs)
  = first :: rest ->
  find_unbindable 0 (bound_values row) = None ->
  let w1 := (bulk_assign_reports_to_roles [item] w).2 in
  let w2 := (bulk_assign_reports_to_roles [item] w1).2 in
  assigned_reports (server w1 cs) = assigned_reports (server w cs) ++ [row]
  /\ assigned_reports (server w2 cs)
     = assigned_reports (server w cs) ++ [row; row].
Proof.
  intros Hf cs row Hp Hbu Hrd Ha Hv Hroles Hbind w1 w2.
  pose proof (bulk_assign_null_prefix item vbu vrd app first rest w Hf
                Hp Hbu Hrd Ha Hv Hroles Hbind) as H1.
  cbv zeta in H1. fold cs row w1 in H1.
  assert (Hs1 : server w1 cs = insert_assigned row (server w cs)).
  { rewrite H1. cbn [server W]. apply publish_same. }
  assert (Hf1 : faults w1 = []) by (by rewrite H1).
  split; [by rewrite Hs1|].
  pose proof (bulk_assign_null_prefix item vbu vrd app first rest w1 Hf1
                Hp Hbu Hrd Ha Hv) as H2.
  cbv zeta in H2. fold cs row w2 in H2.
  rewrite Hs1, select_roles_insert_assigned in H2.
  specialize (H2 Hroles Hbind). rewrite H2. cbn [server W].
  rewrite publish_same. cbn [insert_assigned assigned_reports].
  by rewrite <- app_assoc.
Qed.

(** The operations that only send SELECT statements of their own commit
    nothing, whatever the driver does. *)
Lemma get_table_structure_reads t dk w :
  server (get_table_structure t dk w).2 = server w.
Proof.
  change (wp (get_table_structure t dk) (fun _ w' => server w' = server w) w).
  unfold get_table_structure. wp_run; reflexivity.
Qed.

Lemma get_multiple_table_structures_reads names dk w :
  server (get_multiple_table_structures names dk w).2 = server w.
Proof.
  change (wp (get_multiple_table_structures names dk)
            (fun _ w' => server w' = server w) w).
  unfold get_multiple_table_structures. wp_simpl.
  repeat first
    [ wp_prim | wp_dyn
    | lazymatch goal with
      | |- wp (group_columns _) _ _ =>
        apply wp_group_columns; intros [?e|?grouped]
      end; wp_simpl
    | wp_case ]; reflexivity.
Qed.

Lemma search_table_in_all_databases_reads t w :
  server (search_table_in_all_databases t w).2 = server w.
Proof.
  change (wp (search_table_in_all_databases t)
            (fun _ w' => server w' = server w) w).
  unfold search_table_in_all_databases, text_of. wp_prim. wp_prim.
  eapply wp_mono; [|apply search_loop_any].
  - intros r w' (blocks & evs & -> & _ & _ & Hsrv). by wp_steps.
  - repeat constructor.
Qed.

Lemma get_table_structures_across_databases_reads names w :
  server (get_table_structures_across_databases names w).2 = server w.
Proof.
  change (wp (get_table_structures_across_databases names)
            (fun _ w' => server w' = server w) w).
  unfold get_table_structures_across_databases, text_of.
  destruct names as [|n names]; [by wp_steps|]. wp_prim. wp_prim.
  eapply wp_mono; [|apply structures_loop_any].
  - intros r w' (blocks & evs & -> & _ & _ & Hsrv). by wp_steps.
  - repeat constructor.
Qed.

(** C1 (amended). The rows of a key (business_unit, report_prefix, role)
    are counted as the COUNT check of the source counts them, with the
    engine's [=].

    When the driver raises nothing, the role description resolves to the
    role code [rc] and the key (business_unit, report_prefix, rc) has at
    most one row, two calls of assign_report_to_role with that unit,
    prefix and description leave exactly one row for the key; the second
    call returns the already-assigned text and sends a connect, the role
    query and the COUNT check, no INSERT.

    Whatever the driver does and whatever the database holds,
    assign_report_to_role, bulk_assign_reports_to_roles,
    update_report_assignment and bulk_update_report_assignments leave
    every key with the number of rows it had, or with one row where it had
    none; rows that were duplicated stay duplicated.

    The check does not reach a key with a NULL in it: such a key counts no
    row whatever the table holds, and an item of
    bulk_assign_reports_to_roles whose report_prefix is None and whose
    role resolves is inserted by every call that the driver lets through,
    so that two calls leave the same row twice.

    get_table_structure, get_multiple_table_structures,
    search_table_in_all_databases and get_table_structures_across_databases
    commit nothing, whatever the driver does. *)
Theorem assignments_stay_unique :
  (forall rp bu rd apt o ct so cl apt' o' ct' so' cl' w first rest rc,
     faults w = [] ->
     let cs := conn_string default_config in
     let pattern := VStr ("%" +:+ rd +:+ "%") in
     select_roles (VStr bu) pattern (server w cs) = first :: rest ->
     dr_code first = VStr rc ->
     (count_assigned (VStr bu) (VStr rp) (VStr rc) (server w cs) <= 1)%nat ->
     let w1 := (assign_report_to_role rp bu rd apt o ct so cl w).2 in
     let out := assign_report_to_role rp bu rd apt' o' ct' so' cl' w1 in
     let conn := length (sessions w1) in
     count_assigned (VStr bu) (VStr rp) (VStr rc) (server out.2 cs) = 1%nat
     /\ out.1 = inr ("⚠️ El reporte '" +:+ rp
                     +:+ "' ya está asignado al rol '" +:+ rc
                     +:+ "' para la unidad " +:+ bu)
     /\ log out.2
        = log w1 ++ [EConnect cs;
                     EExecute conn (SelectRoles (VStr bu) pattern);
                     EExecute conn
                       (CountAssigned (VStr bu) (VStr rp) (VStr rc))])
  /\ (forall rp bu rd apt o ct so cl w cs,
        no_new_duplicates (server w cs)
          (server (assign_report_to_role rp bu rd apt o ct so cl w).2 cs))
  /\ (forall items w cs,
        no_new_duplicates (server w cs)
          (server (bulk_assign_reports_to_roles items w).2 cs))
  /\ (forall rp bu rc apt o ct so cl w cs,
        no_new_duplicates (server w cs)
          (server (update_report_assignment rp bu rc apt o ct so cl w).2 cs))
  /\ (forall rp bu codes apt o ct so cl w cs,
        no_new_duplicates (server w cs)
          (server (bulk_update_report_assignments rp bu codes apt o ct so cl
                     w).2 cs))
  /\ (forall bu prefix role_code d,
        bu = VNone \/ prefix = VNone \/ role_code = VNone ->
        count_assigned bu prefix role_code d = 0%nat)
  /\ (forall item vbu vrd app first rest w,
        faults w = [] ->
        let cs := conn_string default_config in
        let row := item_assignment item first in
        item !! "report_prefix" = Some VNone ->
        item !! "business_unit" = Some vbu ->
        item !! "role_description" = Some vrd ->
        item !! "application_type" = Some app ->
        existsb (py_eq_str app) valid_app_types = true ->
        select_roles vbu (VStr ("%" +:+ py_str vrd +:+ "%")) (server w cs)
        = first :: rest ->
        find_unbindable 0 (bound_values row) = None ->
        let w1 := (bulk_assign_reports_to_roles [item] w).2 in
        let w2 := (bulk_assign_reports_to_roles [item] w1).2 in
        assigned_reports (server w1 cs)
        = assigned_reports (server w cs) ++ [row]
        /\ assigned_reports (server w2 cs)
           = assigned_reports (server w cs) ++ [row; row])
  /\ (forall t dk w, server (get_table_structure t dk w).2 = server w)
  /\ (forall names dk w,
        server (get_multiple_table_structures names dk w).2 = server w)
  /\ (forall t w, server (search_table_in_all_databases t w).2 = server w)
  /\ (forall names w,
        server (get_table_structures_across_databases names w).2 = server w).
Proof.
  split_and?.
  - intros. by eapply assign_twice.
  - intros. by apply (assign_report_to_role_any rp bu rd apt o ct so cl w).
  - intros. apply bulk_assign_any.
  - intros. apply update_report_assignment_any.
  - intros. apply bulk_update_report_assignments_any.
  - intros. by apply count_assigned_null.
  - intros. by eapply bulk_assign_null_prefix_twice.
  - intros. apply get_table_structure_reads.
  - intros. apply get_multiple_table_structures_reads.
  - intros. apply search_table_in_all_databases_reads.
  - intros. apply get_table_structures_across_databases_reads.
Qed.

End Uniqueness.

(** * Runs on the example server *)

#[local] Existing Instance Demo.runtime.

Lemma demo_sp_accepts : sp_accepts.
Proof. intros a d. by eexists. Qed.

(** An unknown key given to get_table_structure comes back as an error
    text, not as an exception. *)
Lemma unknown_key_is_caught :
  get_table_structure "default_roles" "ventas" (Demo.start [])
  = (inr "❌ Error al obtener estructura: Base de datos 'ventas' no configurada",
     Demo.start [])
  /\ forall e,
       (get_table_structure "default_roles" "ventas" (Demo.start [])).1
       <> inl e.
Proof. split; [reflexivity | intros e; vm_compute; discriminate]. Qed.

Lemma get_db_connection_registry_witness :
  log (get_db_connection "default" (Demo.start [])).2
  = [EConnect "DRIVER={ODBC Driver 17 for SQL Server};SERVER=sql.example.org;DATABASE=ECOSYSTEM_DEV;UID=svc_reports;PWD=secret"]
  /\ log (get_db_connection "INTEGRACION_CW_20_DEV" (Demo.start [])).2
     = [EConnect "DRIVER={ODBC Driver 17 for SQL Server};SERVER=sql.example.org;DATABASE=INTEGRACION_CW_20_DEV;UID=svc_reports;PWD=secret"]
  /\ get_db_connection "ventas" (Demo.start [])
     = (inl (ValueError "Base de datos 'ventas' no configurada"),
        Demo.start []).
Proof.
  split; [|split].
  - destruct (get_db_connection_registry "default" (Demo.start []))
      as (_ & Hdefault & _).
    exact (Hdefault eq_refl).
  - destruct (get_db_connection_registry "INTEGRACION_CW_20_DEV"
                (Demo.start [])) as (_ & _ & Hsecondary & _).
    exact (Hsecondary eq_refl).
  - destruct (get_db_connection_registry "ventas" (Demo.start []))
      as (_ & _ & _ & Hother).
    apply Hother; discriminate.
Defined.

Lemma configuration_error_is_rendered_witness :
  lookup_config "ventas" DB_CONFIGS = None
  /\ get_table_structure "default_roles" "ventas" (Demo.start [])
     = (inr ("❌ Error al obtener estructura: "
             +:+ "Base de datos '" +:+ "ventas" +:+ "' no configurada"),
        Demo.start []).
Proof.
  split; [reflexivity|].
  apply (configuration_error_is_rendered "ventas" "default_roles" "" ""
           (Demo.start [])).
  reflexivity.
Defined.

Lemma placeholder_checked_before_database_witness :
  contains "@business_unit" "SELECT 1" = false
  /\ create_report "R1" "Sales" "Ventas" "SELECT 1" None 0 None None None None
       None "table" None 0 None (Demo.start [])
     = (inr "⚠️ La query debe incluir el parámetro @business_unit",
        Demo.start []).
Proof.
  split; [reflexivity|].
  apply (proj1 placeholder_checked_before_database). reflexivity.
Defined.


Lemma test_query_contract_witness :
  test_query "SELECT 1" "1000" "default" (Demo.start [])
  = (inr "⚠️ La query debe incluir el parámetro @business_unit",
     Demo.start [])
  /\ (let out := test_query
                   "SELECT code, description FROM default_roles WHERE business_unit = @business_unit"
                   "1000" "default" (Demo.start_on Demo.seven_roles) in
      out.1
      = inr ("✅ Query ejecutada correctamente en ECOSYSTEM_DEV. Primeras 5 filas:code | description"
             +:+ nl
             +:+ "--------------------------------------------------------------------------------"
             +:+ nl
             +:+ "R1 | Uno" +:+ nl
             +:+ "R2 | Dos" +:+ nl
             +:+ "R3 | Tres" +:+ nl
             +:+ "R4 | Cuatro" +:+ nl
             +:+ "R5 | Cinco" +:+ nl
             +:+ nl +:+ "📊 Total de registros: 7")
      /\ log out.2
         = [EConnect (conn_string default_config);
            EExecute 0
              (RawSQL
                 "SELECT code, description FROM default_roles WHERE business_unit = '1000'");
            EClose 0]).
Proof.
  destruct test_query_contract as (Hwarn & Hrun & _).
  split.
  - apply Hwarn. intros (before & behind & Heq).
    assert (contains "@business_unit" "SELECT 1" = true) as Hc
      by (rewrite Heq; apply contains_app).
    discriminate Hc.
  - exact (Hrun
             "SELECT code, description FROM default_roles WHERE business_unit = @business_unit"
             "1000" "default" default_config (Demo.start_on Demo.seven_roles)
             (ex_intro _ "SELECT code, description FROM default_roles WHERE business_unit = "
                (ex_intro _ "" eq_refl))
             eq_refl eq_refl).
Defined.

(** A caller's own [business_unit] entry replaces the fixed type in the
    map that reaches the stored procedure. *)
Lemma caller_overrides_business_unit :
  let extra := [("business_unit", VStr "INT")] in
  let out := create_report "R1" "Sales" "Ventas"
               "SELECT a FROM t WHERE bu = @business_unit" (Some extra) 0
               None None None None None "table" None 0 None (Demo.start [])
  in
  map sp_params_config (sp_calls (log out.2))
  = [VStr (json_dumps (params_config (Some extra)))]
  /\ dict_get "business_unit" (params_config (Some extra))
     = Some (VStr "INT")
  /\ dict_get "business_unit" (params_config (Some extra))
     <> Some (VStr "NVARCHAR(20)").
Proof. repeat split; by vm_compute. Qed.

Lemma params_config_business_unit_witness :
  dict_get "business_unit" [("region", VStr "INT")] = None
  /\ dict_get "business_unit" (params_config (Some [("region", VStr "INT")]))
     = Some (VStr "NVARCHAR(20)").
Proof.
  split; [reflexivity|].
  destruct params_config_business_unit as (_ & _ & Hkeep & _).
  apply Hkeep. reflexivity.
Defined.

Lemma bulk_create_isolates_failures_witness :
  let items := [invalid_item; valid_item] in
  let out := bulk_create_reports items (Demo.start []) in
  exists st rest,
    out.1 = inr (render_create_state st)
    /\ render_create_state st = summary_header 1 1 +:+ rest
    /\ total_created st = 1%nat
    /\ length (failed_reports st) = 1%nat
    /\ sp_calls (log out.2) = [report_args valid_item].
Proof.
  apply (bulk_create_isolates_failures [invalid_item; valid_item]
           (Demo.start [])).
  - reflexivity.
  - exact demo_sp_accepts.
  - discriminate.
  - constructor; [right; by vm_compute|].
    constructor; [left; by vm_compute|]. constructor.
Defined.

Lemma update_without_fields_witness :
  let w := Demo.start [Demo.grant "ADM" "RPT1" "1000"] in
  faults w = []
  /\ count_assigned (VStr "1000") (VStr "RPT1") (VStr "ADM")
       (server w (conn_string default_config)) <> 0%nat
  /\ (update_report_assignment "RPT1" "1000" "ADM" None None None None None
        w).1
     = inr "⚠️ No se proporcionaron campos para actualizar".
Proof.
  split; [reflexivity|]. split; [by vm_compute|].
  destruct update_without_fields as (_ & Hrun & _).
  apply Hrun; [reflexivity | by vm_compute].
Defined.

(** Rows that are already duplicated stay duplicated: two calls leave two
    rows for the key, not one. *)
Lemma duplicates_are_not_repaired :
  let w0 := Demo.start [Demo.grant "ADM" "RPT1" "1000";
                        Demo.grant "ADM" "RPT1" "1000"] in
  let w1 := (assign_report_to_role "RPT1" "1000" "admin" (Some "sales_force")
               None None None None w0).2 in
  let w2 := (assign_report_to_role "RPT1" "1000" "admin" (Some "sales_force")
               None None None None w1).2 in
  count_assigned (VStr "1000") (VStr "RPT1") (VStr "ADM")
    (server w2 (conn_string default_config)) = 2%nat
  /\ count_assigned (VStr "1000") (VStr "RPT1") (VStr "ADM")
       (server w2 (conn_string default_config)) <> 1%nat.
Proof. split; by vm_compute. Qed.

Lemma assignments_stay_unique_witness :
  (let w := Demo.start [] in
   let cs := conn_string default_config in
   let w1 := (assign_report_to_role "RPT1" "1000" "admin" (Some "sales_force")
                None None None None w).2 in
   let out := assign_report_to_role "RPT1" "1000" "admin" (Some "sales_force")
                None None None None w1 in
   count_assigned (VStr "1000") (VStr "RPT1") (VStr "ADM") (server out.2 cs)
   = 1%nat
   /\ out.1 = inr "⚠️ El reporte 'RPT1' ya está asignado al rol 'ADM' para la unidad 1000")
  /\ (let w := Demo.start [] in
      let cs := conn_string default_config in
      let w1 := (bulk_assign_reports_to_roles [unnamed_item] w).2 in
      let w2 := (bulk_assign_reports_to_roles [unnamed_item] w1).2 in
      let row := {| ar_role := VStr "ADM"; ar_report_prefix := VNone;
                    ar_business_unit := VStr "1000";
                    ar_application_type := VStr "sales_force";
                    ar_order := VNone; ar_custom_tag := VNone;
                    ar_sales_office := VNone;
                    ar_center_logistical := VNone |} in
      assigned_reports (server w2 cs) = [row; row]).
Proof.
  destruct assignments_stay_unique
    as (Htwice & _ & _ & _ & _ & _ & Hnull & _).
  split.
  - destruct (Htwice "RPT1" "1000" "admin" (Some "sales_force") None None None
                None (Some "sales_force") None None None None (Demo.start [])
                (Demo.role "ADM" "Administrador" "sales_force" "1000") []
                "ADM") as (Hcount & Htext & _).
    + reflexivity.
    + by vm_compute.
    + reflexivity.
    + vm_compute. lia.
    + split; [exact Hcount | exact Htext].
  - destruct (Hnull unnamed_item (VStr "1000") (VStr "admin")
                (VStr "sales_force")
                (Demo.role "ADM" "Administrador" "sales_force" "1000") []
                (Demo.start [])) as (_ & Hrows).
    + reflexivity.
    + by vm_compute.
    + by vm_compute.
    + by vm_compute.
    + by vm_compute.
    + reflexivity.
    + by vm_compute.
    + by vm_compute.
    + cbv zeta. rewrite Hrows. by vm_compute.
Defined.

Lemma early_returns_leave_connection_open_witness :
  let w := Demo.start [] in
  let out := get_table_structure "no_such_table" "default" w in
  out.1 = inr ("⚠️ No se encontró la tabla '" +:+ "no_such_table"
               +:+ "' en la base de datos '"
               +:+ env_str (cfg_database default_config) +:+ "'")
  /\ open_connections out.2 = S (open_connections w).
Proof.
  destruct early_returns_leave_connection_open as (_ & Htable & _).
  exact (Htable "no_such_table" "default" default_config (Demo.start [])
           eq_refl eq_refl).
Defined.

Lemma create_report_unknown_database_key_witness :
  let w := Demo.start [] in
  let out := create_report "R1" "Sales" "Ventas"
               "SELECT a FROM t WHERE bu = @business_unit" None 0 None None
               None None None "table" None 0 (Some "ventas") w in
  lookup_config "ventas" DB_CONFIGS = None
  /\ out.1 = inr ("❌ Error al crear el reporte: " +:+ py_repr (VStr "ventas"))
  /\ length (columns_config (server out.2 (conn_string default_config)))
     = 1%nat.
Proof.
  split; [reflexivity|].
  destruct (create_report_unknown_database_key "R1" "Sales" "Ventas"
              "SELECT a FROM t WHERE bu = @business_unit" None 0 None None
              None None None "table" None 0 "ventas" (Demo.start [])
              (Demo.append_config
                 (create_report_args "R1" "Sales" "Ventas"
                    "SELECT a FROM t WHERE bu = @business_unit" None 0 None
                    None None None None "table" None 0)
                 (Demo.db [])))
    as (Htext & Hserver & _); try reflexivity.
  split; [exact Htext|]. cbn zeta. rewrite Hserver. reflexivity.
Defined.

Lemma create_one_unknown_database_key_witness :
  let srv := fun _ : string => Demo.db [] in
  let st := {| successful_reports := []; failed_reports := [];
               total_created := 0 |} in
  valid_report valid_item = true
  /\ lookup_config "ventas" DB_CONFIGS = None
  /\ create_one 0 1 (<["database_key" := VStr "ventas"]> valid_item) st
       (W srv [] "cs" (Demo.db []) true [] [])
     = (inr (fail_report st
               {| fl_index := 1;
                  fl_report_prefix := get_or valid_item "report_prefix" VNone;
                  fl_error := py_repr (VStr "ventas") |}),
        W srv [] "cs"
          (Demo.append_config (report_args valid_item) (Demo.db [])) true []
          ([] ++ [EExecute 0
                    (ExecCreateColumnsConfig (report_args valid_item))])).
Proof.
  split; [by vm_compute|]. split; [reflexivity|].
  apply (create_one_unknown_database_key (fun _ => Demo.db []) [] "cs"
           (Demo.db []) [] 1 valid_item
           {| successful_reports := []; failed_reports := [];
              total_created := 0 |}
           "ventas"
           (Demo.append_config (report_args valid_item) (Demo.db []))).
  - by vm_compute.
  - reflexivity.
  - reflexivity.
Defined.

Lemma assign_one_rejects_application_type_witness :
  let item := Demo.item [("report_prefix", VStr "RPT1");
                         ("business_unit", VStr "1000");
                         ("role_description", VStr "admin");
                         ("application_type", VStr "web")] in
  let st := {| successful_assignments := []; failed_assignments := [];
               skipped_assignments := []; total_inserted := 0 |} in
  existsb (py_eq_str (VStr "web")) valid_app_types = false
  /\ assign_one 0 1 item st (Demo.start [])
     = (inr (fail_assignment st
               {| fa_index := 1; fa_report_prefix := VStr "RPT1";
                  fa_business_unit := VStr "1000";
                  fa_error := "application_type debe ser 'sales_force' o "
                              +:+ "'merchandising', recibido: '"
                              +:+ py_str (VStr "web") +:+ "'" |}),
        Demo.start []).
Proof.
  split; [reflexivity|].
  apply (assign_one_rejects_application_type 0 1 _ _ (Demo.start [])
           (VStr "RPT1") (VStr "1000") (VStr "admin") (VStr "web"));
    by vm_compute.
Defined.

Lemma update_report_assignment_writes_given_fields_witness :
  let w := Demo.start [Demo.grant "ADM" "RPT1" "1000";
                       Demo.grant "SUP" "RPT1" "1000"] in
  let cs := conn_string default_config in
  let out := update_report_assignment "RPT1" "1000" "ADM" None (Some 7%Z)
               (Some "Top") None None w in
  faults w = []
  /\ count_assigned (VStr "1000") (VStr "RPT1") (VStr "ADM") (server w cs)
     <> 0%nat
  /\ assigned_reports (server out.2 cs)
     = map (fun a => if key_matches (VStr "1000") (VStr "RPT1") (VStr "ADM") a
                     then updated None (Some 7%Z) (Some "Top") None None a
                     else a)
           (assigned_reports (server w cs)).
Proof.
  split; [reflexivity|]. split; [by vm_compute|].
  apply (update_report_assignment_writes_given_fields "RPT1" "1000" "ADM"
           None (Some 7%Z) (Some "Top") None None
           (Demo.start [Demo.grant "ADM" "RPT1" "1000";
                        Demo.grant "SUP" "RPT1" "1000"])).
  - reflexivity.
  - by vm_compute.
  - discriminate.
Defined.

Lemma update_report_assignment_not_found_witness :
  let w := Demo.start [] in
  let cs := conn_string default_config in
  count_assigned (VStr "1000") (VStr "RPT1") (VStr "ADM") (server w cs)
  = 0%nat
  /\ update_report_assignment "RPT1" "1000" "ADM" None (Some 7%Z) None None
       None w
     = (inr ("❌ No existe una asignación del reporte '" +:+ "RPT1"
             +:+ "' para el rol '" +:+ "ADM" +:+ "' en la unidad "
             +:+ "1000"),
        W (server w) (sessions w) cs (server w cs) true []
          (log w ++ [EConnect cs;
                     EExecute (length (sessions w))
                       (CountAssigned (VStr "1000") (VStr "RPT1")
                          (VStr "ADM"))])).
Proof.
  split; [reflexivity|].
  apply (update_report_assignment_not_found "RPT1" "1000" "ADM" None (Some 7%Z)
           None None None (Demo.start [])); reflexivity.
Defined.

Lemma bulk_update_writes_given_fields_witness :
  let w := Demo.start [Demo.grant "ADM" "RPT1" "1000";
                       Demo.grant "SUP" "RPT1" "1000"] in
  let cs := conn_string default_config in
  let out := bulk_update_report_assignments "RPT1" "1000" ["ADM"; "OPS"]
               (Some "merchandising") None None None None w in
  count_assigned_in (VStr "1000") (VStr "RPT1") (map VStr ["ADM"; "OPS"])
    (server w cs) <> 0%nat
  /\ assigned_reports (server out.2 cs)
     = map (fun a => if key_matches_in (VStr "1000") (VStr "RPT1")
                          (map VStr ["ADM"; "OPS"]) a
                     then updated (Some "merchandising") None None None None a
                     else a)
           (assigned_reports (server w cs)).
Proof.
  split; [by vm_compute|].
  apply (bulk_update_writes_given_fields "RPT1" "1000" ["ADM"; "OPS"]
           (Some "merchandising") None None None None
           (Demo.start [Demo.grant "ADM" "RPT1" "1000";
                        Demo.grant "SUP" "RPT1" "1000"])).
  - reflexivity.
  - by vm_compute.
  - discriminate.
Defined.

Lemma search_every_database_runs_witness :
  let w := Demo.start [] in
  let out := search_table_in_all_databases "default_roles" w in
  faults w = []
  /\ out.1 = inr ("🔍 Buscando tabla '" +:+ "default_roles"
                  +:+ "' en todas las bases de datos:" +:+ nl +:+ nl
                  +:+ found_text "default_roles" default_config
                        (server w (conn_string default_config))
                  +:+ found_text "default_roles" secondary_config
                        (server w (conn_string secondary_config)))
  /\ open_connections out.2 = open_connections w.
Proof.
  split; [reflexivity|].
  destruct (search_every_database_runs "default_roles" (Demo.start [])
              eq_refl) as (Htext & _ & Hopen).
  split; [exact Htext | exact Hopen].
Defined.

Lemma get_multiple_table_structures_runs_witness :
  let w := Demo.start [] in
  let names := ["DEFAULT_ROLES"; "default_roles"] in
  let columns := select_columns_in (map VStr names)
                   (server w (conn_string default_config)) in
  let out := get_multiple_table_structures names "default" w in
  columns <> []
  /\ out.1 = inr (fold_left (fun text n => text +:+ table_text columns n)
                    names
                    ("📋 Estructuras de tablas en "
                     +:+ env_str (cfg_database default_config) +:+ ":"
                     +:+ nl +:+ nl))
  /\ table_text columns "DEFAULT_ROLES"
     = "❌ Tabla '" +:+ "DEFAULT_ROLES" +:+ "' no encontrada" +:+ nl +:+ nl.
Proof.
  split; [by vm_compute|]. split; [|by vm_compute].
  apply (get_multiple_table_structures_runs ["DEFAULT_ROLES"; "default_roles"]
           "default" default_config (Demo.start [])).
  - discriminate.
  - reflexivity.
  - reflexivity.
  - by vm_compute.
Defined.

Lemma get_multiple_table_structures_not_found_witness :
  let w := Demo.start [] in
  let cs := conn_string default_config in
  select_columns_in (map VStr ["orders"]) (server w cs) = []
  /\ get_multiple_table_structures ["orders"] "default" w
     = (inr ("⚠️ No se encontraron las tablas '" +:+ join ", " ["orders"]
             +:+ "' en la base de datos '"
             +:+ env_str (cfg_database default_config) +:+ "'"),
        W (server w) (sessions w) cs (server w cs) true []
          (log w ++ [EConnect cs;
                     EExecute (length (sessions w))
                       (RawSQL (columns_in_query "        "
                                  (join "," (map (fun _ => "?")
                                                 ["orders"]))))])).
Proof.
  split; [by vm_compute|].
  apply (get_multiple_table_structures_not_found ["orders"] "default"
           default_config (Demo.start [])).
  - discriminate.
  - reflexivity.
  - reflexivity.
  - by vm_compute.
Defined.

Lemma structures_visit_every_database_witness :
  let out := get_table_structures_across_databases ["default_roles"]
               (Demo.start []) in
  exists blocks evs,
    out.1 = inr ("🔍 Buscando estructuras de tablas en todas las bases de datos:"
                 +:+ nl +:+ "📋 Tablas solicitadas: "
                 +:+ join ", " ["default_roles"]
                 +:+ nl +:+ nl +:+ blocks)
    /\ log out.2 = log (Demo.start []) ++ evs
    /\ connections evs
       = [conn_string default_config; conn_string secondary_config]
    /\ server out.2 = server (Demo.start []).
Proof.
  apply (structures_visit_every_database ["default_roles"] (Demo.start [])).
  discriminate.
Defined.

